(** * The LI.FI QA test runner ([run-tests.js]) as a state-passing model

    The runner is a thin command line script: it shells out to the
    browser-automation tool once per test category, collects pass/fail
    outcomes in a [TestRunner] object, prints a console summary and writes a
    JSON report.  Everything it does is an effect on the outside world, so the
    embedding below is a small monad over an explicit [World]: the log of
    observable events (subprocess calls, console lines, pauses, file system
    calls) together with the counters that index the environment's answers.

    What the environment answers (what a subprocess returns, what the clock
    shows, whether a path exists, whether a write succeeds) is not decided by
    the script; it is a record [Env] of oracles, and every theorem quantifies
    over it. *)

From Stdlib Require Import String Ascii List ZArith Lia Bool DecimalString Sorted.
From Stdlib Require QArith_base Qround Lqa.
Import ListNotations.
Local Open Scope string_scope.
Local Open Scope Z_scope.

(** ** JavaScript values and built-ins used by the script *)

Module Js.

(** The double quote character, for command lines that embed one. *)
Definition dquote : string := String (ascii_of_nat 34) EmptyString.

(** The escape character of the ANSI colour sequences. *)
Definition esc : string := String (ascii_of_nat 27) EmptyString.

(** [String.prototype.repeat]. *)
Fixpoint repeat (s : string) (n : nat) : string :=
  match n with
  | O => EmptyString
  | S k => s ++ repeat s k
  end.

(** A number interpolated into a template literal.  All numbers of the
    script are integers. *)
Definition numberToString (z : Z) : string :=
  NilZero.string_of_int (Z.to_int z).

(** [Math.round(x / d)] for integers [x] and positive [d]: the nearest
    integer, a tie going up. *)
Definition roundDiv (x d : Z) : Z := (2 * x + d) / (2 * d).

(** [Array.prototype.includes] on an array of strings. *)
Definition includes (l : list string) (x : string) : bool :=
  existsb (String.eqb x) l.

(** [Array.prototype.indexOf]: the first position of [x], or [-1]. *)
Fixpoint indexOf (l : list string) (x : string) : Z :=
  match l with
  | [] => -1
  | y :: t =>
      if String.eqb y x then 0
      else let i := indexOf t x in
           if i =? -1 then -1 else i + 1
  end.

(** [l[i]]: [None] stands for [undefined]. *)
Definition index (l : list string) (i : Z) : option string :=
  if i <? 0 then None else nth_error l (Z.to_nat i).

(** Truthiness of a value that is a string or [undefined]. *)
Definition truthy (v : option string) : bool :=
  match v with
  | None => false
  | Some s => negb (String.eqb s EmptyString)
  end.

(** Such a value interpolated into a template literal. *)
Definition toString (v : option string) : string :=
  match v with
  | Some s => s
  | None => "undefined"
  end.

(** [v || d] for such a value. *)
Definition orElse (v : option string) (d : string) : string :=
  match v with
  | Some s => if String.eqb s EmptyString then d else s
  | None => d
  end.

(** [Array.prototype.length] as a JavaScript number. *)
Definition length {A : Type} (l : list A) : Z := Z.of_nat (List.length l).

(** An [Error] object as the script reads it: [error.message] and, for the
    errors [execSync] throws, [error.stdout]. *)
Record Error := { message : string; stdout : string }.

End Js.

(** ** The data of the script *)

(** The [type] argument of [TestRunner.log]. *)
Inductive LogType := info | success | error | warn.

(** The [colors] table of [TestRunner.log]. *)
Definition colors (type : LogType) : string :=
  match type with
  | info => Js.esc ++ "[36m"
  | success => Js.esc ++ "[32m"
  | error => Js.esc ++ "[31m"
  | warn => Js.esc ++ "[33m"
  end.

Definition colors_reset : string := Js.esc ++ "[0m".

(** An element of the [testSuites] array. *)
Record Suite := { name : string; command : string; critical : bool }.

(** What [runTestSuite] returns: [{ success, output }] or
    [{ success, error, output }]. *)
Record RunResult :=
  { rr_success : bool; rr_error : option string; rr_output : string }.

(** An element pushed to [this.results.suites]. *)
Record SuiteResult :=
  { sr_name : string; sr_success : bool; sr_critical : bool; sr_output : string }.

(** [this.results]. *)
Record Results :=
  { total : Z; passed : Z; failed : Z; skipped : Z; suites : list SuiteResult }.

(** The [summary] object of the report. *)
Record Summary :=
  { totalSuites : Z; passedSuites : Z; failedSuites : Z; criticalFailures : Z }.

(** The [report] object handed to [JSON.stringify].  The artifact is kept as
    this value: [JSON.stringify] prints the fields and the array elements in
    the order they have here.  [timestamp] is the clock reading that
    [toISOString] formats. *)
Record Report :=
  { timestamp : Z;
    duration : Z;
    environment : string;
    results : Results;
    summary : Summary }.

(** The [TestRunner] object. *)
Record TestRunner := { startTime : Z; this_results : Results }.

(** ** The outside world *)

(** How a subprocess started by [execSync] ended when it did not exit with
    status 0. *)
Inductive ExecFailure :=
| NonZeroExit (status : Z)
| TimedOut.

(** The outcome of one [execSync] call: the child exits with status 0 and
    [execSync] returns its standard output, or [execSync] throws. *)
Inductive ExecOutcome :=
| Completed (out : string)
| Failed (why : ExecFailure) (err : Js.Error).

Definition completed (o : ExecOutcome) : bool :=
  match o with
  | Completed _ => true
  | Failed _ _ => false
  end.

(** The answers of the environment. *)
Record Env :=
  { (** the outcome of the [n]-th [execSync] call, given its command and its
        [timeout] option in milliseconds *)
    env_exec : nat -> string -> option Z -> ExecOutcome;
    (** the [n]-th reading of the clock, in milliseconds *)
    env_now : nat -> Z;
    (** [fs.existsSync] *)
    env_exists : string -> bool;
    (** [fs.mkdirSync]: the error it throws, if any *)
    env_mkdir : string -> option Js.Error;
    (** [fs.writeFileSync]: the error it throws, if any *)
    env_write : string -> option Js.Error;
    (** [process.env.NODE_ENV] *)
    env_NODE_ENV : option string;
    (** [__dirname] *)
    env_dirname : string;
    (** [path.join] of Node's [path] module: what it returns for the given
        segments on the platform the script runs on *)
    env_path_join : list string -> string;
    (** [path.dirname] of the same module *)
    env_path_dirname : string -> string }.

(** What an observer of the process sees, in order. *)
Inductive Event :=
| EvExec (cmd : string) (timeout : option Z) (outcome : ExecOutcome)
| EvLog (time : Z) (type : LogType) (msg : string)
| EvPrint (text : string)
| EvError (text : string)
| EvSleep (ms : Z)
| EvExists (path : string) (answer : bool)
| EvMkdir (path : string)
| EvWriteFile (path : string) (content : Report).

Record World := { trace : list Event; execs : nat; ticks : nat }.

Definition world0 : World := {| trace := []; execs := 0; ticks := 0 |}.

(** ** The monad of the script: state, exceptions and [process.exit] *)

Inductive Completion (A : Type) :=
| Normal (a : A)
| Throw (e : Js.Error)
| Exit (code : Z).

Arguments Normal {A} a.
Arguments Throw {A} e.
Arguments Exit {A} code.

Definition M (A : Type) : Type := World -> Completion A * World.

Definition ret {A : Type} (a : A) : M A := fun w => (Normal a, w).

Definition bind {A B : Type} (m : M A) (k : A -> M B) : M B :=
  fun w =>
    match m w with
    | (Normal a, w') => k a w'
    | (Throw e, w') => (Throw e, w')
    | (Exit c, w') => (Exit c, w')
    end.

(** [try { body } catch (e) { handler }].  [process.exit] is not an
    exception: no handler sees it. *)
Definition try_catch {A : Type} (body : M A) (handler : Js.Error -> M A) : M A :=
  fun w =>
    match body w with
    | (Throw e, w') => handler e w'
    | r => r
    end.

Declare Scope js_scope.
Delimit Scope js_scope with js.
Notation "x <- m ;; k" := (bind m (fun x => k))
  (at level 100, m at next level, right associativity) : js_scope.
Notation "m ;; k" := (bind m (fun _ => k))
  (at level 100, right associativity) : js_scope.
Local Open Scope js_scope.

Definition emit (e : Event) : M unit :=
  fun w => (Normal tt, {| trace := trace w ++ [e]; execs := execs w; ticks := ticks w |}).

(** [process.exit(code)]. *)
Definition process_exit {A : Type} (code : Z) : M A := fun w => (Exit code, w).

Definition throw {A : Type} (e : Js.Error) : M A := fun w => (Throw e, w).

Section Runner.

Variable env : Env.

(** [Date.now()] and [new Date()]. *)
Definition Date_now : M Z :=
  fun w => (Normal (env_now env (ticks w)),
            {| trace := trace w; execs := execs w; ticks := S (ticks w) |}).

(** [execSync(command, { ..., timeout })]. *)
Definition execSync (cmd : string) (timeout : option Z) : M string :=
  fun w =>
    let o := env_exec env (execs w) cmd timeout in
    let w' := {| trace := trace w ++ [EvExec cmd timeout o];
                 execs := S (execs w); ticks := ticks w |} in
    match o with
    | Completed out => (Normal out, w')
    | Failed _ err => (Throw err, w')
    end.

(** [fs.existsSync(path)]. *)
Definition existsSync (path : string) : M bool :=
  let b := env_exists env path in
  emit (EvExists path b) ;; ret b.

(** [fs.mkdirSync(path, { recursive: true })]. *)
Definition mkdirSync (path : string) : M unit :=
  match env_mkdir env path with
  | Some e => throw e
  | None => emit (EvMkdir path)
  end.

(** [fs.writeFileSync(path, JSON.stringify(content, null, 2))]: the event
    is there only when the write went through. *)
Definition writeFileSync (path : string) (content : Report) : M unit :=
  match env_write env path with
  | Some e => throw e
  | None => emit (EvWriteFile path content)
  end.

(** [await new Promise(resolve => setTimeout(resolve, ms))]. *)
Definition sleep (ms : Z) : M unit := emit (EvSleep ms).

Definition console_log (text : string) : M unit := emit (EvPrint text).
Definition console_error (text : string) : M unit := emit (EvError text).

(** *** class TestRunner *)

Definition constructor : M TestRunner :=
  now <- Date_now ;;
  ret {| startTime := now;
         this_results :=
           {| total := 0; passed := 0; failed := 0; skipped := 0; suites := [] |} |}.

(** [log(message, type)] prints
    [colors[type] + "[" + timestamp + "] " + message + colors.reset];
    the event keeps the three parts. *)
Definition log (message : string) (type : LogType) : M unit :=
  timestamp <- Date_now ;;
  emit (EvLog timestamp type message).

Definition runTestSuite (suiteName cmd : string) : M RunResult :=
  log ("Starting " ++ suiteName ++ " tests...") info ;;
  try_catch
    (output <- execSync cmd (Some 300000) ;;
     log ("✅ " ++ suiteName ++ " tests completed successfully") success ;;
     ret {| rr_success := true; rr_error := None; rr_output := output |})
    (fun err =>
       log ("❌ " ++ suiteName ++ " tests failed: " ++ Js.message err) error ;;
       ret {| rr_success := false;
              rr_error := Some (Js.message err);
              rr_output := Js.stdout err |}).

(** The template literal of [main],
    [`npx playwright test --grep "@${suiteName}"`]. *)
Definition playwright_test (suiteName : string) : string :=
  "npx playwright test --grep " ++ Js.dquote ++ "@" ++ suiteName ++ Js.dquote.

Definition testSuites : list Suite :=
  [ {| name := "Smoke Tests";
       command := "npx playwright test --grep " ++ Js.dquote ++ "@smoke" ++ Js.dquote
                  ++ " --reporter=json";
       critical := true |};
    {| name := "API Tests";
       command := "npx playwright test --grep " ++ Js.dquote ++ "@api" ++ Js.dquote
                  ++ " --reporter=json";
       critical := true |};
    {| name := "E2E Tests";
       command := "npx playwright test --grep " ++ Js.dquote ++ "@e2e" ++ Js.dquote
                  ++ " --reporter=json";
       critical := false |};
    {| name := "Performance Tests";
       command := "npx playwright test --grep " ++ Js.dquote ++ "@performance" ++ Js.dquote
                  ++ " --reporter=json";
       critical := false |};
    {| name := "Accessibility Tests";
       command := "npx playwright test --grep " ++ Js.dquote ++ "@a11y" ++ Js.dquote
                  ++ " --reporter=json";
       critical := false |};
    {| name := "Security Tests";
       command := "npx playwright test --grep " ++ Js.dquote ++ "@security" ++ Js.dquote
                  ++ " --reporter=json";
       critical := false |} ].

(** The variables the [for] loop of [runAllTests] updates: the runner and
    the two local counters. *)
Record LoopState :=
  { ls_this : TestRunner; ls_criticalFailures : Z; ls_totalFailures : Z }.

(** [this.results.suites.push(entry)]. *)
Definition push (this : TestRunner) (entry : SuiteResult) : TestRunner :=
  {| startTime := startTime this;
     this_results :=
       {| total := total (this_results this);
          passed := passed (this_results this);
          failed := failed (this_results this);
          skipped := skipped (this_results this);
          suites := suites (this_results this) ++ [entry] |} |}.

(** One iteration of [for (const suite of testSuites)]. *)
Definition loop_body (st : LoopState) (suite : Suite) : M LoopState :=
  result <- runTestSuite (name suite) (command suite) ;;
  let this := push (ls_this st)
                {| sr_name := name suite;
                   sr_success := rr_success result;
                   sr_critical := critical suite;
                   sr_output := rr_output result |} in
  let totalFailures :=
    if negb (rr_success result) then ls_totalFailures st + 1
    else ls_totalFailures st in
  let criticalFailures :=
    if negb (rr_success result) && critical suite then ls_criticalFailures st + 1
    else ls_criticalFailures st in
  sleep 2000 ;;
  ret {| ls_this := this;
         ls_criticalFailures := criticalFailures;
         ls_totalFailures := totalFailures |}.

(** The loop itself, over the remaining elements. *)
Fixpoint for_of (l : list Suite) (st : LoopState) : M LoopState :=
  match l with
  | [] => ret st
  | suite :: rest => st' <- loop_body st suite ;; for_of rest st'
  end.

(** ['='.repeat(60)]. *)
Definition separator : string := Js.repeat "=" 60.

Definition generateSummaryReport (this : TestRunner)
    (criticalFailures totalFailures : Z) : M unit :=
  now <- Date_now ;;
  let duration := Js.roundDiv (now - startTime this) 1000 in
  log separator info ;;
  log "📊 TEST EXECUTION SUMMARY" info ;;
  log separator info ;;
  log ("⏱️  Total execution time: " ++ Js.numberToString duration ++ " seconds") info ;;
  log ("📋 Test suites executed: "
         ++ Js.numberToString (Js.length (suites (this_results this)))) info ;;
  log ("✅ Successful suites: "
         ++ Js.numberToString
              (Js.length (filter sr_success (suites (this_results this))))) success ;;
  log ("❌ Failed suites: " ++ Js.numberToString totalFailures)
      (if totalFailures >? 0 then error else info) ;;
  log ("🚨 Critical failures: " ++ Js.numberToString criticalFailures)
      (if criticalFailures >? 0 then error else success) ;;
  (if criticalFailures >? 0 then
     log "⚠️  CRITICAL TEST FAILURES DETECTED!" error ;;
     log "   Please review and fix critical issues before deployment." error
   else if totalFailures >? 0 then
     log "⚠️  Some non-critical tests failed." warn ;;
     log "   Consider reviewing these issues for optimal quality." warn
   else
     log "🎉 ALL TESTS PASSED! Ready for deployment." success) ;;
  log separator info.

(** [reportPath] and [reportDir = path.dirname(reportPath)] of
    [generateDetailedReport]. *)
Definition reportPath : string :=
  env_path_join env [env_dirname env; "test-results"; "summary-report.json"].
Definition reportDir : string := env_path_dirname env reportPath.

Definition generateDetailedReport (this : TestRunner) : M unit :=
  dirExists <- existsSync reportDir ;;
  (if negb dirExists then mkdirSync reportDir else ret tt) ;;
  timestamp <- Date_now ;;
  now <- Date_now ;;
  let report :=
    {| timestamp := timestamp;
       duration := Js.roundDiv (now - startTime this) 1000;
       environment := Js.orElse (env_NODE_ENV env) "production";
       results := this_results this;
       summary :=
         {| totalSuites := Js.length (suites (this_results this));
            passedSuites :=
              Js.length (filter sr_success (suites (this_results this)));
            failedSuites :=
              Js.length (filter (fun s => negb (sr_success s))
                                (suites (this_results this)));
            criticalFailures :=
              Js.length (filter (fun s => negb (sr_success s) && sr_critical s)
                                (suites (this_results this))) |} |} in
  writeFileSync reportPath report ;;
  log ("📄 Detailed report saved to: " ++ reportPath) info.

Definition runAllTests (this : TestRunner) : M TestRunner :=
  log "🚀 Starting LI.FI QA Automation Test Suite" info ;;
  log separator info ;;
  st <- for_of testSuites
          {| ls_this := this; ls_criticalFailures := 0; ls_totalFailures := 0 |} ;;
  generateSummaryReport (ls_this st) (ls_criticalFailures st) (ls_totalFailures st) ;;
  generateDetailedReport (ls_this st) ;;
  ret (ls_this st).

(** The two probes of [checkPrerequisites]. *)
Definition playwright_version : string := "npx playwright --version".
Definition ping_target : string := "ping -c 1 li.fi".

Definition checkPrerequisites : M unit :=
  log "🔍 Checking prerequisites..." info ;;
  try_catch
    (execSync playwright_version None ;;
     log "✅ Playwright is installed" success)
    (fun _ =>
       log "❌ Playwright not found. Run: npm install" error ;;
       process_exit 1) ;;
  try_catch
    (let browsersPath :=
       env_path_join env [env_dirname env; "node_modules"; "@playwright"; "test"] in
     present <- existsSync browsersPath ;;
     if present then log "✅ Playwright browsers are available" success
     else log "⚠️  Playwright browsers may not be installed. Run: npx playwright install" warn)
    (fun _ => log "⚠️  Could not verify browser installation" warn) ;;
  try_catch
    (execSync ping_target (Some 5000) ;;
     log "✅ Network connectivity to li.fi confirmed" success)
    (fun _ => log "⚠️  Network connectivity issue detected" warn).

(** *** The command line interface *)

Definition helpText : string := "
LI.FI QA Automation Test Runner

Usage: node run-tests.js [options]

Options:
  --help, -h          Show this help message
  --check-prereq      Check prerequisites only
  --suite <name>      Run specific test suite
  --quick             Run only smoke and API tests

Available test suites:
  - smoke             Critical functionality tests
  - api               API endpoint tests
  - e2e               End-to-end workflow tests
  - performance       Performance and load tests
  - accessibility     Accessibility compliance tests
  - security          Security vulnerability tests

Examples:
  node run-tests.js                    # Run all test suites
  node run-tests.js --suite smoke      # Run only smoke tests
  node run-tests.js --quick            # Run critical tests only
  node run-tests.js --check-prereq     # Check prerequisites
    ".

(** [main()], with [args = process.argv.slice(2)].  The JavaScript function
    returns nothing; the model returns the [runner] object as it is when
    [main] returns, so that statements can speak of it. *)
Definition main (args : list string) : M TestRunner :=
  runner <- constructor ;;
  if Js.includes args "--help" || Js.includes args "-h" then
    console_log helpText ;;
    ret runner
  else if Js.includes args "--check-prereq" then
    checkPrerequisites ;;
    ret runner
  else
    let suiteIndex := Js.indexOf args "--suite" in
    if negb (suiteIndex =? -1) && Js.truthy (Js.index args (suiteIndex + 1)) then
      let suiteName := Js.toString (Js.index args (suiteIndex + 1)) in
      let command := playwright_test suiteName in
      runTestSuite (suiteName ++ " tests") command ;;
      ret runner
    else if Js.includes args "--quick" then
      log "🏃‍♂️ Running quick test suite (smoke + API tests)" info ;;
      runTestSuite "Smoke Tests"
        ("npx playwright test --grep " ++ Js.dquote ++ "@smoke" ++ Js.dquote) ;;
      runTestSuite "API Tests"
        ("npx playwright test --grep " ++ Js.dquote ++ "@api" ++ Js.dquote) ;;
      ret runner
    else
      checkPrerequisites ;;
      runAllTests runner.

(** The script run as a program ([require.main === module]):
    [main().catch(...)] turns a rejection into an error line and
    [process.exit(1)]; a process whose [main] returns ends with exit
    code 0. *)
Definition run (args : list string) : Z * World :=
  match main args world0 with
  | (Normal _, w) => (0, w)
  | (Exit code, w) => (code, w)
  | (Throw e, w) =>
      (1, snd (console_error
                 (Js.esc ++ "[31m❌ Test runner failed: " ++ Js.message e
                    ++ " " ++ Js.esc ++ "[0m") w))
  end.

End Runner.

(** ** The retry helpers of the test utilities

    [TestHelpers.safeClick] and [ApiTestHelpers.makeRequestWithRetry] are
    two loops of the same shape around a call that may reject.  What the
    page and the server answer is given by oracles, indexed by the position
    of the call within the invocation of the helper; the helper's result
    comes with the calls and waits it made, in order. *)

Module Helpers.

(** A promise once awaited. *)
Inductive Settled (A : Type) :=
| Resolved (a : A)
| Rejected (e : Js.Error).

Arguments Resolved {A} a.
Arguments Rejected {A} e.

(** An [APIResponse] as the helper reads it: [status()]; [body] stands for
    the rest of the object. *)
Record Response := { status : Z; body : string }.

(** The [options] object handed through to [request.get]. *)
Definition Options : Type := list (string * string).

Inductive Event :=
| Get (url : string) (options : Options)
| Click (selector : string) (timeout : Z)
| Wait (ms : Z).

(** How an invocation of a helper ends. *)
Inductive Completion (A : Type) :=
| Returns (a : A)
| Throws (e : Js.Error).

Arguments Returns {A} a.
Arguments Throws {A} e.

(** [retries] is a JavaScript number, and a caller may pass one that is not
    whole.  The model takes the finite numbers, as rationals: the helpers
    only compare [retries] and [retries - 1] with the loop counter, and on
    doubles below 2^53 both comparisons are exact. *)
Definition Number : Type := QArith_base.Q.

(** A whole number as a [Number]. *)
Definition number (z : Z) : Number := QArith_base.inject_Z z.

(** The loop test, [i < retries]. *)
Definition below (i : nat) (retries : Number) : bool :=
  negb (QArith_base.Qle_bool retries (number (Z.of_nat i))).

(** The test of the [catch] blocks, [i === retries - 1]. *)
Definition last (i : nat) (retries : Number) : bool :=
  QArith_base.Qeq_bool (number (Z.of_nat i))
                       (QArith_base.Qminus retries (number 1)).

Section Loops.

(** [this.request.get(url, options)], for the [i]-th call. *)
Variable get : nat -> string -> Options -> Settled Response.

(** [this.page.locator(selector).click({ timeout })], for the [i]-th call. *)
Variable click : nat -> string -> Z -> Settled unit.

(** [this.page.waitForTimeout(ms)], for the [i]-th call. *)
Variable waitForTimeout : nat -> Z -> Settled unit.

(** The loop [for (let i = 0; i < retries; i++)] of [makeRequestWithRetry]
    from counter [i].  [fuel] bounds the number of times the loop test is
    evaluated, and the result is [None] when the loop has not ended within
    it.  [Returns None] stands for [undefined], the value of a function
    that falls off its end. *)
Fixpoint request_loop (url : string) (options : Options) (retries : Number)
    (fuel i : nat) : option (Completion (option Response) * list Event) :=
  match fuel with
  | O => None
  | S fuel' =>
      if below i retries then
        match get i url options with
        | Resolved response =>
            if status response <? 500 then
              Some (Returns (Some response), [Get url options])
            else
              match request_loop url options retries fuel' (S i) with
              | Some (c, evs) => Some (c, Get url options :: evs)
              | None => None
              end
        | Rejected err =>
            if last i retries then
              Some (Throws err, [Get url options])
            else
              match request_loop url options retries fuel' (S i) with
              | Some (c, evs) =>
                  Some (c, Get url options
                           :: Wait (1000 * (Z.of_nat i + 1)) :: evs)
              | None => None
              end
        end
      else Some (Returns None, [])
  end.

(** The number of counters [0, 1, 2, ...] below [retries]: [retries]
    rounded up, and none when [retries] is zero or negative. *)
Definition iterations (retries : Number) : nat :=
  Z.to_nat (Qround.Qceiling retries).

(** [makeRequestWithRetry(url, options = {}, retries = 3)]; an argument
    left out is [None].  The loop is given one evaluation of its test more
    than there are counters below [retries]. *)
Definition makeRequestWithRetry (url : string) (options : option Options)
    (retries : option Number)
    : option (Completion (option Response) * list Event) :=
  let options := match options with Some o => o | None => [] end in
  let retries := match retries with Some r => r | None => number 3 end in
  request_loop url options retries (S (iterations retries)) 0.

(** The loop of [safeClick] from counter [i]; after the loop comes
    [return false].  Every earlier iteration has waited once, so the wait
    of iteration [i] is the [i]-th. *)
Fixpoint click_loop (selector : string) (retries : Number) (fuel i : nat)
    : option (Completion bool * list Event) :=
  match fuel with
  | O => None
  | S fuel' =>
      if below i retries then
        match click i selector 5000 with
        | Resolved _ => Some (Returns true, [Click selector 5000])
        | Rejected err =>
            if last i retries then
              Some (Throws err, [Click selector 5000])
            else
              match waitForTimeout i 1000 with
              | Rejected err' =>
                  Some (Throws err', [Click selector 5000; Wait 1000])
              | Resolved _ =>
                  match click_loop selector retries fuel' (S i) with
                  | Some (c, evs) =>
                      Some (c, Click selector 5000 :: Wait 1000 :: evs)
                  | None => None
                  end
              end
        end
      else Some (Returns false, [])
  end.

(** [safeClick(selector, retries = 3)]. *)
Definition safeClick (selector : string) (retries : option Number)
    : option (Completion bool * list Event) :=
  let retries := match retries with Some r => r | None => number 3 end in
  click_loop selector retries (S (iterations retries)) 0.

(** The two loops unrolled: what [n] iterations from counter [i] do when
    the loop test holds for each of them and fails after the last.
    [request_loop_steps] and [click_loop_steps] show that the loops above
    compute exactly this. *)
Fixpoint request_steps (url : string) (options : Options) (retries : Number)
    (n i : nat) : Completion (option Response) * list Event :=
  match n with
  | O => (Returns None, [])
  | S n' =>
      match get i url options with
      | Resolved response =>
          if status response <? 500 then
            (Returns (Some response), [Get url options])
          else
            let (c, evs) := request_steps url options retries n' (S i) in
            (c, Get url options :: evs)
      | Rejected err =>
          if last i retries then
            (Throws err, [Get url options])
          else
            let (c, evs) := request_steps url options retries n' (S i) in
            (c, Get url options :: Wait (1000 * (Z.of_nat i + 1)) :: evs)
      end
  end.

Fixpoint click_steps (selector : string) (retries : Number) (n i : nat)
    : Completion bool * list Event :=
  match n with
  | O => (Returns false, [])
  | S n' =>
      match click i selector 5000 with
      | Resolved _ => (Returns true, [Click selector 5000])
      | Rejected err =>
          if last i retries then
            (Throws err, [Click selector 5000])
          else
            match waitForTimeout i 1000 with
            | Rejected err' => (Throws err', [Click selector 5000; Wait 1000])
            | Resolved _ =>
                let (c, evs) := click_steps selector retries n' (S i) in
                (c, Click selector 5000 :: Wait 1000 :: evs)
            end
      end
  end.

End Loops.

(** Whether [retries] is a whole number. *)
Definition whole (retries : Number) : bool :=
  QArith_base.Qeq_bool (number (Qround.Qceiling retries)) retries.

(** The most waits an invocation can make: one after each iteration, but
    for a whole [retries] none after the last, which throws instead. *)
Definition max_waits (retries : Number) : Z :=
  Z.of_nat (if whole retries then pred (iterations retries)
            else iterations retries).

(** The requests, the clicks and the waits of a list of events. *)
Definition is_get (e : Event) : bool :=
  match e with Get _ _ => true | _ => false end.

Definition is_click (e : Event) : bool :=
  match e with Click _ _ => true | _ => false end.

Fixpoint waits (evs : list Event) : list Z :=
  match evs with
  | [] => []
  | Wait ms :: t => ms :: waits t
  | _ :: t => waits t
  end.

(** The time spent waiting, in milliseconds. *)
Definition total_wait (evs : list Event) : Z := fold_right Z.add 0 (waits evs).

(** The [i]-th request gets a response that ends the retrying: its status is
    below 500. *)
Definition good (get : nat -> string -> Options -> Settled Response)
    (url : string) (options : Options) (i : nat) : Prop :=
  exists r, get i url options = Resolved r /\ status r < 500.

(** Sample servers and pages: a server that answers 503 throughout, one whose
    first two requests fail to connect before it answers 200, one that never
    answers, and a page on which nothing can be clicked. *)
Definition unavailable : nat -> string -> Options -> Settled Response :=
  fun _ _ _ => Resolved {| status := 503; body := "Service Unavailable" |}.

Definition connection_error (i : nat) : Js.Error :=
  {| Js.message := "connect ECONNREFUSED, attempt " ++ Js.numberToString (Z.of_nat i);
     Js.stdout := EmptyString |}.

Definition flaky : nat -> string -> Options -> Settled Response :=
  fun i _ _ =>
    if (i <? 2)%nat then Rejected (connection_error i)
    else Resolved {| status := 200; body := "ok" |}.

Definition unreachable : nat -> string -> Options -> Settled Response :=
  fun i _ _ => Rejected (connection_error i).

Definition click_error (i : nat) : Js.Error :=
  {| Js.message := "Timeout 5000ms exceeded, attempt " ++ Js.numberToString (Z.of_nat i);
     Js.stdout := EmptyString |}.

Definition never_clickable : nat -> string -> Z -> Settled unit :=
  fun i _ _ => Rejected (click_error i).

Definition clickable_from (k : nat) : nat -> string -> Z -> Settled unit :=
  fun i _ _ => if (i <? k)%nat then Rejected (click_error i) else Resolved tt.

Definition page_stays_open : nat -> Z -> Settled unit := fun _ _ => Resolved tt.

(** A page that is closed while [safeClick] waits: [waitForTimeout]
    rejects. *)
Definition page_closed : Js.Error :=
  {| Js.message := "Target page, context or browser has been closed";
     Js.stdout := EmptyString |}.

Definition page_closes : nat -> Z -> Settled unit :=
  fun _ _ => Rejected page_closed.

End Helpers.

(** ** The shared test configuration ([tests/config/test-config.js])

    [TestConfig] is one object for the whole module.  [getEnvironmentConfig]
    starts from [{ ...TestConfig }], a copy of the top level only: the copy's
    [timeouts], [performance] and [ci] are the very objects of [TestConfig],
    and the assignments of the [switch] write into them.  The model keeps
    these three objects as the store; what is read through any config the
    function has returned is what the store holds at that moment. *)

Module Config.

Record Timeouts :=
  { short : Z; medium : Z; long : Z; api : Z; pageLoad : Z }.

(** [cls] is the number literal [0.1], kept as the fraction 1/10; nothing
    computes with it. *)
Record Performance :=
  { pageLoadTime : Z; apiResponseTime : Z; lcp : Z; fid : Z;
    cls : QArith_base.Q }.

Record Ci :=
  { retries : Z; workers : Z; timeout : Z; parallel : bool; failFast : bool }.

Record Store := { timeouts : Timeouts; performance : Performance; ci : Ci }.

(** The three objects as the module creates them. *)
Definition TestConfig : Store :=
  {| timeouts :=
       {| short := 5000; medium := 10000; long := 30000; api := 15000;
          pageLoad := 30000 |};
     performance :=
       {| pageLoadTime := 5000; apiResponseTime := 3000; lcp := 2500; fid := 100;
          cls := QArith_base.Qmake 1 10 |};
     ci :=
       {| retries := 2; workers := 1; timeout := 60000; parallel := true;
          failFast := false |} |}.

(** [TestConfig.environments]; nothing writes to it. *)
Definition environments : list (string * string) :=
  [("production", "https://li.fi");
   ("staging", "https://staging.li.fi");
   ("development", "https://dev.li.fi");
   ("local", "http://localhost:3000")].

(** [baseConfig.timeouts.pageLoad = v]. *)
Definition set_pageLoad (v : Z) (s : Store) : Store :=
  {| timeouts :=
       {| short := short (timeouts s); medium := medium (timeouts s);
          long := long (timeouts s); api := api (timeouts s); pageLoad := v |};
     performance := performance s;
     ci := ci s |}.

(** [baseConfig.performance.pageLoadTime = v]. *)
Definition set_pageLoadTime (v : Z) (s : Store) : Store :=
  {| timeouts := timeouts s;
     performance :=
       {| pageLoadTime := v;
          apiResponseTime := apiResponseTime (performance s);
          lcp := lcp (performance s); fid := fid (performance s);
          cls := cls (performance s) |};
     ci := ci s |}.

(** [baseConfig.ci.retries = v]. *)
Definition set_retries (v : Z) (s : Store) : Store :=
  {| timeouts := timeouts s;
     performance := performance s;
     ci :=
       {| retries := v; workers := workers (ci s); timeout := timeout (ci s);
          parallel := parallel (ci s); failFast := failFast (ci s) |} |}.

(** [getEnvironmentConfig(env = 'production')]; [None] is an argument left
    out.  The result is the store after the call: the object returned shows
    exactly that. *)
Definition getEnvironmentConfig (env : option string) (s : Store) : Store :=
  let env := match env with Some e => e | None => "production" end in
  if String.eqb env "development" then
    set_pageLoadTime 10000 (set_pageLoad 60000 s)
  else if String.eqb env "staging" then
    set_pageLoadTime 7500 (set_pageLoad 45000 s)
  else if String.eqb env "ci" then
    set_pageLoadTime 8000 (set_pageLoad 45000 (set_retries 3 s))
  else
    s.

(** [ConfigUtils.getCurrentEnvironment()], from [process.env.TEST_ENV] and
    [process.env.NODE_ENV]. *)
Definition getCurrentEnvironment (TEST_ENV NODE_ENV : option string) : string :=
  Js.orElse TEST_ENV (Js.orElse NODE_ENV "production").

(** What a property read gives: a number, a string, or what the object
    inherits under that name from [Object.prototype] (a function or an
    object, in any case truthy). *)
Inductive Value :=
| Number (z : Z)
| Text (s : string)
| Inherited (key : string).

Definition truthy (v : option Value) : bool :=
  match v with
  | Some (Number z) => negb (z =? 0)
  | Some (Text s) => negb (String.eqb s EmptyString)
  | Some (Inherited _) => true
  | None => false
  end.

Section Prototype.

(** The names under which [Object.prototype] has a property ([toString],
    [constructor], ...): the engine's, not the script's. *)
Variable inherited : string -> bool.

(** [config.timeouts[key]]. *)
Definition timeouts_get (t : Timeouts) (key : string) : option Value :=
  if String.eqb key "short" then Some (Number (short t))
  else if String.eqb key "medium" then Some (Number (medium t))
  else if String.eqb key "long" then Some (Number (long t))
  else if String.eqb key "api" then Some (Number (api t))
  else if String.eqb key "pageLoad" then Some (Number (pageLoad t))
  else if inherited key then Some (Inherited key)
  else None.

(** [config.environments[key]]. *)
Fixpoint environments_get (l : list (string * string)) (key : string)
    : option Value :=
  match l with
  | [] => if inherited key then Some (Inherited key) else None
  | (k, v) :: rest =>
      if String.eqb key k then Some (Text v) else environments_get rest key
  end.

(** [a || b] for a property read [a]. *)
Definition orValue (a : option Value) (b : Value) : Value :=
  match a with
  | Some v => if truthy a then v else b
  | None => b
  end.

(** [ConfigUtils.getTimeout(operation)]: the value and the store it
    leaves. *)
Definition getTimeout (TEST_ENV NODE_ENV : option string) (operation : string)
    (s : Store) : Value * Store :=
  let env := getCurrentEnvironment TEST_ENV NODE_ENV in
  let config := getEnvironmentConfig (Some env) s in
  (orValue (timeouts_get (timeouts config) operation)
           (Number (medium (timeouts config))),
   config).

(** [ConfigUtils.getBaseUrl(env)]: the value and the store it leaves.  A
    property key that is [undefined] reads as the string [undefined]. *)
Definition getBaseUrl (env : option string) (s : Store) : Value * Store :=
  let config := getEnvironmentConfig env s in
  (orValue (environments_get environments (Js.toString env))
           (match environments_get environments "production" with
            | Some v => v
            | None => Text EmptyString
            end),
   config).

End Prototype.

(** A series of calls of [getEnvironmentConfig], oldest first. *)
Definition calls (envs : list (option string)) (s : Store) : Store :=
  fold_left (fun s env => getEnvironmentConfig env s) envs s.

(** What a call for [env] writes, if anything: [timeouts.pageLoad] and
    [performance.pageLoadTime]. *)
Definition override (env : option string) : option (Z * Z) :=
  match env with
  | Some e =>
      if String.eqb e "development" then Some (60000, 10000)
      else if String.eqb e "staging" then Some (45000, 7500)
      else if String.eqb e "ci" then Some (45000, 8000)
      else None
  | None => None
  end.

(** The last call of a series that wrote something. *)
Definition last_override (envs : list (option string)) : option (Z * Z) :=
  fold_left (fun acc env => match override env with
                            | Some v => Some v
                            | None => acc
                            end)
            envs None.

Definition is_ci (env : option string) : bool :=
  match env with
  | Some e => String.eqb e "ci"
  | None => false
  end.

(** Two stores that differ at most in the three settings the [switch]
    assigns. *)
Definition same_rest (a b : Store) : Prop :=
  short (timeouts b) = short (timeouts a)
  /\ medium (timeouts b) = medium (timeouts a)
  /\ long (timeouts b) = long (timeouts a)
  /\ api (timeouts b) = api (timeouts a)
  /\ apiResponseTime (performance b) = apiResponseTime (performance a)
  /\ lcp (performance b) = lcp (performance a)
  /\ fid (performance b) = fid (performance a)
  /\ cls (performance b) = cls (performance a)
  /\ workers (ci b) = workers (ci a)
  /\ timeout (ci b) = timeout (ci a)
  /\ parallel (ci b) = parallel (ci a)
  /\ failFast (ci b) = failFast (ci a).

(** An engine whose [Object.prototype] has the usual names. *)
Definition usual_prototype (key : string) : bool :=
  existsb (String.eqb key)
          ["constructor"; "hasOwnProperty"; "isPrototypeOf";
           "propertyIsEnumerable"; "toLocaleString"; "toString"; "valueOf";
           "__proto__"; "__defineGetter__"; "__defineSetter__";
           "__lookupGetter__"; "__lookupSetter__"].

End Config.

(** ** Reading a trace *)

(** An [execSync] call as the trace shows it: command, timeout, outcome. *)
Definition ExecCall : Type := string * option Z * ExecOutcome.

Definition call_cmd (c : ExecCall) : string := fst (fst c).
Definition call_timeout (c : ExecCall) : option Z := snd (fst c).
Definition call_outcome (c : ExecCall) : ExecOutcome := snd c.

Fixpoint exec_calls (tr : list Event) : list ExecCall :=
  match tr with
  | [] => []
  | EvExec c t o :: r => (c, t, o) :: exec_calls r
  | _ :: r => exec_calls r
  end.

(** A category is invoked by running the browser-automation tool's [test]
    command; the version probe and the ping are not category invocations. *)
Definition is_category_call (c : ExecCall) : bool :=
  String.prefix "npx playwright test" (call_cmd c).

Definition category_calls (tr : list Event) : list ExecCall :=
  filter is_category_call (exec_calls tr).

(** The files written, in order. *)
Fixpoint written (tr : list Event) : list (string * Report) :=
  match tr with
  | [] => []
  | EvWriteFile p r :: t => (p, r) :: written t
  | _ :: t => written t
  end.

(** The classification of a run, and the console line that announces each. *)
Inductive Classification := AllPass | NonCriticalFailure | CriticalFailure.

Definition headline (c : Classification) : string :=
  match c with
  | CriticalFailure => "⚠️  CRITICAL TEST FAILURES DETECTED!"
  | NonCriticalFailure => "⚠️  Some non-critical tests failed."
  | AllPass => "🎉 ALL TESTS PASSED! Ready for deployment."
  end.

Definition classification_of_line (msg : string) : option Classification :=
  if String.eqb msg (headline CriticalFailure) then Some CriticalFailure
  else if String.eqb msg (headline NonCriticalFailure) then Some NonCriticalFailure
  else if String.eqb msg (headline AllPass) then Some AllPass
  else None.

(** The classifications a console shows, in order. *)
Fixpoint reported (tr : list Event) : list Classification :=
  match tr with
  | [] => []
  | EvLog _ _ msg :: t =>
      match classification_of_line msg with
      | Some c => c :: reported t
      | None => reported t
      end
  | _ :: t => reported t
  end.

(** The rule in the words of the specification: a failed critical category
    makes the run a critical failure; otherwise a failed category makes it a
    non-critical failure; otherwise all pass. *)
Definition classify (rs : list SuiteResult) : Classification :=
  if existsb (fun r => sr_critical r && negb (sr_success r)) rs then CriticalFailure
  else if existsb (fun r => negb (sr_success r)) rs then NonCriticalFailure
  else AllPass.

(** What [runTestSuite] hands back as [output] for an outcome. *)
Definition output_of (o : ExecOutcome) : string :=
  match o with
  | Completed out => out
  | Failed _ err => Js.stdout err
  end.

(** [Invoked l calls rs]: the categories [l] were invoked one after the other
    by the subprocess calls [calls], each under the 300 s timeout, and [rs]
    are the entries recorded for them, in the same order. *)
Inductive Invoked : list Suite -> list ExecCall -> list SuiteResult -> Prop :=
| Invoked_nil : Invoked [] [] []
| Invoked_cons (s : Suite) (o : ExecOutcome) l calls rs :
    Invoked l calls rs ->
    Invoked (s :: l)
            ((command s, Some 300000, o) :: calls)
            ({| sr_name := name s;
                sr_success := completed o;
                sr_critical := critical s;
                sr_output := output_of o |} :: rs).

Definition failed_entry (r : SuiteResult) : bool := negb (sr_success r).
Definition critical_failed_entry (r : SuiteResult) : bool :=
  negb (sr_success r) && sr_critical r.

Local Open Scope list_scope.

(** ** Vocabulary of the statements *)

(** [Effect m w r w' evs]: run from [w], the computation [m] completes with
    [r] in the world [w'], having appended the events [evs] to the trace. *)
Definition Effect {A : Type} (m : M A) (w : World) (r : Completion A)
    (w' : World) (evs : list Event) : Prop :=
  m w = (r, w') /\ trace w' = trace w ++ evs.

(** A console line that is none of the three headlines. *)
Definition plain (message : string) : Prop :=
  classification_of_line message = None.

(** The runner apart from its list of entries. *)
Definition same_header (a b : TestRunner) : Prop :=
  startTime b = startTime a
  /\ total (this_results b) = total (this_results a)
  /\ passed (this_results b) = passed (this_results a)
  /\ failed (this_results b) = failed (this_results a)
  /\ skipped (this_results b) = skipped (this_results a).

(** What a stretch of the loop over the categories [l] does to the loop
    variables: [rs] is appended to the entries and the two counters grow
    by the number of failed and of failed critical entries of [rs]. *)
Definition advanced (st st' : LoopState) (rs : list SuiteResult) : Prop :=
  suites (this_results (ls_this st')) = suites (this_results (ls_this st)) ++ rs
  /\ same_header (ls_this st) (ls_this st')
  /\ ls_totalFailures st'
     = ls_totalFailures st + Js.length (filter failed_entry rs)
  /\ ls_criticalFailures st'
     = ls_criticalFailures st + Js.length (filter critical_failed_entry rs).

(** Whether the environment lets [generateDetailedReport] write the
    artifact: the directory is there or can be made, and the write itself
    goes through. *)
Definition can_write_report (env : Env) : bool :=
  (env_exists env (reportDir env)
   || match env_mkdir env (reportDir env) with None => true | Some _ => false end)
  && match env_write env (reportPath env) with None => true | Some _ => false end.

(** The three ways a full run can end, with what an observer then sees. *)
Inductive FullRun (env : Env) : Z -> World -> Prop :=
| FullRun_tool_missing (why : ExecFailure) (err : Js.Error) (w : World) :
    env_exec env 0%nat playwright_version None = Failed why err ->
    exec_calls (trace w) = [(playwright_version, None, Failed why err)] ->
    written (trace w) = [] ->
    reported (trace w) = [] ->
    FullRun env 1 w
| FullRun_reported (out : string) (calls : list ExecCall)
    (rs : list SuiteResult) (report : Report) (w : World) :
    env_exec env 0%nat playwright_version None = Completed out ->
    can_write_report env = true ->
    Invoked testSuites calls rs ->
    exec_calls (trace w)
    = (playwright_version, None, Completed out)
        :: (ping_target, Some 5000, env_exec env 1%nat ping_target (Some 5000))
        :: calls ->
    reported (trace w) = [classify rs] ->
    written (trace w) = [(reportPath env, report)] ->
    results report
    = {| total := 0; passed := 0; failed := 0; skipped := 0; suites := rs |} ->
    summary report
    = {| totalSuites := Js.length rs;
         passedSuites := Js.length (filter sr_success rs);
         failedSuites := Js.length (filter failed_entry rs);
         criticalFailures := Js.length (filter critical_failed_entry rs) |} ->
    FullRun env 0 w
| FullRun_write_failed (out : string) (calls : list ExecCall)
    (rs : list SuiteResult) (w : World) :
    env_exec env 0%nat playwright_version None = Completed out ->
    can_write_report env = false ->
    Invoked testSuites calls rs ->
    exec_calls (trace w)
    = (playwright_version, None, Completed out)
        :: (ping_target, Some 5000, env_exec env 1%nat ping_target (Some 5000))
        :: calls ->
    reported (trace w) = [classify rs] ->
    written (trace w) = [] ->
    FullRun env 1 w.

(** The loop variables at the start of [runAllTests]. *)
Definition loop_start (this : TestRunner) : LoopState :=
  {| ls_this := this; ls_criticalFailures := 0; ls_totalFailures := 0 |}.

(** The invariant on the counts of a persisted summary. *)
Definition summary_ordered (s : Summary) : Prop :=
  0 <= criticalFailures s <= failedSuites s /\ failedSuites s <= totalSuites s.

(** The runner object [main] starts from. *)
Definition fresh_runner (env : Env) : TestRunner :=
  {| startTime := env_now env 0%nat;
     this_results :=
       {| total := 0; passed := 0; failed := 0; skipped := 0; suites := [] |} |}.

Definition world1 : World := {| trace := []; execs := 0; ticks := 1 |}.

(** ** Sample environments *)

(** The [path] functions of the sample environments: what Node's POSIX
    [path.join] and [path.dirname] return for segments without dots, empty
    parts or doubled separators under a directory other than the root. *)
Definition posix_join (segments : list string) : string :=
  String.concat "/" segments.

Fixpoint before_last_slash (p : string) : option string :=
  match p with
  | EmptyString => None
  | String c rest =>
      match before_last_slash rest with
      | Some d => Some (String c d)
      | None => if Ascii.eqb c "/" then Some EmptyString else None
      end
  end.

Definition posix_dirname (p : string) : string :=
  match before_last_slash p with
  | Some EmptyString => "/"
  | Some d => d
  | None => "."
  end.

Definition failure (cmd : string) : ExecOutcome :=
  Failed (NonZeroExit 1)
         {| Js.message := "Command failed: " ++ cmd; Js.stdout := "1 failed" |}.

Definition timeout_failure : ExecOutcome :=
  Failed TimedOut
         {| Js.message := "spawnSync /bin/sh ETIMEDOUT"; Js.stdout := "Running 12 tests" |}.

(** Every subprocess call succeeds, except that the calls whose position
    (from 0) is in [failing] exit with status 1 and those whose position is
    in [hanging] run into their timeout; the file system accepts
    everything. *)
Definition sample_env_with (failing hanging : list nat) : Env :=
  {| env_exec := fun n cmd _ =>
                   if existsb (Nat.eqb n) failing then failure cmd
                   else if existsb (Nat.eqb n) hanging then timeout_failure
                   else Completed "ok";
     env_now := fun n => 1000 * Z.of_nat n;
     env_exists := fun _ => true;
     env_mkdir := fun _ => None;
     env_write := fun _ => None;
     env_NODE_ENV := None;
     env_dirname := "/repo";
     env_path_join := posix_join;
     env_path_dirname := posix_dirname |}.

Definition sample_env (failing : list nat) : Env := sample_env_with failing [].

(** An environment whose file system refuses the write of the report. *)
Definition read_only_env : Env :=
  {| env_exec := fun _ _ _ => Completed "ok";
     env_now := fun n => 1000 * Z.of_nat n;
     env_exists := fun _ => true;
     env_mkdir := fun _ => None;
     env_write := fun _ =>
       Some {| Js.message := "EACCES: permission denied"; Js.stdout := EmptyString |};
     env_NODE_ENV := Some "ci";
     env_dirname := "/repo";
     env_path_join := posix_join;
     env_path_dirname := posix_dirname |}.

(** A fresh checkout: no path exists yet, directories can be made. *)
Definition fresh_checkout_env : Env :=
  {| env_exec := fun _ _ _ => Completed "ok";
     env_now := fun n => 1000 * Z.of_nat n;
     env_exists := fun _ => false;
     env_mkdir := fun _ => None;
     env_write := fun _ => None;
     env_NODE_ENV := Some EmptyString;
     env_dirname := "/repo";
     env_path_join := posix_join;
     env_path_dirname := posix_dirname |}.

(** Whether a trace shows a failed invocation of a critical category. *)
Definition critical_category_failed (tr : list Event) : bool :=
  existsb (fun c =>
             negb (completed (call_outcome c))
             && existsb (fun s => critical s && String.eqb (command s) (call_cmd c))
                        testSuites)
          (exec_calls tr).

(** ** Console lines and actions *)

(** The lines written through [log], in order: level and message. *)
Fixpoint logged (tr : list Event) : list (LogType * string) :=
  match tr with
  | [] => []
  | EvLog _ type msg :: t => (type, msg) :: logged t
  | _ :: t => logged t
  end.

(** Everything else the process does, in order: subprocess calls, pauses,
    file system calls, and what it prints outside [log]. *)
Fixpoint actions (tr : list Event) : list Event :=
  match tr with
  | [] => []
  | EvLog _ _ _ :: t => actions t
  | e :: t => e :: actions t
  end.

(** The console line that announces the written report. *)
Definition is_saved_line (l : LogType * string) : bool :=
  String.prefix "📄 Detailed report saved to: " (snd l).

Definition saved_lines (tr : list Event) : list (LogType * string) :=
  filter is_saved_line (logged tr).

(** Subprocess calls and pauses in the order they happen. *)
Inductive Slot :=
| Call (cmd : string)
| Pause (ms : Z).

Fixpoint schedule (tr : list Event) : list Slot :=
  match tr with
  | [] => []
  | EvExec cmd _ _ :: t => Call cmd :: schedule t
  | EvSleep ms :: t => Pause ms :: schedule t
  | _ :: t => schedule t
  end.

(** File system calls in the order they happen. *)
Inductive FsOp :=
| FsExists (path : string)
| FsMkdir (path : string)
| FsWrite (path : string).

Fixpoint fs_ops (tr : list Event) : list FsOp :=
  match tr with
  | [] => []
  | EvExists p _ :: t => FsExists p :: fs_ops t
  | EvMkdir p :: t => FsMkdir p :: fs_ops t
  | EvWriteFile p _ :: t => FsWrite p :: fs_ops t
  | _ :: t => fs_ops t
  end.

(** The error [generateDetailedReport] runs into, if any: that of
    [mkdirSync] when the directory is missing and cannot be made, otherwise
    that of [writeFileSync]. *)
Definition report_error (env : Env) : option Js.Error :=
  if env_exists env (reportDir env) then env_write env (reportPath env)
  else match env_mkdir env (reportDir env) with
       | Some e => Some e
       | None => env_write env (reportPath env)
       end.

(** What the loop does for the calls it makes: each call, then the pause. *)
Definition loop_actions (calls : list ExecCall) : list Event :=
  flat_map (fun c => [EvExec (call_cmd c) (call_timeout c) (call_outcome c);
                      EvSleep 2000])
           calls.

(** The two console lines of [runTestSuite]: the one that opens it, and the
    one that tells how the subprocess ended. *)
Definition start_line (suiteName : string) : LogType * string :=
  (info, ("Starting " ++ suiteName ++ " tests...")%string).

Definition result_line (suiteName : string) (o : ExecOutcome) : LogType * string :=
  match o with
  | Completed _ =>
      (success, ("✅ " ++ suiteName ++ " tests completed successfully")%string)
  | Failed _ err =>
      (error, ("❌ " ++ suiteName ++ " tests failed: " ++ Js.message err)%string)
  end.

(** The suite names the usage text offers for [--suite], each with the
    category of [testSuites] it describes. *)
Definition advertised : list (string * string) :=
  [("smoke", "Smoke Tests");
   ("api", "API Tests");
   ("e2e", "E2E Tests");
   ("performance", "Performance Tests");
   ("accessibility", "Accessibility Tests");
   ("security", "Security Tests")].

(** The path [checkPrerequisites] looks for the browsers under. *)
Definition browsersPath (env : Env) : string :=
  env_path_join env [env_dirname env; "node_modules"; "@playwright"; "test"].

(** The line [main().catch] prints for an error. *)
Definition failure_line (e : Js.Error) : string :=
  Js.esc ++ "[31m❌ Test runner failed: " ++ Js.message e ++ " " ++ Js.esc ++ "[0m".

(** The stages of a full run that gets past the prerequisite check:
    the check, the two opening lines, the loop over the categories, the
    console summary and the report, each with the events it appends, and the
    line [main().catch] adds when the report stage throws. *)
Inductive Stages (env : Env) : Prop :=
| Stages_intro (w1 w2 w3 w4 w5 w6 : World) (e1 e2 e3 e4 e5 e6 : list Event)
    (out : string) (st : LoopState) (rs : list SuiteResult)
    (r : Completion unit) :
    Effect (checkPrerequisites env) world1 (Normal tt) w1 e1 ->
    actions e1
    = [EvExec playwright_version None (Completed out);
       EvExists (browsersPath env) (env_exists env (browsersPath env));
       EvExec ping_target (Some 5000) (env_exec env 1%nat ping_target (Some 5000))] ->
    saved_lines e1 = [] ->
    Effect (log env "🚀 Starting LI.FI QA Automation Test Suite" info)
           w1 (Normal tt) w2 e2 ->
    Effect (log env separator info) w2 (Normal tt) w3 e3 ->
    Effect (for_of env testSuites (loop_start (fresh_runner env)))
           w3 (Normal st) w4 e4 ->
    Invoked testSuites (exec_calls e4) rs ->
    advanced (loop_start (fresh_runner env)) st rs ->
    actions e4 = loop_actions (exec_calls e4) ->
    saved_lines e4 = [] ->
    Effect (generateSummaryReport env (ls_this st) (ls_criticalFailures st)
              (ls_totalFailures st))
           w4 (Normal tt) w5 e5 ->
    Effect (generateDetailedReport env (ls_this st)) w5 r w6 e6 ->
    trace (snd (run env []))
    = e1 ++ e2 ++ e3 ++ e4 ++ e5 ++ e6
         ++ match r with
            | Throw e => [EvError (failure_line e)]
            | _ => []
            end ->
    Stages env.

(** Closes a goal [Effect m w r w' evs /\ facts] once [m w] has been
    computed to a pair: the result and world are read off, the trace is
    reassociated, and the facts about the events are decided by
    computation. *)
Ltac read_off :=
  (split; [split; [reflexivity|]|]);
  try (cbn [trace]; rewrite <- ?app_assoc; reflexivity);
  repeat split.

(** ** Lists and traces *)

Lemma exec_calls_app (a b : list Event) :
  exec_calls (a ++ b) = exec_calls a ++ exec_calls b.
Proof.
  induction a as [|e a IH]; simpl; [reflexivity|].
  destruct e; simpl; rewrite ?IH; reflexivity.
Qed.

Lemma written_app (a b : list Event) :
  written (a ++ b) = written a ++ written b.
Proof.
  induction a as [|e a IH]; simpl; [reflexivity|].
  destruct e; simpl; rewrite ?IH; reflexivity.
Qed.

Lemma reported_app (a b : list Event) :
  reported (a ++ b) = reported a ++ reported b.
Proof.
  induction a as [|e a IH]; simpl; [reflexivity|].
  destruct e; simpl; rewrite ?IH; try reflexivity.
  destruct (classification_of_line msg); simpl; rewrite ?IH; reflexivity.
Qed.

Lemma Invoked_app l1 c1 r1 l2 c2 r2 :
  Invoked l1 c1 r1 -> Invoked l2 c2 r2 -> Invoked (l1 ++ l2) (c1 ++ c2) (r1 ++ r2).
Proof.
  induction 1; simpl; intros H2; [assumption|].
  constructor. auto.
Qed.

Lemma Invoked_length l calls rs :
  Invoked l calls rs ->
  List.length calls = List.length l /\ List.length rs = List.length l.
Proof.
  induction 1 as [|s o l calls rs _ [IH1 IH2]]; simpl; auto.
Qed.

Lemma Invoked_names l calls rs :
  Invoked l calls rs -> map sr_name rs = map name l.
Proof. induction 1; simpl; congruence. Qed.

Lemma Invoked_commands l calls rs :
  Invoked l calls rs -> map call_cmd calls = map command l.
Proof. induction 1; simpl; [reflexivity | f_equal; assumption]. Qed.

Lemma Invoked_critical l calls rs :
  Invoked l calls rs -> map sr_critical rs = map critical l.
Proof. induction 1; simpl; congruence. Qed.

Lemma Invoked_success l calls rs :
  Invoked l calls rs ->
  map sr_success rs = map (fun c => completed (call_outcome c)) calls.
Proof. induction 1; simpl; [reflexivity | f_equal; assumption]. Qed.

Lemma Invoked_outputs l calls rs :
  Invoked l calls rs ->
  map sr_output rs = map (fun c => output_of (call_outcome c)) calls.
Proof. induction 1; simpl; [reflexivity | f_equal; assumption]. Qed.

Lemma Invoked_timeouts l calls rs :
  Invoked l calls rs -> Forall (fun c => call_timeout c = Some 300000) calls.
Proof. induction 1; constructor; [reflexivity | assumption]. Qed.

Lemma filter_split_length {A : Type} (p : A -> bool) (l : list A) :
  (List.length (filter p l) + List.length (filter (fun x => negb (p x)) l)
   = List.length l)%nat.
Proof.
  induction l as [|x l IH]; simpl; [reflexivity|].
  destruct (p x); simpl; lia.
Qed.

Lemma filter_length_le {A : Type} (p : A -> bool) (l : list A) :
  (List.length (filter p l) <= List.length l)%nat.
Proof.
  induction l as [|x l IH]; simpl; [lia|].
  destruct (p x); simpl; lia.
Qed.

Lemma filter_length_mono {A : Type} (p q : A -> bool) (l : list A) :
  (forall x, p x = true -> q x = true) ->
  (List.length (filter p l) <= List.length (filter q l))%nat.
Proof.
  intros Hpq. induction l as [|x l IH]; simpl; [lia|].
  destruct (p x) eqn:Hp.
  - rewrite (Hpq x Hp). simpl. lia.
  - destruct (q x); simpl; lia.
Qed.

Lemma classify_counts (rs : list SuiteResult) :
  classify rs =
    if Js.length (filter critical_failed_entry rs) >? 0 then CriticalFailure
    else if Js.length (filter failed_entry rs) >? 0 then NonCriticalFailure
    else AllPass.
Proof.
  unfold classify, Js.length.
  assert (Hex : forall p : SuiteResult -> bool,
             existsb p rs = (Z.of_nat (List.length (filter p rs)) >? 0)).
  { intros p. induction rs as [|r rs IH]; simpl; [reflexivity|].
    destruct (p r); simpl; [|exact IH].
    symmetry. apply Z.gtb_lt. lia. }
  rewrite <- !Hex.
  replace (existsb critical_failed_entry rs)
    with (existsb (fun r => sr_critical r && negb (sr_success r)) rs).
  - reflexivity.
  - clear Hex. induction rs as [|r rs IH]; simpl; [reflexivity|].
    rewrite IH. unfold critical_failed_entry.
    rewrite (andb_comm (sr_critical r)). reflexivity.
Qed.

(** ** What each method does to the world *)

Lemma Effect_bind {A B : Type} (m : M A) (k : A -> M B) w a w1 e1 r w2 e2 :
  Effect m w (Normal a) w1 e1 ->
  Effect (k a) w1 r w2 e2 ->
  Effect (bind m k) w r w2 (e1 ++ e2).
Proof.
  intros [Hm Ht1] [Hk Ht2]. split.
  - unfold bind. rewrite Hm. exact Hk.
  - rewrite Ht2, Ht1, app_assoc. reflexivity.
Qed.

Lemma Effect_bind_exit {A B : Type} (m : M A) (k : A -> M B) w c w1 e1 :
  Effect m w (Exit c) w1 e1 ->
  Effect (bind m k) w (Exit c) w1 e1.
Proof.
  intros [Hm Ht1]. split; [|exact Ht1].
  unfold bind. rewrite Hm. reflexivity.
Qed.

Lemma Effect_bind_throw {A B : Type} (m : M A) (k : A -> M B) w e w1 e1 :
  Effect m w (Throw e) w1 e1 ->
  Effect (bind m k) w (Throw e) w1 e1.
Proof.
  intros [Hm Ht1]. split; [|exact Ht1].
  unfold bind. rewrite Hm. reflexivity.
Qed.

Lemma Effect_ret {A : Type} (a : A) w : Effect (ret a) w (Normal a) w [].
Proof. split; [reflexivity | symmetry; apply app_nil_r]. Qed.

Section Effects.

Variable env : Env.

Lemma log_effect (message : string) (type : LogType) (w : World) :
  exists w',
    Effect (log env message type) w (Normal tt) w'
           [EvLog (env_now env (ticks w)) type message]
    /\ execs w' = execs w.
Proof. eexists. repeat split. Qed.

Lemma log_plain (message : string) (type : LogType) (w : World) :
  plain message ->
  exists w' evs,
    Effect (log env message type) w (Normal tt) w' evs
    /\ exec_calls evs = [] /\ written evs = [] /\ reported evs = []
    /\ execs w' = execs w.
Proof.
  intros Hp. destruct (log_effect message type w) as [w' [He Hx]].
  exists w', [EvLog (env_now env (ticks w)) type message].
  repeat split; try apply He; try assumption.
  simpl. rewrite Hp. reflexivity.
Qed.

Lemma runTestSuite_effect (suiteName cmd : string) (w : World) :
  exists r w' evs,
    Effect (runTestSuite env suiteName cmd) w (Normal r) w' evs
    /\ exec_calls evs = [(cmd, Some 300000, env_exec env (execs w) cmd (Some 300000))]
    /\ rr_success r = completed (env_exec env (execs w) cmd (Some 300000))
    /\ rr_output r = output_of (env_exec env (execs w) cmd (Some 300000))
    /\ written evs = [] /\ reported evs = []
    /\ execs w' = S (execs w).
Proof.
  unfold Effect. destruct w as [tr n t].
  cbv beta iota zeta delta
    [runTestSuite bind try_catch log execSync Date_now emit ret trace execs ticks].
  destruct (env_exec env n cmd (Some 300000)) as [out|why err];
    do 3 eexists; read_off.
Qed.

Lemma loop_body_effect (st : LoopState) (suite : Suite) (w : World) :
  exists st' w' evs o,
    Effect (loop_body env st suite) w (Normal st') w' evs
    /\ exec_calls evs = [(command suite, Some 300000, o)]
    /\ advanced st st'
         [{| sr_name := name suite; sr_success := completed o;
             sr_critical := critical suite; sr_output := output_of o |}]
    /\ written evs = [] /\ reported evs = [].
Proof.
  destruct (runTestSuite_effect (name suite) (command suite) w)
    as (r & w1 & e1 & He & Hc & Hs & Ho & Hw & Hr & _).
  eexists _, _, (e1 ++ [EvSleep 2000]), _. split; [|split; [|split; [|split]]].
  - unfold loop_body. eapply Effect_bind; [exact He|].
    split; reflexivity.
  - rewrite exec_calls_app, Hc. reflexivity.
  - unfold advanced, same_header, failed_entry, critical_failed_entry.
    cbn [ls_this ls_totalFailures ls_criticalFailures push this_results suites
         startTime total passed failed skipped filter sr_success sr_critical].
    rewrite Hs, Ho.
    destruct (completed (env_exec env (execs w) (command suite) (Some 300000)));
      destruct (critical suite); cbn; repeat split; lia.
  - rewrite written_app, Hw. reflexivity.
  - rewrite reported_app, Hr. reflexivity.
Qed.

Lemma advanced_refl (st : LoopState) : advanced st st [].
Proof.
  unfold advanced, same_header. cbn. rewrite app_nil_r.
  repeat split; lia.
Qed.

Lemma advanced_trans (a b c : LoopState) (r1 r2 : list SuiteResult) :
  advanced a b r1 -> advanced b c r2 -> advanced a c (r1 ++ r2).
Proof.
  unfold advanced, same_header, Js.length.
  intros (Hs1 & (H1 & H2 & H3 & H4 & H5) & Ht1 & Hc1)
         (Hs2 & (G1 & G2 & G3 & G4 & G5) & Ht2 & Hc2).
  rewrite !filter_app, !length_app, !Nat2Z.inj_add.
  repeat split; try congruence; try lia.
  rewrite Hs2, Hs1, app_assoc. reflexivity.
Qed.

Lemma for_of_effect (l : list Suite) :
  forall (st : LoopState) (w : World),
  exists st' w' evs rs,
    Effect (for_of env l st) w (Normal st') w' evs
    /\ Invoked l (exec_calls evs) rs
    /\ advanced st st' rs
    /\ written evs = [] /\ reported evs = [].
Proof.
  induction l as [|suite l IH]; intros st w.
  - exists st, w, [], []. repeat split; try apply advanced_refl.
    + symmetry; apply app_nil_r.
    + constructor.
  - destruct (loop_body_effect st suite w)
      as (st1 & w1 & e1 & o & He1 & Hc1 & Ha1 & Hw1 & Hr1).
    destruct (IH st1 w1) as (st2 & w2 & e2 & rs & He2 & Hi2 & Ha2 & Hw2 & Hr2).
    eexists st2, w2, (e1 ++ e2), (_ :: rs). split; [|split; [|split; [|split]]].
    + simpl. eapply Effect_bind; eassumption.
    + rewrite exec_calls_app, Hc1. simpl. constructor. exact Hi2.
    + exact (advanced_trans _ _ _ _ _ Ha1 Ha2).
    + rewrite written_app, Hw1, Hw2. reflexivity.
    + rewrite reported_app, Hr1, Hr2. reflexivity.
Qed.

Lemma for_of_app (l1 l2 : list Suite) (st : LoopState) (w : World) :
  for_of env (l1 ++ l2) st w
  = bind (for_of env l1 st) (fun st' => for_of env l2 st') w.
Proof.
  revert st w. induction l1 as [|s l1 IH]; intros st w; simpl.
  - reflexivity.
  - unfold bind. destruct (loop_body env st s w) as [[st1| |] w1];
      [|reflexivity|reflexivity].
    rewrite IH. reflexivity.
Qed.

Lemma generateSummaryReport_effect (this : TestRunner)
    (criticalFailures totalFailures : Z) (w : World) :
  exists w' evs,
    Effect (generateSummaryReport env this criticalFailures totalFailures)
           w (Normal tt) w' evs
    /\ exec_calls evs = [] /\ written evs = []
    /\ reported evs =
         [if criticalFailures >? 0 then CriticalFailure
          else if totalFailures >? 0 then NonCriticalFailure
          else AllPass].
Proof.
  unfold Effect. destruct w as [tr n t].
  cbv beta iota zeta delta
    [generateSummaryReport bind log Date_now emit ret trace execs ticks].
  destruct (criticalFailures >? 0); [|destruct (totalFailures >? 0)];
    do 2 eexists; read_off.
Qed.

Lemma generateDetailedReport_effect (this : TestRunner) (w : World) :
  exists r w' evs,
    Effect (generateDetailedReport env this) w r w' evs
    /\ exec_calls evs = [] /\ reported evs = []
    /\ if can_write_report env then
         r = Normal tt
         /\ exists report,
             written evs = [(reportPath env, report)]
             /\ results report = this_results this
             /\ totalSuites (summary report)
                = Js.length (suites (this_results this))
             /\ passedSuites (summary report)
                = Js.length (filter sr_success (suites (this_results this)))
             /\ failedSuites (summary report)
                = Js.length (filter failed_entry (suites (this_results this)))
             /\ criticalFailures (summary report)
                = Js.length (filter critical_failed_entry
                                    (suites (this_results this)))
       else (exists e, r = Throw e) /\ written evs = [].
Proof.
  unfold Effect, can_write_report. destruct w as [tr n t].
  cbv beta iota zeta delta
    [generateDetailedReport bind log Date_now emit ret throw existsSync
     mkdirSync writeFileSync trace execs ticks].
  destruct (env_exists env (reportDir env));
    cbv beta iota zeta delta [negb orb andb bind emit ret throw trace execs ticks];
    [|destruct (env_mkdir env (reportDir env)) as [e|]];
    try destruct (env_write env (reportPath env)) as [e'|];
    cbv beta iota zeta delta [negb orb andb bind emit ret throw trace execs ticks];
    do 3 eexists; read_off; try (eexists; reflexivity).
  all: eexists; repeat split.
Qed.

Lemma checkPrerequisites_effect (w : World) :
  exists r w' evs,
    Effect (checkPrerequisites env) w r w' evs
    /\ written evs = [] /\ reported evs = []
    /\ match env_exec env (execs w) playwright_version None with
       | Completed out =>
           r = Normal tt
           /\ exec_calls evs =
                [(playwright_version, None, Completed out);
                 (ping_target, Some 5000,
                  env_exec env (S (execs w)) ping_target (Some 5000))]
       | Failed why err =>
           r = Exit 1
           /\ exec_calls evs = [(playwright_version, None, Failed why err)]
       end.
Proof.
  unfold Effect. destruct w as [tr n t].
  cbv beta iota zeta delta
    [checkPrerequisites bind try_catch log execSync existsSync Date_now emit
     ret process_exit trace execs ticks].
  destruct (env_exec env n playwright_version None) as [out|why err].
  - destruct (env_exists env _);
      destruct (env_exec env (S n) ping_target (Some 5000)) as [out'|why' err'];
      do 3 eexists; read_off.
  - do 3 eexists; read_off.
Qed.

Lemma runAllTests_effect (this : TestRunner) (w : World) :
  suites (this_results this) = [] ->
  exists r w' evs rs,
    Effect (runAllTests env this) w r w' evs
    /\ Invoked testSuites (exec_calls evs) rs
    /\ reported evs = [classify rs]
    /\ if can_write_report env then
         (exists this', r = Normal this'
                        /\ suites (this_results this') = rs
                        /\ same_header this this')
         /\ exists report,
             written evs = [(reportPath env, report)]
             /\ suites (results report) = rs
             /\ total (results report) = total (this_results this)
             /\ passed (results report) = passed (this_results this)
             /\ failed (results report) = failed (this_results this)
             /\ skipped (results report) = skipped (this_results this)
             /\ totalSuites (summary report) = Js.length rs
             /\ passedSuites (summary report) = Js.length (filter sr_success rs)
             /\ failedSuites (summary report) = Js.length (filter failed_entry rs)
             /\ criticalFailures (summary report)
                = Js.length (filter critical_failed_entry rs)
       else (exists e, r = Throw e) /\ written evs = [].
Proof.
  intros Hempty. unfold runAllTests.
  destruct (log_plain "🚀 Starting LI.FI QA Automation Test Suite" info w
                      eq_refl)
    as (w1 & e1 & He1 & Hc1 & Hw1 & Hr1 & _).
  destruct (log_plain separator info w1 eq_refl)
    as (w2 & e2 & He2 & Hc2 & Hw2 & Hr2 & _).
  destruct (for_of_effect testSuites
              {| ls_this := this; ls_criticalFailures := 0; ls_totalFailures := 0 |}
              w2)
    as (st & w3 & e3 & rs & He3 & Hi3 & (Hs & Hh & Ht & Hc) & Hw3 & Hr3).
  cbn [ls_this ls_criticalFailures ls_totalFailures] in Hs, Hh, Ht, Hc.
  rewrite Hempty in Hs. cbn [app] in Hs.
  destruct (generateSummaryReport_effect (ls_this st) (ls_criticalFailures st)
              (ls_totalFailures st) w3)
    as (w4 & e4 & He4 & Hc4 & Hw4 & Hr4).
  destruct (generateDetailedReport_effect (ls_this st) w4)
    as (r5 & w5 & e5 & He5 & Hc5 & Hr5 & Hcase).
  assert (Hcalls : exec_calls (e1 ++ e2 ++ e3 ++ e4 ++ e5) = exec_calls e3).
  { rewrite !exec_calls_app, Hc1, Hc2, Hc4, Hc5, app_nil_r. reflexivity. }
  assert (Hrep : reported (e1 ++ e2 ++ e3 ++ e4 ++ e5) = [classify rs]).
  { rewrite !reported_app, Hr1, Hr2, Hr3, Hr4, Hr5, Hc, Ht, classify_counts.
    reflexivity. }
  assert (Hwr : written (e1 ++ e2 ++ e3 ++ e4 ++ e5) = written e5).
  { rewrite !written_app, Hw1, Hw2, Hw3, Hw4. reflexivity. }
  destruct (can_write_report env).
  - destruct Hcase as (-> & report & Hwrite & Hres & Htot & Hpass & Hfail & Hcrit).
    exists (Normal (ls_this st)), w5, (e1 ++ e2 ++ e3 ++ e4 ++ e5 ++ []), rs.
    rewrite app_nil_r.
    split; [|split; [|split; [|split]]].
    + eapply Effect_bind; [exact He1|]. eapply Effect_bind; [exact He2|].
      eapply Effect_bind; [exact He3|]. eapply Effect_bind; [exact He4|].
      rewrite <- (app_nil_r e5).
      eapply Effect_bind; [exact He5|]. apply Effect_ret.
    + rewrite Hcalls. exact Hi3.
    + exact Hrep.
    + exists (ls_this st). auto.
    + exists report. rewrite Hwr, Hres, Htot, Hpass, Hfail, Hcrit, Hs.
      destruct Hh as (_ & H1 & H2 & H3 & H4).
      repeat split; assumption.
  - destruct Hcase as ((e & ->) & Hwrite).
    exists (Throw e), w5, (e1 ++ e2 ++ e3 ++ e4 ++ e5), rs.
    split; [|split; [|split; [|split]]].
    + eapply Effect_bind; [exact He1|]. eapply Effect_bind; [exact He2|].
      eapply Effect_bind; [exact He3|]. eapply Effect_bind; [exact He4|].
      apply Effect_bind_throw. exact He5.
    + rewrite Hcalls. exact Hi3.
    + exact Hrep.
    + exists e. reflexivity.
    + rewrite Hwr. exact Hwrite.
Qed.

End Effects.

(** ** The full run: [node run-tests.js] without arguments *)

Lemma main_no_arguments (env : Env) :
  main env [] world0
  = bind (checkPrerequisites env)
         (fun _ =>
            runAllTests env
              {| startTime := env_now env 0%nat;
                 this_results :=
                   {| total := 0; passed := 0; failed := 0; skipped := 0;
                      suites := [] |} |})
         {| trace := []; execs := 0; ticks := 1 |}.
Proof. reflexivity. Qed.

Lemma results_eta (r : Results) :
  r = {| total := total r; passed := passed r; failed := failed r;
         skipped := skipped r; suites := suites r |}.
Proof. destruct r; reflexivity. Qed.

Lemma summary_eta (s : Summary) :
  s = {| totalSuites := totalSuites s; passedSuites := passedSuites s;
         failedSuites := failedSuites s; criticalFailures := criticalFailures s |}.
Proof. destruct s; reflexivity. Qed.

Lemma full_run (env : Env) : FullRun env (fst (run env [])) (snd (run env [])).
Proof.
  unfold run. rewrite main_no_arguments.
  set (w1 := {| trace := []; execs := 0; ticks := 1 |}).
  set (this := {| startTime := env_now env 0%nat; this_results := _ |}).
  destruct (checkPrerequisites_effect env w1)
    as (r1 & w2 & e1 & [Hrun1 Htr1] & Hw1 & Hr1 & Hcase1).
  cbn [execs w1] in Hcase1. cbn [trace w1 app] in Htr1.
  unfold bind. rewrite Hrun1.
  destruct (env_exec env 0%nat playwright_version None) as [out|why err] eqn:Htool.
  - destruct Hcase1 as [-> Hcalls1].
    destruct (runAllTests_effect env this w2 eq_refl)
      as (r2 & w3 & e2 & rs & [Hrun2 Htr2] & Hinv & Hrep & Hcase2).
    rewrite Hrun2.
    assert (Hcalls :
              exec_calls (e1 ++ e2)
              = (playwright_version, None, Completed out)
                  :: (ping_target, Some 5000,
                      env_exec env 1%nat ping_target (Some 5000))
                  :: exec_calls e2).
    { rewrite exec_calls_app, Hcalls1. reflexivity. }
    destruct (can_write_report env) eqn:Hcan.
    + destruct Hcase2
        as ((this' & -> & _ & _) & report & Hwr & Hsu & Ht & Hp & Hf & Hs
            & Hts & Hps & Hfs & Hcs).
      cbn [fst snd]. rewrite Htr1 in Htr2.
      eapply FullRun_reported with (rs := rs) (report := report);
        try eassumption; rewrite ?Htr2.
      * exact Hcalls.
      * rewrite reported_app, Hr1, Hrep. reflexivity.
      * rewrite written_app, Hw1, Hwr. reflexivity.
      * rewrite (results_eta (results report)), Hsu, Ht, Hp, Hf, Hs. reflexivity.
      * rewrite (summary_eta (summary report)), Hts, Hps, Hfs, Hcs. reflexivity.
    + destruct Hcase2 as ((e & ->) & Hwr).
      cbn [fst snd console_error emit trace]. rewrite Htr1 in Htr2.
      eapply FullRun_write_failed with (rs := rs); try eassumption;
        rewrite ?Htr2; cbn [trace].
      * rewrite exec_calls_app, Hcalls, app_nil_r. reflexivity.
      * rewrite !reported_app, Hr1, Hrep. reflexivity.
      * rewrite !written_app, Hw1, Hwr. reflexivity.
  - destruct Hcase1 as [-> Hcalls1]. cbn [fst snd].
    eapply FullRun_tool_missing; rewrite ?Htr1; eassumption.
Qed.

(** Every command of [testSuites] is a category invocation, and the two
    probes of [checkPrerequisites] are not. *)
Lemma testSuites_commands :
  Forall (fun s => String.prefix "npx playwright test" (command s) = true) testSuites.
Proof. repeat constructor. Qed.

Lemma Invoked_category_calls l calls rs :
  Invoked l calls rs ->
  Forall (fun s => String.prefix "npx playwright test" (command s) = true) l ->
  filter is_category_call calls = calls.
Proof.
  induction 1 as [|s o l calls rs _ IH]; intros Hall; [reflexivity|].
  inversion Hall as [|s' l' Hs Hl]; subst.
  cbn [filter]. unfold is_category_call at 1, call_cmd. cbn [fst].
  rewrite Hs, (IH Hl). reflexivity.
Qed.

Lemma Invoked_failed_count l calls rs :
  Invoked l calls rs ->
  List.length (filter failed_entry rs)
  = List.length (filter (fun c => negb (completed (call_outcome c))) calls).
Proof.
  induction 1 as [|s o l calls rs _ IH]; [reflexivity|].
  cbn [filter]. unfold failed_entry at 1, call_outcome at 1. cbn [sr_success snd].
  destruct (completed o); cbn [negb List.length]; rewrite IH; reflexivity.
Qed.

Lemma Invoked_passed_count l calls rs :
  Invoked l calls rs ->
  List.length (filter sr_success rs)
  = List.length (filter (fun c => completed (call_outcome c)) calls).
Proof.
  induction 1 as [|s o l calls rs _ IH]; [reflexivity|].
  cbn [filter]. unfold call_outcome at 1. cbn [sr_success snd].
  destruct (completed o); cbn [List.length]; rewrite IH; reflexivity.
Qed.

(** A full run in which the browser-automation tool is found: all the
    categories are invoked, the console shows the classification of the
    recorded entries, and the run ends either with the report written and
    exit code 0 or, the write failing, with exit code 1. *)
Lemma full_run_tool_found (env : Env) (out : string) :
  env_exec env 0%nat playwright_version None = Completed out ->
  exists rs,
    Invoked testSuites (category_calls (trace (snd (run env [])))) rs
    /\ reported (trace (snd (run env []))) = [classify rs]
    /\ ((can_write_report env = true
         /\ fst (run env []) = 0
         /\ exists report,
             written (trace (snd (run env []))) = [(reportPath env, report)]
             /\ results report
                = {| total := 0; passed := 0; failed := 0; skipped := 0;
                     suites := rs |}
             /\ summary report
                = {| totalSuites := Js.length rs;
                     passedSuites := Js.length (filter sr_success rs);
                     failedSuites := Js.length (filter failed_entry rs);
                     criticalFailures :=
                       Js.length (filter critical_failed_entry rs) |})
        \/ (can_write_report env = false
            /\ fst (run env []) = 1
            /\ written (trace (snd (run env []))) = [])).
Proof.
  intros Htool.
  destruct (full_run env)
    as [why err w Hmiss _ _ _
       | out' calls rs report w _ Hcan Hinv Hcalls Hrep Hwr Hres Hsum
       | out' calls rs w _ Hcan Hinv Hcalls Hrep Hwr];
    [congruence| |];
    exists rs; unfold category_calls; rewrite Hcalls;
    change (filter is_category_call (_ :: _ :: calls))
      with (filter is_category_call calls);
    rewrite (Invoked_category_calls _ _ _ Hinv testSuites_commands);
    (split; [exact Hinv|split; [exact Hrep|]]).
  - left. repeat split; try assumption. exists report. auto.
  - right. auto.
Qed.

Example full_run_all_pass :
  fst (run (sample_env []) []) = 0
  /\ reported (trace (snd (run (sample_env []) []))) = [AllPass]
  /\ map (fun pr => summary (snd pr)) (written (trace (snd (run (sample_env []) []))))
     = [{| totalSuites := 6; passedSuites := 6; failedSuites := 0;
           criticalFailures := 0 |}].
Proof. vm_compute. repeat split. Qed.

Example full_run_e2e_fails :
  fst (run (sample_env [4%nat]) []) = 0
  /\ reported (trace (snd (run (sample_env [4%nat]) []))) = [NonCriticalFailure]
  /\ map (fun pr => summary (snd pr))
         (written (trace (snd (run (sample_env [4%nat]) []))))
     = [{| totalSuites := 6; passedSuites := 5; failedSuites := 1;
           criticalFailures := 0 |}].
Proof. vm_compute. repeat split. Qed.

Example full_run_tool_missing :
  fst (run (sample_env [0%nat]) []) = 1
  /\ map call_cmd (exec_calls (trace (snd (run (sample_env [0%nat]) []))))
     = [playwright_version]
  /\ written (trace (snd (run (sample_env [0%nat]) []))) = [].
Proof. vm_compute. repeat split. Qed.

Example help_prints_usage :
  run (sample_env []) ["--quick"; "-h"]
  = (0, {| trace := [EvPrint helpText]; execs := 0; ticks := 1 |}).
Proof. vm_compute. reflexivity. Qed.

Example suite_without_name_is_a_full_run :
  run (sample_env []) ["--suite"] = run (sample_env []) [].
Proof. vm_compute. reflexivity. Qed.

(** ** The claims *)

(** *** Exit code of a full run *)

(** C1, as stated, fails: in the run where the Smoke category (critical)
    exits with a non-zero status and everything else succeeds, the trace
    shows the failed critical invocation, the console reports a critical
    failure, and the process still exits with code 0. *)
Lemma exit_code_zero_despite_critical_failure :
  critical_category_failed (trace (snd (run (sample_env [2%nat]) []))) = true
  /\ reported (trace (snd (run (sample_env [2%nat]) []))) = [CriticalFailure]
  /\ fst (run (sample_env [2%nat]) []) = 0.
Proof. vm_compute. repeat split. Qed.

(** C1, amended: the exit code of a full run is 0 exactly when the
    browser-automation tool is found and the report can be written, and 1
    otherwise; the outcomes of the categories, critical or not, have no part
    in it. *)
Theorem full_run_exit_code (env : Env) :
  fst (run env [])
  = if completed (env_exec env 0%nat playwright_version None)
       && can_write_report env
    then 0 else 1.
Proof.
  destruct (full_run env)
    as [why err w Hmiss _ _ _
       | out calls rs report w Htool Hcan _ _ _ _ _ _
       | out calls rs w Htool Hcan _ _ _ _].
  - rewrite Hmiss. reflexivity.
  - rewrite Htool, Hcan. reflexivity.
  - rewrite Htool, Hcan. reflexivity.
Qed.

(** *** Classification *)

(** C2: in a full run that gets past the prerequisite check, the entries
    [rs] recorded for the six category invocations of the trace classify,
    by the rule of the specification, to exactly the one classification the
    console shows. *)
Theorem full_run_classification (env : Env) (out : string) :
  env_exec env 0%nat playwright_version None = Completed out ->
  exists rs,
    Invoked testSuites (category_calls (trace (snd (run env [])))) rs
    /\ reported (trace (snd (run env []))) = [classify rs].
Proof.
  intros Htool.
  destruct (full_run_tool_found env out Htool) as (rs & Hinv & Hrep & _).
  exists rs. split; assumption.
Qed.

Lemma full_run_classification_witness :
  exists rs,
    Invoked testSuites
            (category_calls (trace (snd (run (sample_env [3%nat; 5%nat]) [])))) rs
    /\ reported (trace (snd (run (sample_env [3%nat; 5%nat]) []))) = [classify rs].
Proof.
  exact (full_run_classification (sample_env [3%nat; 5%nat]) "ok" eq_refl).
Defined.

(** *** The counters of the loop *)

(** C3: whatever the environment, after the first [n] iterations of the
    loop of [runAllTests] (the rest of the loop resumes from that state) the
    critical-failure counter is at most the failure counter, which is at
    most the number of category invocations made so far; and the same order
    holds of the counts of every summary a full run persists. *)
Theorem counters_ordered (env : Env) (this : TestRunner) (n : nat) (w : World) :
  exists st w' evs,
    Effect (for_of env (firstn n testSuites) (loop_start this)) w (Normal st) w' evs
    /\ for_of env testSuites (loop_start this) w
       = for_of env (skipn n testSuites) st w'
    /\ List.length (category_calls evs) = Nat.min n (List.length testSuites)
    /\ 0 <= ls_criticalFailures st <= ls_totalFailures st
    /\ ls_totalFailures st <= Js.length (category_calls evs)
    /\ Forall (fun pr => summary_ordered (summary (snd pr)))
              (written (trace (snd (run env [])))).
Proof.
  destruct (for_of_effect env (firstn n testSuites) (loop_start this) w)
    as (st & w' & evs & rs & He & Hinv & (_ & _ & Ht & Hc) & _ & _).
  exists st, w', evs.
  assert (Hcmds : Forall (fun s => String.prefix "npx playwright test" (command s) = true)
                         (firstn n testSuites)).
  { pose proof testSuites_commands as H.
    rewrite <- (firstn_skipn n testSuites) in H.
    apply Forall_app in H. apply H. }
  assert (Hcat : category_calls evs = exec_calls evs).
  { unfold category_calls. exact (Invoked_category_calls _ _ _ Hinv Hcmds). }
  destruct (Invoked_length _ _ _ Hinv) as [Hlc Hlr].
  pose proof (filter_length_mono critical_failed_entry failed_entry rs) as Hmono.
  pose proof (filter_length_le failed_entry rs) as Hle.
  cbn [loop_start ls_totalFailures ls_criticalFailures] in Ht, Hc.
  unfold Js.length in *.
  split; [exact He|split; [|split; [|split; [|split]]]].
  - rewrite <- (firstn_skipn n testSuites) at 1.
    rewrite for_of_app. unfold bind. destruct He as [-> _]. reflexivity.
  - rewrite Hcat, Hlc. apply length_firstn.
  - assert (List.length (filter critical_failed_entry rs)
            <= List.length (filter failed_entry rs))%nat.
    { apply Hmono. intros x. unfold critical_failed_entry, failed_entry.
      destruct (sr_success x); [discriminate|reflexivity]. }
    lia.
  - rewrite Hcat, Hlc, <- Hlr. lia.
  - destruct (full_run env)
      as [why err w0 _ _ Hwr _
         | out calls rs0 report w0 _ _ Hinv0 _ _ Hwr _ Hsum
         | out calls rs0 w0 _ _ _ _ _ Hwr];
      rewrite Hwr; constructor; [|constructor].
    cbn [snd]. rewrite Hsum. unfold summary_ordered, Js.length.
    cbn [criticalFailures failedSuites totalSuites].
    pose proof (filter_length_mono critical_failed_entry failed_entry rs0) as Hm0.
    pose proof (filter_length_le failed_entry rs0) as Hl0.
    assert (List.length (filter critical_failed_entry rs0)
            <= List.length (filter failed_entry rs0))%nat.
    { apply Hm0. intros x. unfold critical_failed_entry, failed_entry.
      destruct (sr_success x); [discriminate|reflexivity]. }
    lia.
Qed.

(** *** The persisted summary *)

(** C4: when a full run persists its report (the tool is found and the
    write goes through), [summary.totalSuites] is the number of category
    invocations in the trace, namely six, and [passedSuites + failedSuites]
    equals [totalSuites]. *)
Theorem summary_counts_add_up (env : Env) (out : string) :
  env_exec env 0%nat playwright_version None = Completed out ->
  can_write_report env = true ->
  exists report,
    written (trace (snd (run env []))) = [(reportPath env, report)]
    /\ totalSuites (summary report)
       = Js.length (category_calls (trace (snd (run env []))))
    /\ totalSuites (summary report) = 6
    /\ passedSuites (summary report) + failedSuites (summary report)
       = totalSuites (summary report).
Proof.
  intros Htool Hcan.
  destruct (full_run_tool_found env out Htool)
    as (rs & Hinv & _ & [(_ & _ & report & Hwr & _ & Hsum) | (Hno & _)]);
    [|congruence].
  exists report. destruct (Invoked_length _ _ _ Hinv) as [Hlc Hlr].
  rewrite Hsum. cbn [totalSuites passedSuites failedSuites]. unfold Js.length.
  rewrite Hlc, Hlr.
  pose proof (filter_split_length sr_success rs) as Hsplit.
  rewrite Hlr in Hsplit.
  repeat split; try assumption; try reflexivity.
  unfold failed_entry. lia.
Qed.

Lemma summary_counts_add_up_witness :
  exists report,
    written (trace (snd (run (sample_env [2%nat; 6%nat]) [])))
    = [(reportPath (sample_env [2%nat; 6%nat]), report)]
    /\ totalSuites (summary report)
       = Js.length (category_calls (trace (snd (run (sample_env [2%nat; 6%nat]) []))))
    /\ totalSuites (summary report) = 6
    /\ passedSuites (summary report) + failedSuites (summary report)
       = totalSuites (summary report).
Proof.
  exact (summary_counts_add_up (sample_env [2%nat; 6%nat]) "ok" eq_refl eq_refl).
Defined.

(** *** Failures of a category *)

Lemma Invoked_recorded l calls rs :
  Invoked l calls rs ->
  Forall2 (fun c r =>
             sr_success r = match call_outcome c with
                            | Completed _ => true
                            | Failed _ _ => false
                            end)
          calls rs.
Proof.
  induction 1 as [|s o l calls rs _ IH]; constructor; [|exact IH].
  destruct o; reflexivity.
Qed.

(** C5: from any state, the loop of [runAllTests] over the six categories
    completes normally whatever the subprocesses do: each category is
    invoked, in order, under the 300 000 ms timeout; each invocation gets an
    entry appended to [this.results.suites], a failed one ([success] false)
    when the subprocess exits with a non-zero status or times out; and so, in
    a full run that gets past the prerequisite check, all six commands
    appear in the trace, in order, whichever of them fail. *)
Theorem category_failures_recorded (env : Env) (st : LoopState) (w : World) :
  exists st' w' evs rs,
    Effect (for_of env testSuites st) w (Normal st') w' evs
    /\ Invoked testSuites (category_calls evs) rs
    /\ suites (this_results (ls_this st')) = suites (this_results (ls_this st)) ++ rs
    /\ Forall (fun c => call_timeout c = Some 300000) (category_calls evs)
    /\ Forall2 (fun c r =>
                  sr_success r = match call_outcome c with
                                 | Completed _ => true
                                 | Failed _ _ => false
                                 end)
               (category_calls evs) rs
    /\ forall out,
         env_exec env 0%nat playwright_version None = Completed out ->
         map call_cmd (category_calls (trace (snd (run env []))))
         = map command testSuites.
Proof.
  destruct (for_of_effect env testSuites st w)
    as (st' & w' & evs & rs & He & Hinv & (Hs & _) & _ & _).
  exists st', w', evs, rs.
  assert (Hcat : category_calls evs = exec_calls evs).
  { exact (Invoked_category_calls _ _ _ Hinv testSuites_commands). }
  rewrite Hcat.
  split; [exact He|split; [exact Hinv|split; [exact Hs|split; [|split]]]].
  - exact (Invoked_timeouts _ _ _ Hinv).
  - exact (Invoked_recorded _ _ _ Hinv).
  - intros out Htool.
    destruct (full_run_tool_found env out Htool) as (rs0 & Hinv0 & _).
    exact (Invoked_commands _ _ _ Hinv0).
Qed.

Lemma category_failures_recorded_witness :
  map call_cmd
      (category_calls (trace (snd (run (sample_env_with [4%nat] [2%nat]) []))))
  = map command testSuites.
Proof.
  destruct (category_failures_recorded
              (sample_env_with [4%nat] [2%nat]) (loop_start
                 {| startTime := 0;
                    this_results :=
                      {| total := 0; passed := 0; failed := 0; skipped := 0;
                         suites := [] |} |}) world0)
    as (st' & w' & evs & rs & _ & _ & _ & _ & _ & Hrun).
  exact (Hrun "ok" eq_refl).
Defined.

(** *** Order of the persisted entries *)

Lemma Invoked_paired l calls rs :
  Invoked l calls rs ->
  Forall2 (fun c r =>
             exists s, In s l /\ call_cmd c = command s /\ sr_name r = name s)
          calls rs.
Proof.
  induction 1 as [|s o l calls rs _ IH]; constructor.
  - exists s. repeat split. left. reflexivity.
  - eapply Forall2_impl; [|exact IH].
    intros c r (s' & Hin & Hc & Hn). exists s'. repeat split; auto.
    right. exact Hin.
Qed.

(** C8: in the report a full run persists, the entries of [results.suites]
    are those of the category invocations of the trace, position by
    position: the i-th entry carries the name of the category whose command
    is the i-th invocation, and both lists follow [testSuites]. *)
Theorem report_order_is_invocation_order (env : Env) (out : string) :
  env_exec env 0%nat playwright_version None = Completed out ->
  can_write_report env = true ->
  exists report,
    written (trace (snd (run env []))) = [(reportPath env, report)]
    /\ Forall2 (fun c r =>
                  exists s, In s testSuites
                            /\ call_cmd c = command s /\ sr_name r = name s)
               (category_calls (trace (snd (run env []))))
               (suites (results report))
    /\ map call_cmd (category_calls (trace (snd (run env []))))
       = map command testSuites
    /\ map sr_name (suites (results report)) = map name testSuites.
Proof.
  intros Htool Hcan.
  destruct (full_run_tool_found env out Htool)
    as (rs & Hinv & _ & [(_ & _ & report & Hwr & Hres & _) | (Hno & _)]);
    [|congruence].
  exists report. rewrite Hres. cbn [suites].
  split; [exact Hwr|split; [|split]].
  - exact (Invoked_paired _ _ _ Hinv).
  - exact (Invoked_commands _ _ _ Hinv).
  - exact (Invoked_names _ _ _ Hinv).
Qed.

Lemma report_order_is_invocation_order_witness :
  exists report,
    written (trace (snd (run (sample_env [3%nat]) [])))
    = [(reportPath (sample_env [3%nat]), report)]
    /\ Forall2 (fun c r =>
                  exists s, In s testSuites
                            /\ call_cmd c = command s /\ sr_name r = name s)
               (category_calls (trace (snd (run (sample_env [3%nat]) []))))
               (suites (results report))
    /\ map call_cmd (category_calls (trace (snd (run (sample_env [3%nat]) []))))
       = map command testSuites
    /\ map sr_name (suites (results report)) = map name testSuites.
Proof.
  exact (report_order_is_invocation_order (sample_env [3%nat]) "ok" eq_refl eq_refl).
Defined.

(** *** The counters of [results] *)

(** C10: in the report a full run persists, the counters [total],
    [passed], [failed] and [skipped] of the embedded [results] object are 0
    whatever the categories did, while the counts of [summary] are those of
    the category invocations of the trace: how many there were, how many
    completed, how many did not, and how many of the entries recorded for
    them are failed and critical. *)
Theorem results_counters_stay_zero (env : Env) (out : string) :
  env_exec env 0%nat playwright_version None = Completed out ->
  can_write_report env = true ->
  exists report,
    written (trace (snd (run env []))) = [(reportPath env, report)]
    /\ total (results report) = 0
    /\ passed (results report) = 0
    /\ failed (results report) = 0
    /\ skipped (results report) = 0
    /\ Invoked testSuites (category_calls (trace (snd (run env []))))
               (suites (results report))
    /\ totalSuites (summary report)
       = Js.length (category_calls (trace (snd (run env []))))
    /\ passedSuites (summary report)
       = Js.length (filter (fun c => completed (call_outcome c))
                           (category_calls (trace (snd (run env [])))))
    /\ failedSuites (summary report)
       = Js.length (filter (fun c => negb (completed (call_outcome c)))
                           (category_calls (trace (snd (run env [])))))
    /\ criticalFailures (summary report)
       = Js.length (filter critical_failed_entry (suites (results report))).
Proof.
  intros Htool Hcan.
  destruct (full_run_tool_found env out Htool)
    as (rs & Hinv & _ & [(_ & _ & report & Hwr & Hres & Hsum) | (Hno & _)]);
    [|congruence].
  exists report. rewrite Hres, Hsum.
  cbn [total passed failed skipped suites totalSuites passedSuites failedSuites
       criticalFailures].
  destruct (Invoked_length _ _ _ Hinv) as [Hlc Hlr].
  unfold Js.length.
  rewrite (Invoked_failed_count _ _ _ Hinv), (Invoked_passed_count _ _ _ Hinv),
    Hlc, Hlr.
  repeat split; assumption.
Qed.

Lemma results_counters_stay_zero_witness :
  exists report,
    written (trace (snd (run (sample_env [2%nat; 5%nat]) [])))
    = [(reportPath (sample_env [2%nat; 5%nat]), report)]
    /\ total (results report) = 0
    /\ passed (results report) = 0
    /\ failed (results report) = 0
    /\ skipped (results report) = 0
    /\ Invoked testSuites
               (category_calls (trace (snd (run (sample_env [2%nat; 5%nat]) []))))
               (suites (results report))
    /\ totalSuites (summary report)
       = Js.length (category_calls (trace (snd (run (sample_env [2%nat; 5%nat]) []))))
    /\ passedSuites (summary report)
       = Js.length (filter (fun c => completed (call_outcome c))
                           (category_calls
                              (trace (snd (run (sample_env [2%nat; 5%nat]) [])))))
    /\ failedSuites (summary report)
       = Js.length (filter (fun c => negb (completed (call_outcome c)))
                           (category_calls
                              (trace (snd (run (sample_env [2%nat; 5%nat]) [])))))
    /\ criticalFailures (summary report)
       = Js.length (filter critical_failed_entry (suites (results report))).
Proof.
  exact (results_counters_stay_zero (sample_env [2%nat; 5%nat]) "ok" eq_refl eq_refl).
Defined.

Example results_counters_beside_summary :
  map (fun pr => (failed (results (snd pr)), failedSuites (summary (snd pr)),
                  criticalFailures (summary (snd pr))))
      (written (trace (snd (run (sample_env [2%nat; 5%nat]) []))))
  = [(0, 2, 1)].
Proof. vm_compute. reflexivity. Qed.

Lemma logged_app (a b : list Event) : logged (a ++ b) = logged a ++ logged b.
Proof.
  induction a as [|e a IH]; simpl; [reflexivity|].
  destruct e; simpl; rewrite ?IH; reflexivity.
Qed.

(** [checkPrerequisites] with everything it shows on the console. *)
Lemma checkPrerequisites_lines (env : Env) (w : World) :
  exists r w' evs,
    Effect (checkPrerequisites env) w r w' evs
    /\ written evs = []
    /\ match env_exec env (execs w) playwright_version None with
       | Completed out =>
           r = Normal tt
           /\ exec_calls evs =
                [(playwright_version, None, Completed out);
                 (ping_target, Some 5000,
                  env_exec env (S (execs w)) ping_target (Some 5000))]
           /\ logged evs =
                [(info, "🔍 Checking prerequisites...");
                 (success, "✅ Playwright is installed");
                 (if env_exists env (browsersPath env)
                  then (success, "✅ Playwright browsers are available")
                  else (warn, "⚠️  Playwright browsers may not be installed. Run: npx playwright install"));
                 (match env_exec env (S (execs w)) ping_target (Some 5000) with
                  | Completed _ =>
                      (success, "✅ Network connectivity to li.fi confirmed")
                  | Failed _ _ =>
                      (warn, "⚠️  Network connectivity issue detected")
                  end)]
       | Failed why err =>
           r = Exit 1
           /\ exec_calls evs = [(playwright_version, None, Failed why err)]
           /\ logged evs =
                [(info, "🔍 Checking prerequisites...");
                 (error, "❌ Playwright not found. Run: npm install")]
       end.
Proof.
  unfold Effect, browsersPath. destruct w as [tr n t].
  cbv beta iota zeta delta
    [checkPrerequisites bind try_catch log execSync existsSync Date_now emit
     ret process_exit trace execs ticks].
  destruct (env_exec env n playwright_version None) as [out|why err].
  - destruct (env_exists env _);
      destruct (env_exec env (S n) ping_target (Some 5000)) as [out'|why' err'];
      do 3 eexists; read_off.
  - do 3 eexists; read_off.
Qed.

(** [runTestSuite] with everything it shows on the console. *)
Lemma runTestSuite_console (env : Env) (suiteName cmd : string) (w : World) :
  exists r w' evs,
    Effect (runTestSuite env suiteName cmd) w (Normal r) w' evs
    /\ exec_calls evs
       = [(cmd, Some 300000, env_exec env (execs w) cmd (Some 300000))]
    /\ logged evs
       = [start_line suiteName;
          result_line suiteName (env_exec env (execs w) cmd (Some 300000))]
    /\ written evs = []
    /\ execs w' = S (execs w).
Proof.
  unfold Effect. destruct w as [tr n t].
  cbv beta iota zeta delta
    [runTestSuite bind try_catch log execSync Date_now emit ret trace execs ticks].
  destruct (env_exec env n cmd (Some 300000)) as [out|why err];
    do 3 eexists; read_off.
Qed.

(** *** The options of the command line *)

Section Options.

Variable env : Env.

Lemma main_dispatch (args : list string) :
  main env args world0
  = (if Js.includes args "--help" || Js.includes args "-h" then
       bind (console_log helpText) (fun _ => ret (fresh_runner env))
     else if Js.includes args "--check-prereq" then
       bind (checkPrerequisites env) (fun _ => ret (fresh_runner env))
     else if negb (Js.indexOf args "--suite" =? -1)
             && Js.truthy (Js.index args (Js.indexOf args "--suite" + 1)) then
       bind (runTestSuite env
               (Js.toString (Js.index args (Js.indexOf args "--suite" + 1))
                  ++ " tests")
               (playwright_test
                  (Js.toString (Js.index args (Js.indexOf args "--suite" + 1)))))
            (fun _ => ret (fresh_runner env))
     else if Js.includes args "--quick" then
       bind (log env "🏃‍♂️ Running quick test suite (smoke + API tests)" info)
            (fun _ =>
               bind (runTestSuite env "Smoke Tests"
                       ("npx playwright test --grep " ++ Js.dquote ++ "@smoke"
                        ++ Js.dquote))
                    (fun _ =>
                       bind (runTestSuite env "API Tests"
                               ("npx playwright test --grep " ++ Js.dquote
                                ++ "@api" ++ Js.dquote))
                            (fun _ => ret (fresh_runner env))))
     else
       bind (checkPrerequisites env) (fun _ => runAllTests env (fresh_runner env)))
      world1.
Proof.
  unfold main, bind at 1, constructor, bind at 1, Date_now, ret at 1.
  cbn [ticks execs trace world0].
  reflexivity.
Qed.

(** When the arguments carry [--suite] followed by a non-empty name, and
    none of [--help], [-h], [--check-prereq] (which [main] serves first),
    the process makes exactly one subprocess call under the 300 000 ms
    timeout, [npx playwright test --grep] with the name, as it was typed,
    behind an [@] and between double quotes; it writes no file and exits
    with code 0. *)
Lemma suite_option_runs_one_command (args : list string) (suiteName : string) :
  Js.includes args "--help" = false ->
  Js.includes args "-h" = false ->
  Js.includes args "--check-prereq" = false ->
  Js.indexOf args "--suite" <> -1 ->
  Js.index args (Js.indexOf args "--suite" + 1) = Some suiteName ->
  suiteName <> EmptyString ->
  exec_calls (trace (snd (run env args)))
  = [(("npx playwright test --grep " ++ Js.dquote ++ "@" ++ suiteName
       ++ Js.dquote)%string,
      Some 300000,
      env_exec env 0%nat
        ("npx playwright test --grep " ++ Js.dquote ++ "@" ++ suiteName
         ++ Js.dquote)%string
        (Some 300000))]
  /\ category_calls (trace (snd (run env args)))
     = exec_calls (trace (snd (run env args)))
  /\ written (trace (snd (run env args))) = []
  /\ fst (run env args) = 0.
Proof.
  intros Hhelp Hh Hprereq Hidx Hname Hnonempty.
  unfold run. rewrite main_dispatch, Hhelp, Hh, Hprereq, Hname.
  apply Z.eqb_neq in Hidx. apply String.eqb_neq in Hnonempty.
  rewrite Hidx. cbn [orb negb andb Js.truthy Js.toString]. rewrite Hnonempty.
  cbn [negb].
  destruct (runTestSuite_effect env (suiteName ++ " tests")
              (playwright_test suiteName) world1)
    as (r & w' & evs & [Hrun Htr] & Hcalls & _ & _ & Hwr & _ & _).
  unfold bind. rewrite Hrun. cbn [ret fst snd].
  cbn [world1 trace app] in Htr. unfold category_calls.
  rewrite Htr, Hcalls, Hwr. cbn [world1 execs].
  repeat split.
Qed.

(** For five of the six names the usage text offers, [--suite <name>] runs
    the command of the category the name stands for, less the
    [--reporter=json] option the full run adds. *)
Lemma suite_option_advertised_names (suiteName title : string) :
  In (suiteName, title) advertised ->
  suiteName <> "accessibility" ->
  exists cmd s,
    exec_calls (trace (snd (run env ["--suite"; suiteName])))
    = [(cmd, Some 300000, env_exec env 0%nat cmd (Some 300000))]
    /\ In s testSuites
    /\ name s = title
    /\ command s = (cmd ++ " --reporter=json")%string.
Proof.
  intros Hin Hother.
  cbn [advertised In] in Hin.
  destruct Hin as [H|[H|[H|[H|[H|[H|[]]]]]]]; inversion H; subst;
    try (exfalso; apply Hother; reflexivity);
    eexists; eexists;
    (split;
     [match goal with
      | |- exec_calls (trace (snd (run env [_; ?n]))) = _ =>
          apply (suite_option_runs_one_command ["--suite"; n] n);
          try reflexivity; vm_compute; discriminate
      end|]).
  - split; [left; reflexivity|split; reflexivity].
  - split; [right; left; reflexivity|split; reflexivity].
  - split; [do 2 right; left; reflexivity|split; reflexivity].
  - split; [do 3 right; left; reflexivity|split; reflexivity].
  - split; [do 5 right; left; reflexivity|split; reflexivity].
Qed.

(** C6 fails at [--suite accessibility], a name the usage text offers: the
    one subprocess call filters by the tag [@accessibility].  The category
    of that name, [Accessibility Tests], is the one [testSuites] runs with
    the tag [@a11y], and no category of [testSuites] is run with the filter
    this call uses: the command launched selects the tests of no
    category. *)
Theorem suite_accessibility_runs_no_category :
  exec_calls (trace (snd (run env ["--suite"; "accessibility"])))
  = [(("npx playwright test --grep " ++ Js.dquote ++ "@accessibility"
       ++ Js.dquote)%string,
      Some 300000,
      env_exec env 0%nat
        ("npx playwright test --grep " ++ Js.dquote ++ "@accessibility"
         ++ Js.dquote)%string
        (Some 300000))]
  /\ In ("accessibility", "Accessibility Tests") advertised
  /\ In {| name := "Accessibility Tests";
           command := "npx playwright test --grep " ++ Js.dquote ++ "@a11y"
                      ++ Js.dquote ++ " --reporter=json";
           critical := false |} testSuites
  /\ (forall s, In s testSuites ->
        String.prefix ("npx playwright test --grep " ++ Js.dquote
                       ++ "@accessibility" ++ Js.dquote)
                      (command s) = false)
  /\ written (trace (snd (run env ["--suite"; "accessibility"]))) = []
  /\ fst (run env ["--suite"; "accessibility"]) = 0.
Proof.
  destruct (suite_option_runs_one_command
              ["--suite"; "accessibility"] "accessibility")
    as (Hcalls & _ & Hwr & Hcode); try reflexivity; try (vm_compute; discriminate).
  split; [exact Hcalls|].
  split; [do 4 right; left; reflexivity|].
  split; [do 4 right; left; reflexivity|].
  split; [|split; assumption].
  intros s Hs. cbn [testSuites In] in Hs.
  destruct Hs as [<-|[<-|[<-|[<-|[<-|[<-|[]]]]]]]; vm_compute; reflexivity.
Qed.

(** C9: when the arguments carry [--quick], none of [--help], [-h],
    [--check-prereq], and no [--suite] followed by a non-empty name, the
    process makes exactly two subprocess calls under the 300 000 ms
    timeout: [npx playwright test --grep "@smoke"], then
    [npx playwright test --grep "@api"].  These are the commands of the
    categories [Smoke Tests] and [API Tests] of [testSuites], less the
    [--reporter=json] option, and the console names the two categories:
    after the opening line, a start line and a result line for [Smoke
    Tests], then for [API Tests].  The process writes no file, leaves the
    list of entries of the runner empty, and exits with code 0. *)
Theorem quick_option_runs_smoke_and_api (args : list string) :
  Js.includes args "--help" = false ->
  Js.includes args "-h" = false ->
  Js.includes args "--check-prereq" = false ->
  negb (Js.indexOf args "--suite" =? -1)
  && Js.truthy (Js.index args (Js.indexOf args "--suite" + 1)) = false ->
  Js.includes args "--quick" = true ->
  exists runner w smoke api,
    smoke = ("npx playwright test --grep " ++ Js.dquote ++ "@smoke"
             ++ Js.dquote)%string
    /\ api = ("npx playwright test --grep " ++ Js.dquote ++ "@api"
              ++ Js.dquote)%string
    /\ In {| name := "Smoke Tests";
             command := (smoke ++ " --reporter=json")%string;
             critical := true |} testSuites
    /\ In {| name := "API Tests";
             command := (api ++ " --reporter=json")%string;
             critical := true |} testSuites
    /\ main env args world0 = (Normal runner, w)
    /\ run env args = (0, w)
    /\ suites (this_results runner) = []
    /\ exec_calls (trace w)
       = [(smoke, Some 300000, env_exec env 0%nat smoke (Some 300000));
          (api, Some 300000, env_exec env 1%nat api (Some 300000))]
    /\ category_calls (trace w) = exec_calls (trace w)
    /\ logged (trace w)
       = [(info, "🏃‍♂️ Running quick test suite (smoke + API tests)");
          start_line "Smoke Tests";
          result_line "Smoke Tests" (env_exec env 0%nat smoke (Some 300000));
          start_line "API Tests";
          result_line "API Tests" (env_exec env 1%nat api (Some 300000))]
    /\ written (trace w) = [].
Proof.
  intros Hhelp Hh Hprereq Hsuite Hquick.
  unfold run. rewrite main_dispatch, Hhelp, Hh, Hprereq, Hsuite, Hquick.
  cbn [orb].
  set (smoke := ("npx playwright test --grep " ++ Js.dquote ++ "@smoke"
                 ++ Js.dquote)%string).
  set (api := ("npx playwright test --grep " ++ Js.dquote ++ "@api"
               ++ Js.dquote)%string).
  destruct (log_effect env "🏃‍♂️ Running quick test suite (smoke + API tests)"
                       info world1)
    as (w1 & [Hrun1 Htr1] & Hx1).
  destruct (runTestSuite_console env "Smoke Tests" smoke w1)
    as (r2 & w2 & e2 & [Hrun2 Htr2] & Hc2 & Hl2 & Hw2 & Hx2).
  destruct (runTestSuite_console env "API Tests" api w2)
    as (r3 & w3 & e3 & [Hrun3 Htr3] & Hc3 & Hl3 & Hw3 & _).
  exists (fresh_runner env), w3, smoke, api.
  unfold bind. rewrite Hrun1, Hrun2, Hrun3. cbn [ret].
  rewrite Hx2, Hx1 in Hc3, Hl3. rewrite Hx1 in Hc2, Hl2.
  cbn [world1 execs] in Hc2, Hc3, Hl2, Hl3.
  cbn [world1 trace app] in Htr1. unfold category_calls.
  rewrite Htr3, Htr2, Htr1, !exec_calls_app, !written_app, !logged_app,
    Hc2, Hc3, Hw2, Hw3, Hl2, Hl3.
  cbn [exec_calls written logged app].
  split; [reflexivity|]. split; [reflexivity|].
  split; [left; reflexivity|]. split; [right; left; reflexivity|].
  repeat split.
Qed.

(** C7, amended: [--check-prereq] alone invokes no category and writes no
    file.  It probes the browser-automation tool; if the probe fails the
    console ends with the error line [Playwright not found. Run: npm
    install] and the process exits with code 1 at once, the network target
    not probed.  If the probe succeeds, the network target is probed under a
    5 000 ms timeout, and the process exits with code 0 whatever that probe
    gives: a network target that cannot be reached shows only as the last
    console line, [Network connectivity issue detected] at level warn, where
    a reachable one gives [Network connectivity to li.fi confirmed] at level
    success. *)
Theorem check_prereq_exit_code :
  category_calls (trace (snd (run env ["--check-prereq"]))) = []
  /\ written (trace (snd (run env ["--check-prereq"]))) = []
  /\ match env_exec env 0%nat playwright_version None with
     | Failed why err =>
         fst (run env ["--check-prereq"]) = 1
         /\ exec_calls (trace (snd (run env ["--check-prereq"])))
            = [(playwright_version, None, Failed why err)]
         /\ logged (trace (snd (run env ["--check-prereq"])))
            = [(info, "🔍 Checking prerequisites...");
               (error, "❌ Playwright not found. Run: npm install")]
     | Completed out =>
         fst (run env ["--check-prereq"]) = 0
         /\ exec_calls (trace (snd (run env ["--check-prereq"])))
            = [(playwright_version, None, Completed out);
               (ping_target, Some 5000,
                env_exec env 1%nat ping_target (Some 5000))]
         /\ logged (trace (snd (run env ["--check-prereq"])))
            = [(info, "🔍 Checking prerequisites...");
               (success, "✅ Playwright is installed");
               (if env_exists env (browsersPath env)
                then (success, "✅ Playwright browsers are available")
                else (warn, "⚠️  Playwright browsers may not be installed. Run: npx playwright install"));
               (match env_exec env 1%nat ping_target (Some 5000) with
                | Completed _ =>
                    (success, "✅ Network connectivity to li.fi confirmed")
                | Failed _ _ =>
                    (warn, "⚠️  Network connectivity issue detected")
                end)]
     end.
Proof.
  unfold run. rewrite main_dispatch.
  change (Js.includes ["--check-prereq"] "--help") with false.
  change (Js.includes ["--check-prereq"] "-h") with false.
  change (Js.includes ["--check-prereq"] "--check-prereq") with true.
  cbn [orb].
  destruct (checkPrerequisites_lines env world1)
    as (r & w' & evs & [Hrun Htr] & Hwr & Hcase).
  cbn [world1 execs] in Hcase. cbn [world1 trace app] in Htr.
  unfold bind. rewrite Hrun. unfold category_calls.
  destruct (env_exec env 0%nat playwright_version None) as [out|why err];
    destruct Hcase as (-> & Hcalls & Hlines); cbn [ret fst snd];
    rewrite Htr, Hcalls, Hwr, Hlines; repeat split.
Qed.

End Options.

Lemma quick_option_runs_smoke_and_api_witness :
  exists runner w smoke api,
    smoke = ("npx playwright test --grep " ++ Js.dquote ++ "@smoke"
             ++ Js.dquote)%string
    /\ api = ("npx playwright test --grep " ++ Js.dquote ++ "@api"
              ++ Js.dquote)%string
    /\ In {| name := "Smoke Tests";
             command := (smoke ++ " --reporter=json")%string;
             critical := true |} testSuites
    /\ In {| name := "API Tests";
             command := (api ++ " --reporter=json")%string;
             critical := true |} testSuites
    /\ main (sample_env [1%nat]) ["--quick"] world0 = (Normal runner, w)
    /\ run (sample_env [1%nat]) ["--quick"] = (0, w)
    /\ suites (this_results runner) = []
    /\ exec_calls (trace w)
       = [(smoke, Some 300000,
           env_exec (sample_env [1%nat]) 0%nat smoke (Some 300000));
          (api, Some 300000,
           env_exec (sample_env [1%nat]) 1%nat api (Some 300000))]
    /\ category_calls (trace w) = exec_calls (trace w)
    /\ logged (trace w)
       = [(info, "🏃‍♂️ Running quick test suite (smoke + API tests)");
          start_line "Smoke Tests";
          result_line "Smoke Tests"
            (env_exec (sample_env [1%nat]) 0%nat smoke (Some 300000));
          start_line "API Tests";
          result_line "API Tests"
            (env_exec (sample_env [1%nat]) 1%nat api (Some 300000))]
    /\ written (trace w) = [].
Proof.
  apply (quick_option_runs_smoke_and_api (sample_env [1%nat]) ["--quick"]);
    reflexivity.
Defined.

(** In the sample environment the second subprocess call fails: the quick
    run reports Smoke as passed and API as failed, and still exits with
    code 0. *)
Example quick_run_api_fails :
  map (fun c => (call_cmd c, completed (call_outcome c)))
      (exec_calls (trace (snd (run (sample_env [1%nat]) ["--quick"]))))
  = [(("npx playwright test --grep " ++ Js.dquote ++ "@smoke" ++ Js.dquote)%string,
      true);
     (("npx playwright test --grep " ++ Js.dquote ++ "@api" ++ Js.dquote)%string,
      false)]
  /\ map fst (logged (trace (snd (run (sample_env [1%nat]) ["--quick"]))))
     = [info; info; success; info; error]
  /\ fst (run (sample_env [1%nat]) ["--quick"]) = 0.
Proof. vm_compute. repeat split. Qed.

(** C7, as stated, fails: with the tool found and the network target
    unreachable (the ping exits with a non-zero status), [--check-prereq]
    exits with code 0. *)
Lemma check_prereq_ignores_network :
  map (fun c => (call_cmd c, completed (call_outcome c)))
      (exec_calls (trace (snd (run (sample_env [1%nat]) ["--check-prereq"]))))
  = [(playwright_version, true); (ping_target, false)]
  /\ fst (run (sample_env [1%nat]) ["--check-prereq"]) = 0.
Proof. vm_compute. split; reflexivity. Qed.

(** ** Beyond the claims: the stages of a run in detail *)

Lemma actions_app (a b : list Event) : actions (a ++ b) = actions a ++ actions b.
Proof.
  induction a as [|e a IH]; simpl; [reflexivity|].
  destruct e; simpl; rewrite ?IH; reflexivity.
Qed.

Lemma saved_lines_app (a b : list Event) :
  saved_lines (a ++ b) = saved_lines a ++ saved_lines b.
Proof. unfold saved_lines. rewrite logged_app. apply filter_app. Qed.

Lemma schedule_app (a b : list Event) :
  schedule (a ++ b) = schedule a ++ schedule b.
Proof.
  induction a as [|e a IH]; simpl; [reflexivity|].
  destruct e; simpl; rewrite ?IH; reflexivity.
Qed.

Lemma schedule_actions (tr : list Event) : schedule tr = schedule (actions tr).
Proof.
  induction tr as [|e tr IH]; simpl; [reflexivity|].
  destruct e; simpl; rewrite ?IH; reflexivity.
Qed.

Lemma fs_ops_app (a b : list Event) : fs_ops (a ++ b) = fs_ops a ++ fs_ops b.
Proof.
  induction a as [|e a IH]; simpl; [reflexivity|].
  destruct e; simpl; rewrite ?IH; reflexivity.
Qed.

Lemma fs_ops_actions (tr : list Event) : fs_ops tr = fs_ops (actions tr).
Proof.
  induction tr as [|e tr IH]; simpl; [reflexivity|].
  destruct e; simpl; rewrite ?IH; reflexivity.
Qed.

Lemma exec_calls_actions (tr : list Event) :
  exec_calls tr = exec_calls (actions tr).
Proof.
  induction tr as [|e tr IH]; simpl; [reflexivity|].
  destruct e; simpl; rewrite ?IH; reflexivity.
Qed.

(** A computation has one effect. *)
Lemma Effect_unique {A : Type} (m : M A) w r1 w1 e1 r2 w2 e2 :
  Effect m w r1 w1 e1 -> Effect m w r2 w2 e2 -> r1 = r2 /\ w1 = w2 /\ e1 = e2.
Proof.
  intros [H1 T1] [H2 T2]. rewrite H1 in H2. injection H2 as -> ->.
  repeat split. rewrite T1 in T2. exact (app_inv_head _ _ _ T2).
Qed.

Lemma report_error_can_write (env : Env) :
  can_write_report env
  = match report_error env with None => true | Some _ => false end.
Proof.
  unfold can_write_report, report_error.
  destruct (env_exists env (reportDir env)); [reflexivity|].
  destruct (env_mkdir env (reportDir env)); reflexivity.
Qed.

Lemma prefix_append (p x : string) : String.prefix p (p ++ x)%string = true.
Proof.
  induction p as [|a p IH]; simpl.
  - destruct x; reflexivity.
  - destruct (ascii_dec a a) as [_|Hne]; [exact IH|].
    exfalso. apply Hne. reflexivity.
Qed.

Lemma saved_line_recognised (type : LogType) (path : string) :
  is_saved_line (type, ("📄 Detailed report saved to: " ++ path)%string) = true.
Proof. unfold is_saved_line. cbn [snd]. apply prefix_append. Qed.

Section Details.

Variable env : Env.

Lemma log_line (message : string) (type : LogType) (w : World) :
  exists w' evs,
    Effect (log env message type) w (Normal tt) w' evs
    /\ actions evs = []
    /\ logged evs = [(type, message)].
Proof.
  destruct (log_effect env message type w) as (w' & He & _).
  eexists _, _. split; [exact He|]. split; reflexivity.
Qed.

Lemma runTestSuite_actions (suiteName cmd : string) (w : World) :
  exists r w' evs,
    Effect (runTestSuite env suiteName cmd) w (Normal r) w' evs
    /\ actions evs
       = [EvExec cmd (Some 300000) (env_exec env (execs w) cmd (Some 300000))]
    /\ saved_lines evs = [].
Proof.
  unfold Effect. destruct w as [tr n t].
  cbv beta iota zeta delta
    [runTestSuite bind try_catch log execSync Date_now emit ret trace execs ticks].
  destruct (env_exec env n cmd (Some 300000)) as [out|why err];
    do 3 eexists; read_off.
Qed.

Lemma loop_body_actions (st : LoopState) (suite : Suite) (w : World) :
  exists st' w' evs,
    Effect (loop_body env st suite) w (Normal st') w' evs
    /\ actions evs = loop_actions (exec_calls evs)
    /\ saved_lines evs = [].
Proof.
  destruct (runTestSuite_actions (name suite) (command suite) w)
    as (r & w1 & e1 & He & Ha & Hs).
  eexists _, _, (e1 ++ [EvSleep 2000]). split; [|split].
  - unfold loop_body. eapply Effect_bind; [exact He|].
    split; reflexivity.
  - rewrite exec_calls_app, actions_app, (exec_calls_actions e1), Ha.
    reflexivity.
  - rewrite saved_lines_app, Hs. reflexivity.
Qed.

Lemma loop_actions_app (a b : list ExecCall) :
  loop_actions (a ++ b) = loop_actions a ++ loop_actions b.
Proof. apply flat_map_app. Qed.

Lemma for_of_actions (l : list Suite) :
  forall (st : LoopState) (w : World),
  exists st' w' evs,
    Effect (for_of env l st) w (Normal st') w' evs
    /\ actions evs = loop_actions (exec_calls evs)
    /\ saved_lines evs = [].
Proof.
  induction l as [|suite l IH]; intros st w.
  - exists st, w, []. repeat split. symmetry; apply app_nil_r.
  - destruct (loop_body_actions st suite w) as (st1 & w1 & e1 & He1 & Ha1 & Hs1).
    destruct (IH st1 w1) as (st2 & w2 & e2 & He2 & Ha2 & Hs2).
    exists st2, w2, (e1 ++ e2). split; [|split].
    + simpl. eapply Effect_bind; eassumption.
    + rewrite actions_app, exec_calls_app, loop_actions_app, Ha1, Ha2.
      reflexivity.
    + rewrite saved_lines_app, Hs1, Hs2. reflexivity.
Qed.

Lemma generateSummaryReport_lines (this : TestRunner)
    (criticalFailures totalFailures : Z) (w : World) :
  exists w' evs,
    Effect (generateSummaryReport env this criticalFailures totalFailures)
           w (Normal tt) w' evs
    /\ actions evs = []
    /\ saved_lines evs = []
    /\ In (info, ("📋 Test suites executed: "
                    ++ Js.numberToString (Js.length (suites (this_results this))))%string)
          (logged evs)
    /\ In (success, ("✅ Successful suites: "
                       ++ Js.numberToString
                            (Js.length (filter sr_success
                                               (suites (this_results this)))))%string)
          (logged evs)
    /\ In (if totalFailures >? 0 then error else info,
           ("❌ Failed suites: " ++ Js.numberToString totalFailures)%string)
          (logged evs)
    /\ In (if criticalFailures >? 0 then error else success,
           ("🚨 Critical failures: " ++ Js.numberToString criticalFailures)%string)
          (logged evs).
Proof.
  unfold Effect. destruct w as [tr n t].
  cbv beta iota zeta delta
    [generateSummaryReport bind log Date_now emit ret trace execs ticks].
  destruct (criticalFailures >? 0); destruct (totalFailures >? 0);
    do 2 eexists; (split; [split; [reflexivity|]|]);
    try (cbn [trace]; rewrite <- ?app_assoc; reflexivity);
    (split; [reflexivity|split; [reflexivity|]]);
    cbn [logged app];
    (split; [do 4 right; left; reflexivity|]);
    (split; [do 5 right; left; reflexivity|]);
    (split; [do 6 right; left; reflexivity|]);
    do 7 right; left; reflexivity.
Qed.

Lemma generateDetailedReport_actions (this : TestRunner) (w : World) :
  exists r w' evs,
    Effect (generateDetailedReport env this) w r w' evs
    /\ match report_error env with
       | None =>
           r = Normal tt
           /\ saved_lines evs
              = [(info, ("📄 Detailed report saved to: " ++ reportPath env)%string)]
           /\ exists report,
               actions evs
               = EvExists (reportDir env) (env_exists env (reportDir env))
                   :: (if env_exists env (reportDir env) then []
                       else [EvMkdir (reportDir env)])
                   ++ [EvWriteFile (reportPath env) report]
               /\ timestamp report = env_now env (ticks w)
               /\ duration report
                  = Js.roundDiv (env_now env (S (ticks w)) - startTime this) 1000
               /\ environment report = Js.orElse (env_NODE_ENV env) "production"
       | Some e =>
           r = Throw e
           /\ saved_lines evs = []
           /\ actions evs
              = EvExists (reportDir env) (env_exists env (reportDir env))
                  :: (if env_exists env (reportDir env) then []
                      else match env_mkdir env (reportDir env) with
                           | None => [EvMkdir (reportDir env)]
                           | Some _ => []
                           end)
       end.
Proof.
  unfold Effect, report_error. destruct w as [tr n t].
  cbv beta iota zeta delta
    [generateDetailedReport bind log Date_now emit ret throw existsSync
     mkdirSync writeFileSync trace execs ticks].
  destruct (env_exists env (reportDir env));
    cbv beta iota zeta delta [negb bind emit ret throw trace execs ticks];
    [|destruct (env_mkdir env (reportDir env)) as [e|]];
    try destruct (env_write env (reportPath env)) as [e'|];
    cbv beta iota zeta delta [negb bind emit ret throw trace execs ticks];
    do 3 eexists;
    (split; [split; [reflexivity|]|]);
    try (cbn [trace]; rewrite <- ?app_assoc; reflexivity);
    (split; [reflexivity|split]);
    try reflexivity;
    try (unfold saved_lines; cbn [logged app filter];
         rewrite saved_line_recognised; reflexivity);
    eexists; repeat split.
Qed.

Lemma checkPrerequisites_actions (w : World) (out : string) :
  env_exec env (execs w) playwright_version None = Completed out ->
  exists w' evs,
    Effect (checkPrerequisites env) w (Normal tt) w' evs
    /\ actions evs
       = [EvExec playwright_version None (Completed out);
          EvExists (browsersPath env) (env_exists env (browsersPath env));
          EvExec ping_target (Some 5000)
                 (env_exec env (S (execs w)) ping_target (Some 5000))]
    /\ saved_lines evs = [].
Proof.
  unfold Effect, browsersPath. destruct w as [tr n t]. cbn [execs]. intros Htool.
  cbv beta iota zeta delta
    [checkPrerequisites bind try_catch log execSync existsSync Date_now emit
     ret process_exit trace execs ticks].
  rewrite Htool.
  destruct (env_exists env _);
    destruct (env_exec env (S n) ping_target (Some 5000)) as [out'|why' err'];
    do 2 eexists; read_off.
Qed.

End Details.

Lemma log_events (env : Env) (message : string) (type : LogType) w r w' evs :
  Effect (log env message type) w r w' evs ->
  evs = [EvLog (env_now env (ticks w)) type message].
Proof.
  intros He. destruct (log_effect env message type w) as (w1 & He1 & _).
  destruct (Effect_unique _ _ _ _ _ _ _ _ He He1) as (_ & _ & ->). reflexivity.
Qed.

Lemma full_run_stages (env : Env) (out : string) :
  env_exec env 0%nat playwright_version None = Completed out ->
  Stages env.
Proof.
  intros Htool.
  destruct (checkPrerequisites_actions env world1 out Htool)
    as (w1 & e1 & He1 & Ha1 & Hs1).
  destruct (log_line env "🚀 Starting LI.FI QA Automation Test Suite" info w1)
    as (w2 & e2 & He2 & _).
  destruct (log_line env separator info w2) as (w3 & e3 & He3 & _).
  destruct (for_of_effect env testSuites (loop_start (fresh_runner env)) w3)
    as (st & w4 & e4 & rs & He4 & Hinv & Hadv & _ & _).
  destruct (for_of_actions env testSuites (loop_start (fresh_runner env)) w3)
    as (st' & w4' & e4' & He4' & Ha4 & Hs4).
  destruct (Effect_unique _ _ _ _ _ _ _ _ He4' He4) as (_ & _ & ->).
  destruct (generateSummaryReport_effect env (ls_this st) (ls_criticalFailures st)
              (ls_totalFailures st) w4)
    as (w5 & e5 & He5 & _).
  destruct (generateDetailedReport_effect env (ls_this st) w5)
    as (r & w6 & e6 & He6 & _).
  apply (Stages_intro env w1 w2 w3 w4 w5 w6 e1 e2 e3 e4 e5 e6 out st rs r);
    try assumption.
  destruct He1 as [R1 T1], He2 as [R2 T2], He3 as [R3 T3], He4 as [R4 T4],
    He5 as [R5 T5], He6 as [R6 T6].
  assert (Htrace : trace w6 = e1 ++ e2 ++ e3 ++ e4 ++ e5 ++ e6).
  { rewrite T6, T5, T4, T3, T2, T1. cbn [world1 trace app].
    rewrite <- !app_assoc. reflexivity. }
  unfold run.
  change (main env [] world0)
    with (bind (checkPrerequisites env)
               (fun _ => runAllTests env (fresh_runner env)) world1).
  unfold runAllTests, bind. unfold loop_start in R4.
  rewrite R1, R2, R3, R4, R5, R6.
  destruct r as [[]|e|c]; cbn [snd console_error emit trace ret];
    rewrite Htrace, ?app_nil_r, <- ?app_assoc; reflexivity.
Qed.

Lemma written_actions (tr : list Event) : written tr = written (actions tr).
Proof.
  induction tr as [|e tr IH]; simpl; [reflexivity|].
  destruct e; simpl; rewrite ?IH; reflexivity.
Qed.

Lemma written_loop_actions (calls : list ExecCall) :
  written (loop_actions calls) = [].
Proof. induction calls as [|c calls IH]; [reflexivity|exact IH]. Qed.

Lemma fs_ops_loop_actions (calls : list ExecCall) :
  fs_ops (loop_actions calls) = [].
Proof. induction calls as [|c calls IH]; [reflexivity|exact IH]. Qed.

Lemma Invoked_schedule l calls rs :
  Invoked l calls rs ->
  schedule (loop_actions calls)
  = flat_map (fun s => [Call (command s); Pause 2000]) l.
Proof.
  induction 1 as [|s o l calls rs _ IH]; [reflexivity|].
  cbn [loop_actions flat_map app schedule call_cmd fst].
  fold (loop_actions calls). rewrite IH. reflexivity.
Qed.

(** Everything a full run does besides logging, once the tool is found:
    the two probes around the look for the browsers, then each category call
    followed by its pause, then the report stage. *)
Lemma full_run_actions (env : Env) (out : string) :
  env_exec env 0%nat playwright_version None = Completed out ->
  exists calls rs tail,
    Invoked testSuites calls rs
    /\ actions (trace (snd (run env [])))
       = [EvExec playwright_version None (Completed out);
          EvExists (browsersPath env) (env_exists env (browsersPath env));
          EvExec ping_target (Some 5000)
                 (env_exec env 1%nat ping_target (Some 5000))]
           ++ loop_actions calls
           ++ EvExists (reportDir env) (env_exists env (reportDir env)) :: tail
    /\ match report_error env with
       | None =>
           exists report k,
             tail = (if env_exists env (reportDir env) then []
                     else [EvMkdir (reportDir env)])
                      ++ [EvWriteFile (reportPath env) report]
             /\ timestamp report = env_now env k
             /\ duration report
                = Js.roundDiv (env_now env (S k) - env_now env 0%nat) 1000
             /\ environment report = Js.orElse (env_NODE_ENV env) "production"
       | Some e =>
           tail = (if env_exists env (reportDir env) then []
                   else match env_mkdir env (reportDir env) with
                        | None => [EvMkdir (reportDir env)]
                        | Some _ => []
                        end)
                    ++ [EvError (failure_line e)]
       end.
Proof.
  intros Htool.
  destruct (full_run_stages env out Htool)
    as [w1 w2 w3 w4 w5 w6 e1 e2 e3 e4 e5 e6 out' st rs r
        He1 Ha1 _ He2 He3 He4 Hinv Hadv Ha4 _ He5 He6 Htrace].
  assert (out' = out) as ->.
  { destruct (checkPrerequisites_actions env world1 out Htool)
      as (w1' & e1' & He1' & Ha1' & _).
    destruct (Effect_unique _ _ _ _ _ _ _ _ He1 He1') as (_ & _ & <-).
    rewrite Ha1 in Ha1'. congruence. }
  apply log_events in He2, He3. subst e2 e3.
  destruct (generateSummaryReport_lines env (ls_this st) (ls_criticalFailures st)
              (ls_totalFailures st) w4)
    as (w5' & e5' & He5' & Ha5 & _).
  destruct (Effect_unique _ _ _ _ _ _ _ _ He5' He5) as (_ & _ & ->).
  destruct (generateDetailedReport_actions env (ls_this st) w5)
    as (r' & w6' & e6' & He6' & Hcase).
  destruct (Effect_unique _ _ _ _ _ _ _ _ He6' He6) as (-> & _ & ->).
  destruct Hadv as (_ & (Hstart & _) & _).
  cbn [loop_start ls_this fresh_runner startTime] in Hstart.
  rewrite Htrace, !actions_app, Ha1, Ha4, Ha5.
  cbn [actions app].
  exists (exec_calls e4), rs.
  destruct (report_error env) as [e|].
  - destruct Hcase as (-> & _ & Ha6). rewrite Ha6.
    eexists. split; [exact Hinv|]. split; reflexivity.
  - destruct Hcase as (-> & _ & report & Ha6 & Hts & Hdur & Henv).
    rewrite Ha6, app_nil_r.
    eexists. split; [exact Hinv|]. split; [reflexivity|].
    exists report, (ticks w5). rewrite Hdur, Hstart. auto.
Qed.

(** A full run that does not find the tool, event by event. *)
Lemma run_tool_missing (env : Env) (why : ExecFailure) (err : Js.Error) :
  env_exec env 0%nat playwright_version None = Failed why err ->
  run env []
  = (1, {| trace :=
             [EvLog (env_now env 1%nat) info "🔍 Checking prerequisites...";
              EvExec playwright_version None (Failed why err);
              EvLog (env_now env 2%nat) error
                    "❌ Playwright not found. Run: npm install"];
           execs := 1;
           ticks := 3 |}).
Proof.
  intros Htool. unfold run.
  change (main env [] world0)
    with (bind (checkPrerequisites env)
               (fun _ => runAllTests env (fresh_runner env)) world1).
  cbv beta iota zeta delta
    [checkPrerequisites bind try_catch log execSync Date_now emit
     ret process_exit trace execs ticks world1].
  rewrite Htool. reflexivity.
Qed.

(** ** Beyond the claims: properties *)

Section Dispatch.

Variable env : Env.

(** X1: [--help] or [-h] anywhere on the command line wins over every other
    option: the process prints the usage text once, starts no subprocess,
    logs nothing, touches no file, and exits with code 0. *)
Theorem help_wins (args : list string) :
  Js.includes args "--help" || Js.includes args "-h" = true ->
  run env args = (0, {| trace := [EvPrint helpText]; execs := 0; ticks := 1 |}).
Proof.
  intros Hhelp. unfold run. rewrite main_dispatch, Hhelp. reflexivity.
Qed.

(** X2: without [--help] and [-h], [--check-prereq] anywhere on the command
    line wins over [--suite] and [--quick]: the run is that of
    [--check-prereq] alone. *)
Theorem check_prereq_wins (args : list string) :
  Js.includes args "--help" = false ->
  Js.includes args "-h" = false ->
  Js.includes args "--check-prereq" = true ->
  run env args = run env ["--check-prereq"].
Proof.
  intros Hhelp Hh Hprereq. unfold run.
  rewrite (main_dispatch env args), (main_dispatch env ["--check-prereq"]).
  rewrite Hhelp, Hh, Hprereq.
  change (Js.includes ["--check-prereq"] "--help") with false.
  change (Js.includes ["--check-prereq"] "-h") with false.
  change (Js.includes ["--check-prereq"] "--check-prereq") with true.
  reflexivity.
Qed.

(** X3: arguments that select nothing are ignored.  When the command line
    has none of [--help], [-h], [--check-prereq], [--quick], and [--suite]
    is absent or not followed by a non-empty name, the run is the full
    run. *)
Theorem other_arguments_run_everything (args : list string) :
  Js.includes args "--help" = false ->
  Js.includes args "-h" = false ->
  Js.includes args "--check-prereq" = false ->
  negb (Js.indexOf args "--suite" =? -1)
  && Js.truthy (Js.index args (Js.indexOf args "--suite" + 1)) = false ->
  Js.includes args "--quick" = false ->
  run env args = run env [].
Proof.
  intros Hhelp Hh Hprereq Hsuite Hquick. unfold run.
  rewrite (main_dispatch env args), Hhelp, Hh, Hprereq, Hsuite, Hquick.
  reflexivity.
Qed.

End Dispatch.

Lemma help_wins_witness :
  run (sample_env []) ["--suite"; "smoke"; "-h"; "--quick"]
  = (0, {| trace := [EvPrint helpText]; execs := 0; ticks := 1 |}).
Proof.
  apply (help_wins (sample_env []) ["--suite"; "smoke"; "-h"; "--quick"]).
  reflexivity.
Defined.

Lemma check_prereq_wins_witness :
  run (sample_env [1%nat]) ["--quick"; "--suite"; "api"; "--check-prereq"]
  = run (sample_env [1%nat]) ["--check-prereq"].
Proof.
  apply (check_prereq_wins (sample_env [1%nat])
           ["--quick"; "--suite"; "api"; "--check-prereq"]);
    reflexivity.
Defined.

Lemma other_arguments_run_everything_witness :
  run (sample_env [3%nat]) ["--verbose"; "--suite"] = run (sample_env [3%nat]) [].
Proof.
  apply (other_arguments_run_everything (sample_env [3%nat])
           ["--verbose"; "--suite"]);
    reflexivity.
Defined.

(** X4: a full run that does not find the browser-automation tool stops
    there with exit code 1: the version probe is its only subprocess call,
    no category is invoked, nothing pauses, the file system is not touched,
    no classification is shown, and the last console line is the error
    line telling to install the tool. *)
Theorem missing_tool_stops_full_run (env : Env) (why : ExecFailure)
    (err : Js.Error) :
  env_exec env 0%nat playwright_version None = Failed why err ->
  fst (run env []) = 1
  /\ schedule (trace (snd (run env []))) = [Call playwright_version]
  /\ category_calls (trace (snd (run env []))) = []
  /\ fs_ops (trace (snd (run env []))) = []
  /\ reported (trace (snd (run env []))) = []
  /\ last (logged (trace (snd (run env []))))
          (info, EmptyString)
     = (error, "❌ Playwright not found. Run: npm install").
Proof.
  intros Htool. rewrite (run_tool_missing env why err Htool).
  repeat split.
Qed.

Lemma missing_tool_stops_full_run_witness :
  fst (run (sample_env [0%nat]) []) = 1
  /\ schedule (trace (snd (run (sample_env [0%nat]) []))) = [Call playwright_version]
  /\ category_calls (trace (snd (run (sample_env [0%nat]) []))) = []
  /\ fs_ops (trace (snd (run (sample_env [0%nat]) []))) = []
  /\ reported (trace (snd (run (sample_env [0%nat]) []))) = []
  /\ last (logged (trace (snd (run (sample_env [0%nat]) []))))
          (info, EmptyString)
     = (error, "❌ Playwright not found. Run: npm install").
Proof.
  exact (missing_tool_stops_full_run (sample_env [0%nat]) (NonZeroExit 1) _ eq_refl).
Defined.

(** X5: when the tool is found but the report cannot be written (the
    directory cannot be made, or the write fails, with error [e]), the full
    run still invokes all six categories and prints its summary with one
    classification; then it writes no file, ends its output with the line
    [Test runner failed: <message of e>] and exits with code 1. *)
Theorem write_failure_is_fatal (env : Env) (out : string) (e : Js.Error) :
  env_exec env 0%nat playwright_version None = Completed out ->
  report_error env = Some e ->
  fst (run env []) = 1
  /\ written (trace (snd (run env []))) = []
  /\ map call_cmd (category_calls (trace (snd (run env []))))
     = map command testSuites
  /\ (exists c, reported (trace (snd (run env []))) = [c])
  /\ exists tr, trace (snd (run env [])) = tr ++ [EvError (failure_line e)].
Proof.
  intros Htool Herr.
  assert (Hcan : can_write_report env = false).
  { rewrite report_error_can_write, Herr. reflexivity. }
  destruct (full_run_tool_found env out Htool)
    as (rs & Hinv & Hrep & [(Hyes & _) | (_ & Hcode & Hwr)]); [congruence|].
  split; [exact Hcode|split; [exact Hwr|split; [|split]]].
  - exact (Invoked_commands _ _ _ Hinv).
  - exists (classify rs). exact Hrep.
  - destruct (full_run_stages env out Htool)
      as [w1 w2 w3 w4 w5 w6 e1 e2 e3 e4 e5 e6 out' st rs' r
          _ _ _ _ _ _ _ _ _ _ _ He6 Htrace].
    destruct (generateDetailedReport_actions env (ls_this st) w5)
      as (r' & w6' & e6' & He6' & Hcase).
    destruct (Effect_unique _ _ _ _ _ _ _ _ He6' He6) as (-> & _ & ->).
    rewrite Herr in Hcase. destruct Hcase as (-> & _).
    exists (e1 ++ e2 ++ e3 ++ e4 ++ e5 ++ e6).
    rewrite Htrace, <- !app_assoc. reflexivity.
Qed.

Lemma write_failure_is_fatal_witness :
  fst (run read_only_env []) = 1
  /\ written (trace (snd (run read_only_env []))) = []
  /\ map call_cmd (category_calls (trace (snd (run read_only_env []))))
     = map command testSuites
  /\ (exists c, reported (trace (snd (run read_only_env []))) = [c])
  /\ exists tr,
      trace (snd (run read_only_env []))
      = tr ++ [EvError (failure_line
                          {| Js.message := "EACCES: permission denied";
                             Js.stdout := EmptyString |})].
Proof.
  exact (write_failure_is_fatal read_only_env "ok" _ eq_refl eq_refl).
Defined.

(** X6: in a full run that finds the tool, subprocess calls and pauses
    alternate as follows, whatever the subprocesses return and whether or
    not the report can be written: the two probes, then for each category
    of [testSuites] in order its command followed by a pause of 2000 ms;
    the last category, too, is followed by its pause. *)
Theorem pause_after_every_category (env : Env) (out : string) :
  env_exec env 0%nat playwright_version None = Completed out ->
  schedule (trace (snd (run env [])))
  = Call playwright_version :: Call ping_target
      :: flat_map (fun s => [Call (command s); Pause 2000]) testSuites.
Proof.
  intros Htool.
  destruct (full_run_actions env out Htool)
    as (calls & rs & tail & Hinv & Hact & Hcase).
  rewrite schedule_actions, Hact, !schedule_app, (Invoked_schedule _ _ _ Hinv).
  cbn [schedule app].
  assert (Htail : schedule tail = []).
  { destruct (report_error env) as [e|].
    - subst tail. destruct (env_exists env (reportDir env)); [reflexivity|].
      destruct (env_mkdir env (reportDir env)); reflexivity.
    - destruct Hcase as (report & k & -> & _).
      destruct (env_exists env (reportDir env)); reflexivity. }
  rewrite Htail, app_nil_r. reflexivity.
Qed.

Lemma pause_after_every_category_witness :
  schedule (trace (snd (run (sample_env_with [3%nat] [7%nat]) [])))
  = Call playwright_version :: Call ping_target
      :: flat_map (fun s => [Call (command s); Pause 2000]) testSuites.
Proof.
  exact (pause_after_every_category (sample_env_with [3%nat] [7%nat]) "ok" eq_refl).
Defined.

(** X7: the counts of the console summary and those of the persisted
    summary agree, though the script computes them twice (the console's
    failure counts from the loop counters, the report's by filtering the
    entries): the console has the lines [Test suites executed],
    [Successful suites], [Failed suites] and [Critical failures] with
    exactly the numbers of [totalSuites], [passedSuites], [failedSuites]
    and [criticalFailures] of the report. *)
Theorem console_counts_match_report (env : Env) (out : string) :
  env_exec env 0%nat playwright_version None = Completed out ->
  can_write_report env = true ->
  exists report,
    written (trace (snd (run env []))) = [(reportPath env, report)]
    /\ In (info, ("📋 Test suites executed: "
                   ++ Js.numberToString (totalSuites (summary report)))%string)
          (logged (trace (snd (run env []))))
    /\ In (success, ("✅ Successful suites: "
                      ++ Js.numberToString (passedSuites (summary report)))%string)
          (logged (trace (snd (run env []))))
    /\ In (if failedSuites (summary report) >? 0 then error else info,
           ("❌ Failed suites: "
              ++ Js.numberToString (failedSuites (summary report)))%string)
          (logged (trace (snd (run env []))))
    /\ In (if criticalFailures (summary report) >? 0 then error else success,
           ("🚨 Critical failures: "
              ++ Js.numberToString (criticalFailures (summary report)))%string)
          (logged (trace (snd (run env [])))).
Proof.
  intros Htool Hcan.
  destruct (full_run_stages env out Htool)
    as [w1 w2 w3 w4 w5 w6 e1 e2 e3 e4 e5 e6 out' st rs r
        _ Ha1 _ He2 He3 _ _ Hadv Ha4 _ He5 He6 Htrace].
  apply log_events in He2, He3. subst e2 e3.
  destruct (generateSummaryReport_lines env (ls_this st) (ls_criticalFailures st)
              (ls_totalFailures st) w4)
    as (w5' & e5' & He5' & Ha5 & _ & Hl1 & Hl2 & Hl3 & Hl4).
  destruct (Effect_unique _ _ _ _ _ _ _ _ He5' He5) as (_ & _ & ->).
  destruct (generateDetailedReport_effect env (ls_this st) w5)
    as (r' & w6' & e6' & He6' & _ & _ & Hcase).
  destruct (Effect_unique _ _ _ _ _ _ _ _ He6' He6) as (-> & _ & ->).
  rewrite Hcan in Hcase.
  destruct Hcase as (-> & report & Hwr & _ & Htot & Hpass & Hfail & Hcrit).
  destruct Hadv as (Hs & _ & Ht & Hc).
  cbn [loop_start ls_this ls_totalFailures ls_criticalFailures fresh_runner
       this_results suites app] in Hs, Ht, Hc.
  rewrite Hs in Htot, Hpass, Hfail, Hcrit, Hl1, Hl2.
  rewrite Z.add_0_l in Ht, Hc.
  rewrite Ht, <- Hfail in Hl3. rewrite Hc, <- Hcrit in Hl4.
  rewrite <- Htot in Hl1. rewrite <- Hpass in Hl2.
  exists report. rewrite Htrace, app_nil_r.
  split.
  - rewrite written_actions, !actions_app, Ha1, Ha4, Ha5, !written_app,
      <- (written_actions e6), written_loop_actions, Hwr.
    reflexivity.
  - rewrite !logged_app.
    repeat split; do 4 (apply in_or_app; right); apply in_or_app; left;
      assumption.
Qed.

Lemma console_counts_match_report_witness :
  exists report,
    written (trace (snd (run (sample_env [2%nat; 6%nat]) [])))
    = [(reportPath (sample_env [2%nat; 6%nat]), report)]
    /\ In (info, ("📋 Test suites executed: "
                   ++ Js.numberToString (totalSuites (summary report)))%string)
          (logged (trace (snd (run (sample_env [2%nat; 6%nat]) []))))
    /\ In (success, ("✅ Successful suites: "
                      ++ Js.numberToString (passedSuites (summary report)))%string)
          (logged (trace (snd (run (sample_env [2%nat; 6%nat]) []))))
    /\ In (if failedSuites (summary report) >? 0 then error else info,
           ("❌ Failed suites: "
              ++ Js.numberToString (failedSuites (summary report)))%string)
          (logged (trace (snd (run (sample_env [2%nat; 6%nat]) []))))
    /\ In (if criticalFailures (summary report) >? 0 then error else success,
           ("🚨 Critical failures: "
              ++ Js.numberToString (criticalFailures (summary report)))%string)
          (logged (trace (snd (run (sample_env [2%nat; 6%nat]) [])))).
Proof.
  exact (console_counts_match_report (sample_env [2%nat; 6%nat]) "ok"
           eq_refl eq_refl).
Defined.

(** X8: the console line [Detailed report saved to: <path>] appears in a
    full run exactly when the report was written: once, at level info, with
    the path of the report, after a run that found the tool and could write;
    never otherwise.  The path is whatever [path.join] returns for
    [__dirname], [test-results] and [summary-report.json] on the platform
    the script runs on. *)
Theorem saved_line_only_when_written (env : Env) :
  saved_lines (trace (snd (run env [])))
  = if completed (env_exec env 0%nat playwright_version None)
       && can_write_report env
    then [(info, ("📄 Detailed report saved to: " ++ reportPath env)%string)]
    else [].
Proof.
  destruct (env_exec env 0%nat playwright_version None) as [out|why err] eqn:Htool.
  - destruct (full_run_stages env out Htool)
      as [w1 w2 w3 w4 w5 w6 e1 e2 e3 e4 e5 e6 out' st rs r
          _ _ Hs1 He2 He3 _ _ _ _ Hs4 He5 He6 Htrace].
    apply log_events in He2, He3. subst e2 e3.
    destruct (generateSummaryReport_lines env (ls_this st) (ls_criticalFailures st)
                (ls_totalFailures st) w4)
      as (w5' & e5' & He5' & _ & Hs5 & _).
    destruct (Effect_unique _ _ _ _ _ _ _ _ He5' He5) as (_ & _ & ->).
    destruct (generateDetailedReport_actions env (ls_this st) w5)
      as (r' & w6' & e6' & He6' & Hcase).
    destruct (Effect_unique _ _ _ _ _ _ _ _ He6' He6) as (-> & _ & ->).
    rewrite Htrace, !saved_lines_app, Hs1, Hs4, Hs5, report_error_can_write.
    cbn [completed andb].
    destruct (report_error env) as [e|].
    + destruct Hcase as (-> & -> & _). reflexivity.
    + destruct Hcase as (-> & -> & _). reflexivity.
  - rewrite (run_tool_missing env why err Htool). reflexivity.
Qed.




(** X10: what a full run that finds the tool does to the file system, in
    order: it looks for the browsers, looks for the report directory, makes
    that directory only when it is missing (and [mkdirSync] lets it), and
    writes the report only when the directory is there or was made and the
    write goes through.  It touches nothing else, and nothing before the
    categories have run.  The three paths are what [path.join] and
    [path.dirname] return on the platform the script runs on. *)
Theorem report_directory_made_when_missing (env : Env) (out : string) :
  env_exec env 0%nat playwright_version None = Completed out ->
  fs_ops (trace (snd (run env [])))
  = FsExists (browsersPath env)
      :: FsExists (reportDir env)
      :: (if env_exists env (reportDir env) then []
          else match env_mkdir env (reportDir env) with
               | None => [FsMkdir (reportDir env)]
               | Some _ => []
               end)
      ++ (if can_write_report env then [FsWrite (reportPath env)] else []).
Proof.
  intros Htool.
  destruct (full_run_actions env out Htool)
    as (calls & rs & tail & Hinv & Hact & Hcase).
  rewrite fs_ops_actions, Hact, !fs_ops_app, fs_ops_loop_actions.
  cbn [fs_ops app]. do 2 f_equal.
  unfold can_write_report. unfold report_error in Hcase.
  destruct (env_exists env (reportDir env));
    [|destruct (env_mkdir env (reportDir env)) as [e|]];
    try destruct (env_write env (reportPath env)) as [e'|];
    cbn [orb andb];
    try (destruct Hcase as (report & k & -> & _); reflexivity);
    subst tail; reflexivity.
Qed.

Lemma report_directory_made_when_missing_witness :
  fs_ops (trace (snd (run fresh_checkout_env [])))
  = [FsExists (browsersPath fresh_checkout_env);
     FsExists (reportDir fresh_checkout_env);
     FsMkdir (reportDir fresh_checkout_env);
     FsWrite (reportPath fresh_checkout_env)].
Proof.
  exact (report_directory_made_when_missing fresh_checkout_env "ok" eq_refl).
Defined.

(** The paths of the sample environments, where [__dirname] is [/repo] on
    a POSIX system. *)
Example sample_paths :
  reportPath fresh_checkout_env = "/repo/test-results/summary-report.json"
  /\ reportDir fresh_checkout_env = "/repo/test-results"
  /\ browsersPath fresh_checkout_env = "/repo/node_modules/@playwright/test".
Proof. vm_compute. repeat split. Qed.

Section Lines.

Variable env : Env.

Lemma runTestSuite_lines (suiteName cmd : string) (w : World) :
  exists r w' evs,
    Effect (runTestSuite env suiteName cmd) w (Normal r) w' evs
    /\ logged evs
       = [start_line suiteName;
          result_line suiteName (env_exec env (execs w) cmd (Some 300000))]
    /\ rr_error r
       = match env_exec env (execs w) cmd (Some 300000) with
         | Completed _ => None
         | Failed _ err => Some (Js.message err)
         end.
Proof.
  unfold Effect. destruct w as [tr n t].
  cbv beta iota zeta delta
    [runTestSuite bind try_catch log execSync Date_now emit ret trace execs ticks].
  destruct (env_exec env n cmd (Some 300000)) as [out|why err];
    do 3 eexists; read_off.
Qed.

Lemma loop_body_lines (st : LoopState) (suite : Suite) (w : World) :
  exists st' w' evs o,
    Effect (loop_body env st suite) w (Normal st') w' evs
    /\ exec_calls evs = [(command suite, Some 300000, o)]
    /\ logged evs = [start_line (name suite); result_line (name suite) o].
Proof.
  destruct (runTestSuite_lines (name suite) (command suite) w)
    as (r & w1 & e1 & He & Hl & _).
  destruct (runTestSuite_effect env (name suite) (command suite) w)
    as (r' & w1' & e1' & He' & Hc & _).
  destruct (Effect_unique _ _ _ _ _ _ _ _ He' He) as (_ & _ & ->).
  eexists _, _, (e1 ++ [EvSleep 2000]), _. split; [|split].
  - unfold loop_body. eapply Effect_bind; [exact He|].
    split; reflexivity.
  - rewrite exec_calls_app, Hc. reflexivity.
  - rewrite logged_app, Hl. reflexivity.
Qed.

Lemma for_of_lines (l : list Suite) :
  forall (st : LoopState) (w : World),
  exists st' w' evs,
    Effect (for_of env l st) w (Normal st') w' evs
    /\ Forall2 (fun s c =>
                  In (result_line (name s) (call_outcome c)) (logged evs))
               l (exec_calls evs).
Proof.
  induction l as [|suite l IH]; intros st w.
  - exists st, w, []. split; [|constructor].
    split; [reflexivity|symmetry; apply app_nil_r].
  - destruct (loop_body_lines st suite w) as (st1 & w1 & e1 & o & He1 & Hc1 & Hl1).
    destruct (IH st1 w1) as (st2 & w2 & e2 & He2 & Hall).
    exists st2, w2, (e1 ++ e2). split.
    + simpl. eapply Effect_bind; eassumption.
    + rewrite exec_calls_app, Hc1, logged_app, Hl1. cbn [app]. constructor.
      * right. left. reflexivity.
      * eapply Forall2_impl; [|exact Hall].
        intros s c Hin. do 2 right. exact Hin.
Qed.

End Lines.

Lemma append_assoc (a b c : string) :
  ((a ++ b) ++ c = a ++ b ++ c)%string.
Proof. induction a as [|x a IH]; simpl; [reflexivity|]. rewrite IH. reflexivity. Qed.

(** X11: the console of a [--suite <name>] run (under the conditions of C6)
    is two lines and no more: the opening line, which reads
    [Starting <name> tests tests...] since [main] hands [<name> tests] to
    [runTestSuite], and the line that tells how the subprocess ended, at
    level error with the message of the error when it failed.  No summary
    follows, and besides the one subprocess call the process does nothing:
    no prerequisite check, no pause. *)
Theorem suite_option_console (env : Env) (args : list string) (suiteName : string) :
  Js.includes args "--help" = false ->
  Js.includes args "-h" = false ->
  Js.includes args "--check-prereq" = false ->
  Js.indexOf args "--suite" <> -1 ->
  Js.index args (Js.indexOf args "--suite" + 1) = Some suiteName ->
  suiteName <> EmptyString ->
  logged (trace (snd (run env args)))
  = [(info, ("Starting " ++ suiteName ++ " tests tests...")%string);
     result_line (suiteName ++ " tests")
                 (env_exec env 0%nat (playwright_test suiteName) (Some 300000))]
  /\ actions (trace (snd (run env args)))
     = [EvExec (playwright_test suiteName) (Some 300000)
               (env_exec env 0%nat (playwright_test suiteName) (Some 300000))].
Proof.
  intros Hhelp Hh Hprereq Hidx Hname Hnonempty.
  unfold run. rewrite main_dispatch, Hhelp, Hh, Hprereq, Hname.
  apply Z.eqb_neq in Hidx. apply String.eqb_neq in Hnonempty.
  rewrite Hidx. cbn [orb negb andb Js.truthy Js.toString]. rewrite Hnonempty.
  cbn [negb].
  destruct (runTestSuite_lines env (suiteName ++ " tests")
              (playwright_test suiteName) world1)
    as (r & w' & evs & He & Hl & _).
  destruct (runTestSuite_actions env (suiteName ++ " tests")
              (playwright_test suiteName) world1)
    as (r' & w'' & evs' & He' & Ha & _).
  destruct (Effect_unique _ _ _ _ _ _ _ _ He' He) as (_ & _ & ->).
  destruct He as [Hrun Htr].
  unfold bind. rewrite Hrun. cbn [ret fst snd].
  cbn [world1 trace app execs] in Htr, Hl, Ha.
  rewrite Htr, Hl, Ha. split; [|reflexivity].
  unfold start_line. rewrite append_assoc. reflexivity.
Qed.

Lemma suite_option_console_witness :
  logged (trace (snd (run (sample_env [0%nat]) ["--suite"; "smoke"])))
  = [(info, ("Starting " ++ "smoke" ++ " tests tests...")%string);
     result_line ("smoke" ++ " tests")
                 (env_exec (sample_env [0%nat]) 0%nat (playwright_test "smoke")
                           (Some 300000))]
  /\ actions (trace (snd (run (sample_env [0%nat]) ["--suite"; "smoke"])))
     = [EvExec (playwright_test "smoke") (Some 300000)
               (env_exec (sample_env [0%nat]) 0%nat (playwright_test "smoke")
                         (Some 300000))].
Proof.
  apply (suite_option_console (sample_env [0%nat]) ["--suite"; "smoke"] "smoke");
    try reflexivity; discriminate.
Defined.

(** X12: in a full run that finds the tool, every category invocation has
    its result line on the console: position by position, the category of
    [testSuites] and the invocation of the trace give a success line when
    the subprocess completed and, when it did not, an error-level line that
    carries the message of the error. *)
Theorem every_outcome_is_logged (env : Env) (out : string) :
  env_exec env 0%nat playwright_version None = Completed out ->
  Forall2 (fun s c =>
             In (result_line (name s) (call_outcome c))
                (logged (trace (snd (run env [])))))
          testSuites
          (category_calls (trace (snd (run env [])))).
Proof.
  intros Htool.
  destruct (full_run_stages env out Htool)
    as [w1 w2 w3 w4 w5 w6 e1 e2 e3 e4 e5 e6 out' st rs r
        _ Ha1 _ He2 He3 He4 Hinv _ Ha4 _ He5 He6 Htrace].
  apply log_events in He2, He3. subst e2 e3.
  destruct (generateSummaryReport_lines env (ls_this st) (ls_criticalFailures st)
              (ls_totalFailures st) w4)
    as (w5' & e5' & He5' & Ha5 & _).
  destruct (Effect_unique _ _ _ _ _ _ _ _ He5' He5) as (_ & _ & ->).
  destruct (generateDetailedReport_effect env (ls_this st) w5)
    as (r' & w6' & e6' & He6' & Hc6 & _).
  destruct (Effect_unique _ _ _ _ _ _ _ _ He6' He6) as (_ & _ & ->).
  destruct (for_of_lines env testSuites (loop_start (fresh_runner env)) w3)
    as (st' & w4' & e4' & He4' & Hall).
  destruct (Effect_unique _ _ _ _ _ _ _ _ He4' He4) as (_ & _ & ->).
  assert (Hcat : category_calls (trace (snd (run env []))) = exec_calls e4).
  { unfold category_calls.
    rewrite Htrace, !exec_calls_app, (exec_calls_actions e1), Ha1,
      (exec_calls_actions e5), Ha5, Hc6.
    cbn [exec_calls app].
    assert (Hend : exec_calls match r with
                              | Throw e => [EvError (failure_line e)]
                              | _ => []
                              end = []).
    { destruct r; reflexivity. }
    rewrite Hend, app_nil_r.
    change (filter is_category_call (_ :: _ :: exec_calls e4))
      with (filter is_category_call (exec_calls e4)).
    exact (Invoked_category_calls _ _ _ Hinv testSuites_commands). }
  rewrite Hcat, Htrace, !logged_app.
  eapply Forall2_impl; [|exact Hall].
  intros s c Hin. do 3 (apply in_or_app; right). apply in_or_app; left.
  exact Hin.
Qed.

Lemma every_outcome_is_logged_witness :
  Forall2 (fun s c =>
             In (result_line (name s) (call_outcome c))
                (logged (trace (snd (run (sample_env_with [2%nat] [5%nat]) [])))))
          testSuites
          (category_calls (trace (snd (run (sample_env_with [2%nat] [5%nat]) [])))).
Proof.
  exact (every_outcome_is_logged (sample_env_with [2%nat] [5%nat]) "ok" eq_refl).
Defined.

(** ** Beyond the claims: the retry helpers *)

(** *** The two tests on the counter *)

Lemma below_iterations (i : nat) (retries : Helpers.Number) :
  Helpers.below i retries = (i <? Helpers.iterations retries)%nat.
Proof.
  unfold Helpers.below, Helpers.iterations, Helpers.number.
  destruct (Nat.ltb_spec i (Z.to_nat (Qround.Qceiling retries))) as [Hlt|Hge].
  - apply negb_true_iff, not_true_iff_false. intros Hle.
    apply QArith_base.Qle_bool_iff in Hle.
    assert (Hc : Z.of_nat i <= Qround.Qceiling retries - 1) by lia.
    rewrite QArith_base.Zle_Qle in Hc.
    apply (QArith_base.Qlt_irrefl retries).
    eapply QArith_base.Qle_lt_trans; [exact Hle|].
    eapply QArith_base.Qle_lt_trans; [exact Hc|apply Qround.Qceiling_lt].
  - apply negb_false_iff, QArith_base.Qle_bool_iff.
    eapply QArith_base.Qle_trans; [apply Qround.Qle_ceiling|].
    rewrite <- QArith_base.Zle_Qle. lia.
Qed.

Lemma last_iterations (i : nat) (retries : Helpers.Number) :
  Helpers.last i retries
  = Helpers.whole retries && (Helpers.iterations retries =? S i)%nat.
Proof.
  unfold Helpers.last, Helpers.whole, Helpers.iterations, Helpers.number.
  apply eq_true_iff_eq. rewrite andb_true_iff, Nat.eqb_eq.
  rewrite !QArith_base.Qeq_bool_iff.
  split.
  - intros Heq.
    assert (Hr : QArith_base.Qeq retries
                   (QArith_base.inject_Z (Z.of_nat i + 1))).
    { rewrite QArith_base.inject_Z_plus. Lqa.lra. }
    assert (Hc : Qround.Qceiling retries = Z.of_nat i + 1).
    { rewrite (Qround.Qceiling_comp _ _ Hr). apply Qround.Qceiling_Z. }
    rewrite Hc. split; [Lqa.lra|lia].
  - intros [Hw Hn].
    assert (Hc : Qround.Qceiling retries = Z.of_nat i + 1) by lia.
    rewrite Hc, QArith_base.inject_Z_plus in Hw. Lqa.lra.
Qed.

Lemma whole_number (z : Z) : Helpers.whole (Helpers.number z) = true.
Proof.
  unfold Helpers.whole, Helpers.number. rewrite Qround.Qceiling_Z.
  apply QArith_base.Qeq_bool_iff. reflexivity.
Qed.

Lemma iterations_number (z : Z) : Helpers.iterations (Helpers.number z) = Z.to_nat z.
Proof. unfold Helpers.iterations, Helpers.number. rewrite Qround.Qceiling_Z. reflexivity. Qed.

(** A wait follows iteration [i] only when the counter is not the last one
    of a whole [retries]: its number stays within [max_waits]. *)
Lemma wait_within_max (i : nat) (retries : Helpers.Number) :
  (i < Helpers.iterations retries)%nat ->
  Helpers.last i retries = false ->
  Z.of_nat i + 1 <= Helpers.max_waits retries.
Proof.
  intros Hi Hlast. rewrite last_iterations in Hlast. unfold Helpers.max_waits.
  destruct (Helpers.whole retries); cbn [andb] in Hlast; [|lia].
  apply Nat.eqb_neq in Hlast. lia.
Qed.

Section RetryProperties.

Variable get : nat -> string -> Helpers.Options -> Helpers.Settled Helpers.Response.
Variable click : nat -> string -> Z -> Helpers.Settled unit.
Variable waitForTimeout : nat -> Z -> Helpers.Settled unit.

Variable url : string.
Variable options : Helpers.Options.

(** The loops end within their fuel, and do what their unrolled forms
    say. *)
Lemma request_loop_steps (retries : Helpers.Number) (n : nat) :
  forall i fuel,
    (n + i = Helpers.iterations retries)%nat ->
    (n < fuel)%nat ->
    Helpers.request_loop get url options retries fuel i
    = Some (Helpers.request_steps get url options retries n i).
Proof.
  induction n as [|n IH]; intros i fuel Hinv Hfuel;
    (destruct fuel as [|fuel]; [lia|]);
    cbn [Helpers.request_loop Helpers.request_steps];
    rewrite below_iterations.
  - replace (i <? Helpers.iterations retries)%nat with false
      by (symmetry; apply Nat.ltb_ge; lia).
    reflexivity.
  - replace (i <? Helpers.iterations retries)%nat with true
      by (symmetry; apply Nat.ltb_lt; lia).
    rewrite (IH (S i) fuel) by lia.
    destruct (get i url options) as [r|err].
    + destruct (Helpers.status r <? 500); [reflexivity|].
      destruct (Helpers.request_steps get url options retries n (S i));
        reflexivity.
    + destruct (Helpers.last i retries); [reflexivity|].
      destruct (Helpers.request_steps get url options retries n (S i));
        reflexivity.
Qed.

Lemma click_loop_steps (selector : string) (retries : Helpers.Number) (n : nat) :
  forall i fuel,
    (n + i = Helpers.iterations retries)%nat ->
    (n < fuel)%nat ->
    Helpers.click_loop click waitForTimeout selector retries fuel i
    = Some (Helpers.click_steps click waitForTimeout selector retries n i).
Proof.
  induction n as [|n IH]; intros i fuel Hinv Hfuel;
    (destruct fuel as [|fuel]; [lia|]);
    cbn [Helpers.click_loop Helpers.click_steps];
    rewrite below_iterations.
  - replace (i <? Helpers.iterations retries)%nat with false
      by (symmetry; apply Nat.ltb_ge; lia).
    reflexivity.
  - replace (i <? Helpers.iterations retries)%nat with true
      by (symmetry; apply Nat.ltb_lt; lia).
    rewrite (IH (S i) fuel) by lia.
    destruct (click i selector 5000) as [u|err]; [reflexivity|].
    destruct (Helpers.last i retries); [reflexivity|].
    destruct (waitForTimeout i 1000); [|reflexivity].
    destruct (Helpers.click_steps click waitForTimeout selector retries n (S i));
      reflexivity.
Qed.

Lemma makeRequestWithRetry_steps (retries : Helpers.Number) :
  Helpers.makeRequestWithRetry get url (Some options) (Some retries)
  = Some (Helpers.request_steps get url options retries
            (Helpers.iterations retries) 0).
Proof.
  unfold Helpers.makeRequestWithRetry. apply request_loop_steps; lia.
Qed.

Lemma safeClick_steps (selector : string) (retries : Helpers.Number) :
  Helpers.safeClick click waitForTimeout selector (Some retries)
  = Some (Helpers.click_steps click waitForTimeout selector retries
            (Helpers.iterations retries) 0).
Proof.
  unfold Helpers.safeClick. apply click_loop_steps; lia.
Qed.

Lemma request_steps_server_errors (retries : Helpers.Number) (n : nat) :
  forall i,
    (forall j, (i <= j < n + i)%nat ->
               exists r, get j url options = Helpers.Resolved r
                         /\ 500 <= Helpers.status r) ->
    Helpers.request_steps get url options retries n i
    = (Helpers.Returns None, repeat (Helpers.Get url options) n).
Proof.
  induction n as [|n IH]; intros i Hall; [reflexivity|].
  cbn [Helpers.request_steps repeat].
  destruct (Hall i ltac:(lia)) as (r & -> & Hr).
  destruct (Helpers.status r <? 500) eqn:Hlt; [apply Z.ltb_lt in Hlt; lia|].
  rewrite IH; [reflexivity|].
  intros j Hj. apply Hall. lia.
Qed.

Lemma request_steps_throws (retries : Helpers.Number) (n : nat) :
  forall i e,
    (n + i = Helpers.iterations retries)%nat ->
    fst (Helpers.request_steps get url options retries n i) = Helpers.Throws e ->
    Helpers.whole retries = true
    /\ get (pred (Helpers.iterations retries)) url options = Helpers.Rejected e
    /\ List.length
         (filter Helpers.is_get
                 (snd (Helpers.request_steps get url options retries n i)))
       = n.
Proof.
  induction n as [|n IH]; intros i e Hinv; [discriminate|].
  cbn [Helpers.request_steps].
  destruct (get i url options) as [r|err] eqn:Hget.
  - destruct (Helpers.status r <? 500); [discriminate|].
    destruct (Helpers.request_steps get url options retries n (S i))
      as [c evs] eqn:Hrec.
    cbn [fst snd filter Helpers.is_get List.length]. intros ->.
    assert (Hfst : fst (Helpers.request_steps get url options retries n (S i))
                   = Helpers.Throws e) by (rewrite Hrec; reflexivity).
    destruct (IH (S i) e ltac:(lia) Hfst) as (Hwhole & Hlast & Hlen).
    rewrite Hrec in Hlen. cbn [snd] in Hlen.
    split; [exact Hwhole|split; [exact Hlast|]].
    rewrite Hlen. reflexivity.
  - destruct (Helpers.last i retries) eqn:Hi.
    + rewrite last_iterations in Hi. apply andb_true_iff in Hi.
      destruct Hi as [Hwhole Hi]. apply Nat.eqb_eq in Hi.
      cbn [fst snd]. intros [= ->].
      split; [exact Hwhole|]. rewrite Hi. cbn [pred].
      split; [exact Hget|]. cbn. f_equal. lia.
    + destruct (Helpers.request_steps get url options retries n (S i))
        as [c evs] eqn:Hrec.
      cbn [fst snd filter Helpers.is_get List.length]. intros ->.
      assert (Hfst : fst (Helpers.request_steps get url options retries n (S i))
                     = Helpers.Throws e) by (rewrite Hrec; reflexivity).
      destruct (IH (S i) e ltac:(lia) Hfst) as (Hwhole & Hlast & Hlen).
      rewrite Hrec in Hlen. cbn [snd] in Hlen.
      split; [exact Hwhole|split; [exact Hlast|]].
      rewrite Hlen. reflexivity.
Qed.

Lemma request_steps_returns (retries : Helpers.Number) (n : nat) :
  forall i r,
    fst (Helpers.request_steps get url options retries n i)
    = Helpers.Returns (Some r) ->
    exists k,
      (i <= k < n + i)%nat
      /\ get k url options = Helpers.Resolved r
      /\ Helpers.status r < 500
      /\ (forall j, (i <= j < k)%nat -> ~ Helpers.good get url options j)
      /\ List.length
           (filter Helpers.is_get
                   (snd (Helpers.request_steps get url options retries n i)))
         = S (k - i).
Proof.
  induction n as [|n IH]; intros i r; [discriminate|].
  cbn [Helpers.request_steps].
  destruct (get i url options) as [r0|err] eqn:Hget.
  - destruct (Helpers.status r0 <? 500) eqn:Hlt.
    + cbn [fst snd]. intros [= ->]. apply Z.ltb_lt in Hlt.
      exists i. repeat split; try lia; try assumption.
      cbn. f_equal. lia.
    + destruct (Helpers.request_steps get url options retries n (S i))
        as [c evs] eqn:Hrec.
      cbn [fst snd filter Helpers.is_get List.length]. intros ->.
      assert (Hfst : fst (Helpers.request_steps get url options retries n (S i))
                     = Helpers.Returns (Some r)) by (rewrite Hrec; reflexivity).
      destruct (IH (S i) r Hfst) as (k & Hk & Hgk & Hst & Hbad & Hlen).
      rewrite Hrec in Hlen. cbn [snd] in Hlen.
      exists k. repeat split; try lia; try assumption.
      intros j Hj (r' & Hr' & Hgood).
      destruct (Nat.eq_dec j i) as [->|Hne].
      * rewrite Hget in Hr'. injection Hr' as <-.
        apply Z.ltb_ge in Hlt. lia.
      * apply (Hbad j ltac:(lia)). exists r'. split; assumption.
  - destruct (Helpers.last i retries); [discriminate|].
    destruct (Helpers.request_steps get url options retries n (S i))
      as [c evs] eqn:Hrec.
    cbn [fst snd filter Helpers.is_get List.length]. intros ->.
    assert (Hfst : fst (Helpers.request_steps get url options retries n (S i))
                   = Helpers.Returns (Some r)) by (rewrite Hrec; reflexivity).
    destruct (IH (S i) r Hfst) as (k & Hk & Hgk & Hst & Hbad & Hlen).
    rewrite Hrec in Hlen. cbn [snd] in Hlen.
    exists k. repeat split; try lia; try assumption.
    intros j Hj (r' & Hr' & Hgood).
    destruct (Nat.eq_dec j i) as [->|Hne].
    + rewrite Hget in Hr'. discriminate.
    + apply (Hbad j ltac:(lia)). exists r'. split; assumption.
Qed.

Lemma request_steps_waits (retries : Helpers.Number) (n : nat) :
  forall i,
    (n + i = Helpers.iterations retries)%nat ->
    Forall (fun ms => 1000 * (Z.of_nat i + 1) <= ms
                      <= 1000 * Helpers.max_waits retries)
           (Helpers.waits (snd (Helpers.request_steps get url options retries n i)))
    /\ StronglySorted Z.lt
         (Helpers.waits (snd (Helpers.request_steps get url options retries n i)))
    /\ (Helpers.total_wait (snd (Helpers.request_steps get url options retries n i))
        = 0
        \/ (0 < n)%nat
           /\ Helpers.total_wait
                (snd (Helpers.request_steps get url options retries n i))
              <= 500 * (Helpers.max_waits retries
                        * (Helpers.max_waits retries + 1)
                        - Z.of_nat i * (Z.of_nat i + 1))).
Proof.
  unfold Helpers.total_wait.
  induction n as [|n IH]; intros i Hinv.
  - cbn [snd Helpers.request_steps Helpers.waits fold_right].
    split; [constructor|split; [constructor|left; reflexivity]].
  - cbn [Helpers.request_steps].
    destruct (IH (S i) ltac:(lia)) as (Hall & Hsorted & Hsum).
    destruct (Helpers.request_steps get url options retries n (S i))
      as [c evs] eqn:Hrec.
    cbn [snd] in Hall, Hsorted, Hsum.
    assert (Hstep : Helpers.last i retries = false ->
                    Z.of_nat i + 1 <= Helpers.max_waits retries).
    { apply wait_within_max. lia. }
    set (B := Helpers.max_waits retries) in *.
    assert (Hweak : Forall (fun ms => 1000 * (Z.of_nat i + 1) <= ms <= 1000 * B)
                           (Helpers.waits evs)).
    { eapply Forall_impl; [|exact Hall]. cbn beta. intros ms Hms. lia. }
    assert (Hrest : fold_right Z.add 0 (Helpers.waits evs)
                    <= 500 * (B * (B + 1) - Z.of_nat i * (Z.of_nat i + 1))
                       - 1000 * (Z.of_nat i + 1)
                    \/ fold_right Z.add 0 (Helpers.waits evs) = 0).
    { destruct Hsum as [Hz | [_ Hle]]; [right; exact Hz|left].
      rewrite Nat2Z.inj_succ in Hle. nia. }
    destruct (get i url options) as [r|err].
    + destruct (Helpers.status r <? 500); cbn [snd Helpers.waits].
      * split; [constructor|split; [constructor|left; reflexivity]].
      * split; [exact Hweak|split; [exact Hsorted|]].
        destruct Hrest as [Hle|Hz]; [right|left; exact Hz].
        split; [lia|nia].
    + destruct (Helpers.last i retries) eqn:Heq; cbn [snd Helpers.waits].
      * split; [constructor|split; [constructor|left; reflexivity]].
      * specialize (Hstep eq_refl). split; [|split].
        -- constructor; [lia|exact Hweak].
        -- constructor; [exact Hsorted|].
           eapply Forall_impl; [|exact Hall]. cbn beta. intros ms Hms. lia.
        -- right. split; [lia|]. cbn [fold_right].
           destruct Hrest as [Hle|Hz]; [lia|]. rewrite Hz. nia.
Qed.

(** With every request rejected and [retries] not whole, no iteration is
    the last one for the [catch] block: each request is followed by its
    wait, and the loop ends. *)
Lemma request_steps_rejected_fraction (retries : Helpers.Number)
    (err : nat -> Js.Error) (n : nat) :
  forall i,
    Helpers.whole retries = false ->
    (forall j, (i <= j < n + i)%nat ->
               get j url options = Helpers.Rejected (err j)) ->
    Helpers.request_steps get url options retries n i
    = (Helpers.Returns None,
       flat_map (fun j => [Helpers.Get url options;
                           Helpers.Wait (1000 * (Z.of_nat j + 1))])
                (seq i n)).
Proof.
  induction n as [|n IH]; intros i Hfrac Hrej; [reflexivity|].
  cbn [Helpers.request_steps seq flat_map app].
  rewrite (Hrej i ltac:(lia)), last_iterations, Hfrac. cbn [andb].
  rewrite (IH (S i)); [reflexivity|exact Hfrac|].
  intros j Hj. apply Hrej. lia.
Qed.

Lemma click_steps_never_false (selector : string) (retries : Helpers.Number)
    (n : nat) :
  forall i,
    (n + i = Helpers.iterations retries)%nat ->
    (0 < n)%nat ->
    Helpers.whole retries = true ->
    fst (Helpers.click_steps click waitForTimeout selector retries n i)
    <> Helpers.Returns false.
Proof.
  induction n as [|n IH]; intros i Hinv Hpos Hwhole; [lia|].
  cbn [Helpers.click_steps].
  destruct (click i selector 5000); [discriminate|].
  destruct (Helpers.last i retries) eqn:Hi; [discriminate|].
  rewrite last_iterations, Hwhole in Hi. cbn [andb] in Hi.
  apply Nat.eqb_neq in Hi.
  destruct (waitForTimeout i 1000); [|discriminate].
  specialize (IH (S i) ltac:(lia) ltac:(lia) Hwhole).
  destruct (Helpers.click_steps click waitForTimeout selector retries n (S i))
    as [c evs].
  exact IH.
Qed.

Lemma click_steps_false_fraction (selector : string) (retries : Helpers.Number)
    (n : nat) :
  forall i,
    Helpers.whole retries = false ->
    fst (Helpers.click_steps click waitForTimeout selector retries n i)
    = Helpers.Returns false
    <-> (forall j, (i <= j < n + i)%nat ->
                   (exists e, click j selector 5000 = Helpers.Rejected e)
                   /\ waitForTimeout j 1000 = Helpers.Resolved tt).
Proof.
  induction n as [|n IH]; intros i Hfrac.
  - cbn [Helpers.click_steps fst]. split; [intros _ j Hj; lia|reflexivity].
  - cbn [Helpers.click_steps]. rewrite last_iterations, Hfrac. cbn [andb].
    specialize (IH (S i) Hfrac).
    destruct (click i selector 5000) as [u|err] eqn:Hclick.
    + cbn [fst]. split; [discriminate|].
      intros Hall. destruct (Hall i ltac:(lia)) as [[e He] _].
      rewrite Hclick in He. discriminate.
    + destruct (waitForTimeout i 1000) as [u|err'] eqn:Hwait.
      * destruct (Helpers.click_steps click waitForTimeout selector retries n (S i))
          as [c evs].
        cbn [fst] in IH |- *. rewrite IH. destruct u. split.
        -- intros Hall j Hj. destruct (Nat.eq_dec j i) as [->|Hne].
           ++ split; [exists err; exact Hclick|exact Hwait].
           ++ apply Hall. lia.
        -- intros Hall j Hj. apply Hall. lia.
      * cbn [fst]. split; [discriminate|].
        intros Hall. destruct (Hall i ltac:(lia)) as [_ Hw].
        rewrite Hwait in Hw. discriminate.
Qed.


Lemma click_steps_rejected (selector : string) (retries : Helpers.Number)
    (err : nat -> Js.Error) (n : nat) :
  forall i,
    (S n + i = Helpers.iterations retries)%nat ->
    Helpers.whole retries = true ->
    (forall j, (i <= j <= n + i)%nat ->
               click j selector 5000 = Helpers.Rejected (err j)) ->
    (forall j, (i <= j < n + i)%nat ->
               waitForTimeout j 1000 = Helpers.Resolved tt) ->
    Helpers.click_steps click waitForTimeout selector retries (S n) i
    = (Helpers.Throws (err (n + i)%nat),
       concat (repeat [Helpers.Click selector 5000; Helpers.Wait 1000] n)
         ++ [Helpers.Click selector 5000]).
Proof.
  induction n as [|n IH]; intros i Hinv Hwhole Hrej Hwait.
  - cbn [Helpers.click_steps]. rewrite (Hrej i ltac:(lia)).
    rewrite last_iterations, Hwhole.
    replace (Helpers.iterations retries =? S i)%nat with true
      by (symmetry; apply Nat.eqb_eq; lia).
    reflexivity.
  - change (Helpers.click_steps click waitForTimeout selector retries (S (S n)) i)
      with (match click i selector 5000 with
            | Helpers.Resolved _ =>
                (Helpers.Returns true, [Helpers.Click selector 5000])
            | Helpers.Rejected err =>
                if Helpers.last i retries then
                  (Helpers.Throws err, [Helpers.Click selector 5000])
                else
                  match waitForTimeout i 1000 with
                  | Helpers.Rejected err' =>
                      (Helpers.Throws err',
                       [Helpers.Click selector 5000; Helpers.Wait 1000])
                  | Helpers.Resolved _ =>
                      let (c, evs) :=
                        Helpers.click_steps click waitForTimeout selector retries
                                            (S n) (S i) in
                      (c, Helpers.Click selector 5000 :: Helpers.Wait 1000 :: evs)
                  end
            end).
    rewrite (Hrej i ltac:(lia)).
    rewrite last_iterations, Hwhole.
    replace (Helpers.iterations retries =? S i)%nat with false
      by (symmetry; apply Nat.eqb_neq; lia).
    cbn [andb].
    rewrite (Hwait i ltac:(lia)), (IH (S i)); try assumption; try lia.
    + replace (n + S i)%nat with (S n + i)%nat by lia. reflexivity.
    + intros j Hj. apply Hrej. lia.
    + intros j Hj. apply Hwait. lia.
Qed.

Lemma click_steps_first_success (selector : string) (retries : Helpers.Number)
    (err : nat -> Js.Error) (k : nat) :
  forall n i,
    (n + i = Helpers.iterations retries)%nat ->
    (k < n)%nat ->
    (forall j, (i <= j < k + i)%nat ->
               click j selector 5000 = Helpers.Rejected (err j)) ->
    (forall j, (i <= j < k + i)%nat ->
               waitForTimeout j 1000 = Helpers.Resolved tt) ->
    click (k + i)%nat selector 5000 = Helpers.Resolved tt ->
    Helpers.click_steps click waitForTimeout selector retries n i
    = (Helpers.Returns true,
       concat (repeat [Helpers.Click selector 5000; Helpers.Wait 1000] k)
         ++ [Helpers.Click selector 5000]).
Proof.
  induction k as [|k IH]; intros n i Hinv Hk Hrej Hwait Hok;
    (destruct n as [|n]; [lia|]); cbn [Helpers.click_steps].
  - cbn [Nat.add] in Hok. rewrite Hok. reflexivity.
  - rewrite (Hrej i ltac:(lia)).
    rewrite last_iterations.
    replace (Helpers.iterations retries =? S i)%nat with false
      by (symmetry; apply Nat.eqb_neq; lia).
    rewrite andb_false_r.
    rewrite (Hwait i ltac:(lia)), (IH n (S i)); try assumption; try lia.
    + reflexivity.
    + intros j Hj. apply Hrej. lia.
    + intros j Hj. apply Hwait. lia.
    + replace (k + S i)%nat with (S k + i)%nat by lia. exact Hok.
Qed.

(** A wait that rejects ends [safeClick] with the error of the wait. *)
Lemma click_steps_wait_rejected (selector : string) (retries : Helpers.Number)
    (err : nat -> Js.Error) (e : Js.Error) (k : nat) :
  forall n i,
    (k < n)%nat ->
    (forall j, (i <= j <= k + i)%nat ->
               click j selector 5000 = Helpers.Rejected (err j)) ->
    (forall j, (i <= j <= k + i)%nat -> Helpers.last j retries = false) ->
    (forall j, (i <= j < k + i)%nat ->
               waitForTimeout j 1000 = Helpers.Resolved tt) ->
    waitForTimeout (k + i)%nat 1000 = Helpers.Rejected e ->
    Helpers.click_steps click waitForTimeout selector retries n i
    = (Helpers.Throws e,
       concat (repeat [Helpers.Click selector 5000; Helpers.Wait 1000] (S k))).
Proof.
  induction k as [|k IH]; intros n i Hk Hrej Hlast Hwait Hbad;
    (destruct n as [|n]; [lia|]); cbn [Helpers.click_steps];
    rewrite (Hrej i ltac:(lia)), (Hlast i ltac:(lia)).
  - cbn [Nat.add] in Hbad. rewrite Hbad. reflexivity.
  - rewrite (Hwait i ltac:(lia)), (IH n (S i)); try lia.
    + reflexivity.
    + intros j Hj. apply Hrej. lia.
    + intros j Hj. apply Hlast. lia.
    + intros j Hj. apply Hwait. lia.
    + replace (k + S i)%nat with (S k + i)%nat by lia. exact Hbad.
Qed.

End RetryProperties.

Lemma sum_nonneg (l : list Z) :
  Forall (fun x => 0 <= x) l -> 0 <= fold_right Z.add 0 l.
Proof. induction 1 as [|x l Hx _ IH]; cbn [fold_right]; lia. Qed.

Example request_two_and_a_half_tries :
  Helpers.makeRequestWithRetry Helpers.unreachable "https://li.quest/v1/chains"
    None (Some (QArith_base.Qmake 5 2))
  = Some (Helpers.Returns None,
          [Helpers.Get "https://li.quest/v1/chains" []; Helpers.Wait 1000;
           Helpers.Get "https://li.quest/v1/chains" []; Helpers.Wait 2000;
           Helpers.Get "https://li.quest/v1/chains" []; Helpers.Wait 3000]).
Proof. vm_compute. reflexivity. Qed.

Example request_three_tries :
  Helpers.makeRequestWithRetry Helpers.unreachable "https://li.quest/v1/chains"
    None None
  = Some (Helpers.Throws (Helpers.connection_error 2),
          [Helpers.Get "https://li.quest/v1/chains" []; Helpers.Wait 1000;
           Helpers.Get "https://li.quest/v1/chains" []; Helpers.Wait 2000;
           Helpers.Get "https://li.quest/v1/chains" []]).
Proof. vm_compute. reflexivity. Qed.

Example click_two_and_a_half_tries :
  Helpers.safeClick Helpers.never_clickable Helpers.page_stays_open "button"
    (Some (QArith_base.Qmake 5 2))
  = Some (Helpers.Returns false,
          [Helpers.Click "button" 5000; Helpers.Wait 1000;
           Helpers.Click "button" 5000; Helpers.Wait 1000;
           Helpers.Click "button" 5000; Helpers.Wait 1000]).
Proof. vm_compute. reflexivity. Qed.

Example click_half_a_try :
  Helpers.safeClick Helpers.never_clickable Helpers.page_stays_open "button"
    (Some (QArith_base.Qmake 1 2))
  = Some (Helpers.Returns false,
          [Helpers.Click "button" 5000; Helpers.Wait 1000]).
Proof. vm_compute. reflexivity. Qed.

Example click_page_closes :
  Helpers.safeClick (Helpers.clickable_from 2) Helpers.page_closes
    "button" None
  = Some (Helpers.Throws Helpers.page_closed,
          [Helpers.Click "button" 5000; Helpers.Wait 1000]).
Proof. vm_compute. reflexivity. Qed.

Section RetryTheorems.

Variable get : nat -> string -> Helpers.Options -> Helpers.Settled Helpers.Response.
Variable click : nat -> string -> Z -> Helpers.Settled unit.
Variable waitForTimeout : nat -> Z -> Helpers.Settled unit.

(** X13: when every request answers with a status of 500 or more,
    [makeRequestWithRetry] makes one request for each counter below
    [retries] ([retries] of them, rounded up when it is not whole), back to
    back, without a wait between them, and then returns [undefined]:
    neither the last response nor an error.  With [retries] zero or
    negative it makes no request at all. *)
Theorem server_errors_give_undefined (url : string) (options : Helpers.Options)
    (retries : Helpers.Number) :
  (forall i, Helpers.below i retries = true ->
             exists r, get i url options = Helpers.Resolved r
                       /\ 500 <= Helpers.status r) ->
  Helpers.makeRequestWithRetry get url (Some options) (Some retries)
  = Some (Helpers.Returns None,
          repeat (Helpers.Get url options)
                 (Z.to_nat (Qround.Qceiling retries))).
Proof.
  intros Hall. rewrite makeRequestWithRetry_steps. f_equal.
  apply request_steps_server_errors. intros j Hj. apply Hall.
  rewrite below_iterations. apply Nat.ltb_lt.
  unfold Helpers.iterations in *. lia.
Qed.

(** X14: [makeRequestWithRetry] throws only the error of its last allowed
    request: if it throws [e], then [retries] is a whole number, at least
    1, the request number [retries] (index [retries - 1]) was rejected with
    [e], and all [retries] requests were made. *)
Theorem request_throws_last_error (url : string) (options : Helpers.Options)
    (retries : Helpers.Number) (e : Js.Error) (evs : list Helpers.Event) :
  Helpers.makeRequestWithRetry get url (Some options) (Some retries)
  = Some (Helpers.Throws e, evs) ->
  exists n : nat,
    QArith_base.Qeq retries (Helpers.number (Z.of_nat n + 1))
    /\ get n url options = Helpers.Rejected e
    /\ List.length (filter Helpers.is_get evs) = S n.
Proof.
  rewrite makeRequestWithRetry_steps. intros Hthrow.
  injection Hthrow as Hsteps.
  assert (Hfst : fst (Helpers.request_steps get url options retries
                        (Helpers.iterations retries) 0)
                 = Helpers.Throws e) by (rewrite Hsteps; reflexivity).
  destruct (request_steps_throws get url options retries
              (Helpers.iterations retries) 0%nat e ltac:(lia) Hfst)
    as (Hwhole & Hlast & Hlen).
  rewrite Hsteps in Hlen. cbn [snd] in Hlen.
  destruct (Helpers.iterations retries) as [|n] eqn:Hn;
    [cbn in Hsteps; discriminate|].
  exists n. cbn [pred] in Hlast.
  split; [|split; assumption].
  unfold Helpers.whole in Hwhole. apply QArith_base.Qeq_bool_iff in Hwhole.
  unfold Helpers.iterations in Hn.
  replace (Z.of_nat n + 1) with (Qround.Qceiling retries) by lia.
  symmetry. exact Hwhole.
Qed.

(** X15: a response [makeRequestWithRetry] returns is the first one with a
    status below 500: it is the answer to some request [k] with [k] below
    [retries], no earlier request got such an answer, and request [k] was
    the last one made. *)
Theorem request_returns_first_good (url : string) (options : Helpers.Options)
    (retries : Helpers.Number) (r : Helpers.Response)
    (evs : list Helpers.Event) :
  Helpers.makeRequestWithRetry get url (Some options) (Some retries)
  = Some (Helpers.Returns (Some r), evs) ->
  exists k,
    Helpers.below k retries = true
    /\ get k url options = Helpers.Resolved r
    /\ Helpers.status r < 500
    /\ (forall j, (j < k)%nat -> ~ Helpers.good get url options j)
    /\ List.length (filter Helpers.is_get evs) = S k.
Proof.
  rewrite makeRequestWithRetry_steps. intros Hret.
  injection Hret as Hsteps.
  assert (Hfst : fst (Helpers.request_steps get url options retries
                        (Helpers.iterations retries) 0)
                 = Helpers.Returns (Some r)) by (rewrite Hsteps; reflexivity).
  destruct (request_steps_returns get url options retries
              (Helpers.iterations retries) 0%nat r Hfst)
    as (k & Hk & Hgk & Hst & Hbad & Hlen).
  rewrite Hsteps in Hlen. cbn [snd] in Hlen.
  exists k. split; [|split; [exact Hgk|split; [exact Hst|split]]].
  - rewrite below_iterations. apply Nat.ltb_lt.
  unfold Helpers.iterations in *. lia.
  - intros j Hj. apply Hbad. lia.
  - rewrite Hlen. f_equal. lia.
Qed.

(** X16: [makeRequestWithRetry] ends, and its waits grow and are bounded.
    With [m] the most waits it can make ([retries - 1] for a whole
    [retries] of at least 1, [retries] rounded up for one that is not
    whole, 0 for a zero or negative one), each wait is between 1000 and
    [1000 * m] ms, each is longer than the one before, and together they
    take at most [500 * m * (m + 1)] ms: 3 s for the default of three
    tries, 6 s for two and a half. *)
Theorem request_backoff (url : string) (options : Helpers.Options)
    (retries : Helpers.Number) :
  exists c evs,
    Helpers.makeRequestWithRetry get url (Some options) (Some retries)
    = Some (c, evs)
    /\ Forall (fun ms => 1000 <= ms <= 1000 * Helpers.max_waits retries)
              (Helpers.waits evs)
    /\ StronglySorted Z.lt (Helpers.waits evs)
    /\ 0 <= Helpers.total_wait evs
         <= 500 * Helpers.max_waits retries * (Helpers.max_waits retries + 1).
Proof.
  rewrite makeRequestWithRetry_steps.
  destruct (request_steps_waits get url options retries
              (Helpers.iterations retries) 0%nat ltac:(lia))
    as (Hall & Hsorted & Hsum).
  destruct (Helpers.request_steps get url options retries
              (Helpers.iterations retries) 0) as [c evs].
  cbn [snd] in Hall, Hsorted, Hsum.
  exists c, evs. split; [reflexivity|].
  split; [|split; [exact Hsorted|]].
  - eapply Forall_impl; [|exact Hall]. cbn beta. intros ms Hms. lia.
  - assert (Hnonneg : 0 <= Helpers.total_wait evs).
    { unfold Helpers.total_wait. apply sum_nonneg.
      eapply Forall_impl; [|exact Hall]. cbn beta. intros ms Hms. lia. }
    split; [exact Hnonneg|].
    assert (Hm : 0 <= Helpers.max_waits retries)
      by (unfold Helpers.max_waits; lia).
    destruct Hsum as [Hz|[_ Hle]]; [rewrite Hz; nia|].
    change (Z.of_nat 0) with 0 in Hle. lia.
Qed.

(** X17: [safeClick] returns [false] in two cases only.  Either it is
    allowed no attempt ([retries] zero or negative, so that the loop test
    fails at once); or [retries] is not a whole number, every click it
    tries is rejected and every wait resolves, so that no iteration is the
    last one for the [catch] block.  For a whole [retries] of at least 1 it
    returns [true] or throws. *)
Theorem safeClick_returns_false (selector : string) (retries : Helpers.Number) :
  (exists evs,
      Helpers.safeClick click waitForTimeout selector (Some retries)
      = Some (Helpers.Returns false, evs))
  <-> Helpers.below 0 retries = false
      \/ (Helpers.whole retries = false
          /\ forall j, Helpers.below j retries = true ->
                       (exists e, click j selector 5000 = Helpers.Rejected e)
                       /\ waitForTimeout j 1000 = Helpers.Resolved tt).
Proof.
  rewrite safeClick_steps, below_iterations. split.
  - intros [evs Hfalse]. injection Hfalse as Hsteps.
    assert (Hfst : fst (Helpers.click_steps click waitForTimeout selector
                          retries (Helpers.iterations retries) 0)
                   = Helpers.Returns false) by (rewrite Hsteps; reflexivity).
    destruct (Helpers.iterations retries) as [|n] eqn:Hn;
      [left; reflexivity|right].
    destruct (Helpers.whole retries) eqn:Hwhole.
    + exfalso.
      apply (click_steps_never_false click waitForTimeout selector retries
               (S n) 0%nat); [lia|lia|exact Hwhole|exact Hfst].
    + split; [reflexivity|]. intros j Hj.
      rewrite below_iterations, Hn in Hj. apply Nat.ltb_lt in Hj.
      apply (proj1 (click_steps_false_fraction click waitForTimeout selector
                      retries (S n) 0%nat Hwhole) Hfst).
      lia.
  - intros [Hnone|[Hfrac Hall]].
    + apply Nat.ltb_ge in Hnone.
      replace (Helpers.iterations retries) with 0%nat by lia.
      exists []. reflexivity.
    + assert (Hfst : fst (Helpers.click_steps click waitForTimeout selector
                            retries (Helpers.iterations retries) 0)
                     = Helpers.Returns false).
      { apply click_steps_false_fraction; [exact Hfrac|].
        intros j Hj. apply Hall. rewrite below_iterations.
        apply Nat.ltb_lt. lia. }
      destruct (Helpers.click_steps click waitForTimeout selector retries
                  (Helpers.iterations retries) 0) as [c evs].
      cbn [fst] in Hfst. subst c. exists evs. reflexivity.
Qed.

(** X18: for a whole number [retries] of at least 1, when every allowed
    click is rejected and the waits between them resolve, [safeClick]
    clicks [retries] times with a wait of 1000 ms after each click but the
    last, and throws the error of the last click. *)
Theorem safeClick_gives_up (selector : string) (retries : Z)
    (err : nat -> Js.Error) :
  1 <= retries ->
  (forall j, Z.of_nat j < retries ->
             click j selector 5000 = Helpers.Rejected (err j)) ->
  (forall j, Z.of_nat j < retries - 1 ->
             waitForTimeout j 1000 = Helpers.Resolved tt) ->
  Helpers.safeClick click waitForTimeout selector
                    (Some (Helpers.number retries))
  = Some (Helpers.Throws (err (Z.to_nat (retries - 1))),
          concat (repeat [Helpers.Click selector 5000; Helpers.Wait 1000]
                         (Z.to_nat (retries - 1)))
            ++ [Helpers.Click selector 5000]).
Proof.
  intros Hpos Hrej Hwait. rewrite safeClick_steps, iterations_number. f_equal.
  replace (Z.to_nat retries) with (S (Z.to_nat (retries - 1))) by lia.
  rewrite (click_steps_rejected click waitForTimeout selector
             (Helpers.number retries) err (Z.to_nat (retries - 1)) 0%nat).
  - rewrite Nat.add_0_r. reflexivity.
  - rewrite iterations_number. lia.
  - apply whole_number.
  - intros j Hj. apply Hrej. lia.
  - intros j Hj. apply Hwait. lia.
Qed.

(** X19: [safeClick] stops at the first click that goes through: when the
    clicks before click [k] are rejected, the wait after each of them
    resolves, and click [k], with [k] below [retries], goes through, it
    returns [true] after [k] rejected clicks, each followed by a wait of
    1000 ms, and that one click. *)
Theorem safeClick_first_success (selector : string) (retries : Helpers.Number)
    (err : nat -> Js.Error) (k : nat) :
  Helpers.below k retries = true ->
  (forall j, (j < k)%nat -> click j selector 5000 = Helpers.Rejected (err j)) ->
  (forall j, (j < k)%nat -> waitForTimeout j 1000 = Helpers.Resolved tt) ->
  click k selector 5000 = Helpers.Resolved tt ->
  Helpers.safeClick click waitForTimeout selector (Some retries)
  = Some (Helpers.Returns true,
          concat (repeat [Helpers.Click selector 5000; Helpers.Wait 1000] k)
            ++ [Helpers.Click selector 5000]).
Proof.
  intros Hk Hrej Hwait Hok. rewrite safeClick_steps. f_equal.
  rewrite below_iterations in Hk. apply Nat.ltb_lt in Hk.
  apply (click_steps_first_success click waitForTimeout selector retries err k
           (Helpers.iterations retries) 0%nat);
    try assumption; try lia.
  - intros j Hj. apply Hrej. lia.
  - intros j Hj. apply Hwait. lia.
  - rewrite Nat.add_0_r. exact Hok.
Qed.


(** X27: with a [retries] that is not a whole number,
    [makeRequestWithRetry] never throws: when every request is rejected, it
    makes one request for each counter [i] below [retries], waits
    [1000 * (i + 1)] ms after each, the last one too, and returns
    [undefined]. *)
Theorem request_fraction_gives_undefined (url : string)
    (options : Helpers.Options) (retries : Helpers.Number)
    (err : nat -> Js.Error) :
  Helpers.whole retries = false ->
  (forall j, Helpers.below j retries = true ->
             get j url options = Helpers.Rejected (err j)) ->
  Helpers.makeRequestWithRetry get url (Some options) (Some retries)
  = Some (Helpers.Returns None,
          flat_map (fun j => [Helpers.Get url options;
                              Helpers.Wait (1000 * (Z.of_nat j + 1))])
                   (seq 0 (Z.to_nat (Qround.Qceiling retries)))).
Proof.
  intros Hfrac Hall. rewrite makeRequestWithRetry_steps. f_equal.
  apply (request_steps_rejected_fraction get url options retries err);
    [exact Hfrac|].
  intros j Hj. apply Hall. rewrite below_iterations. apply Nat.ltb_lt.
  unfold Helpers.iterations in *. lia.
Qed.

(** X28: a wait that rejects (the page was closed) ends [safeClick] with
    the error of the wait, also when a later click would have gone
    through: when clicks [0] to [k] are rejected, [k] is below [retries]
    and not its last counter, the waits before wait [k] resolve and wait
    [k] is rejected with [e], [safeClick] throws [e] after [k + 1] clicks
    and [k + 1] waits. *)
Theorem safeClick_wait_rejected (selector : string) (retries : Helpers.Number)
    (err : nat -> Js.Error) (e : Js.Error) (k : nat) :
  Helpers.below k retries = true ->
  Helpers.last k retries = false ->
  (forall j, (j <= k)%nat -> click j selector 5000 = Helpers.Rejected (err j)) ->
  (forall j, (j < k)%nat -> waitForTimeout j 1000 = Helpers.Resolved tt) ->
  waitForTimeout k 1000 = Helpers.Rejected e ->
  Helpers.safeClick click waitForTimeout selector (Some retries)
  = Some (Helpers.Throws e,
          concat (repeat [Helpers.Click selector 5000; Helpers.Wait 1000]
                         (S k))).
Proof.
  intros Hk Hlast Hrej Hwait Hbad. rewrite safeClick_steps. f_equal.
  rewrite below_iterations in Hk. apply Nat.ltb_lt in Hk.
  apply (click_steps_wait_rejected click waitForTimeout selector retries err e k
           (Helpers.iterations retries) 0%nat).
  - exact Hk.
  - intros j Hj. apply Hrej. lia.
  - intros j Hj. destruct (Nat.eq_dec j k) as [->|Hne]; [exact Hlast|].
    rewrite last_iterations.
    replace (Helpers.iterations retries =? S j)%nat with false
      by (symmetry; apply Nat.eqb_neq; lia).
    apply andb_false_r.
  - intros j Hj. apply Hwait. lia.
  - rewrite Nat.add_0_r. exact Hbad.
Qed.

End RetryTheorems.

Lemma server_errors_give_undefined_witness :
  Helpers.makeRequestWithRetry Helpers.unavailable "https://li.quest/v1/chains"
    (Some []) (Some (Helpers.number 3))
  = Some (Helpers.Returns None,
          repeat (Helpers.Get "https://li.quest/v1/chains" [])
                 (Z.to_nat (Qround.Qceiling (Helpers.number 3)))).
Proof.
  apply (server_errors_give_undefined Helpers.unavailable
           "https://li.quest/v1/chains" [] (Helpers.number 3)).
  intros i _. eexists. split; [reflexivity|]. simpl. lia.
Defined.

Lemma request_throws_last_error_witness :
  exists n : nat,
    QArith_base.Qeq (Helpers.number 3) (Helpers.number (Z.of_nat n + 1))
    /\ Helpers.unreachable n "https://li.quest/v1/chains" []
       = Helpers.Rejected (Helpers.connection_error 2)
    /\ List.length
         (filter Helpers.is_get
                 [Helpers.Get "https://li.quest/v1/chains" [];
                  Helpers.Wait 1000;
                  Helpers.Get "https://li.quest/v1/chains" [];
                  Helpers.Wait 2000;
                  Helpers.Get "https://li.quest/v1/chains" []])
       = S n.
Proof.
  apply (request_throws_last_error Helpers.unreachable
           "https://li.quest/v1/chains" [] (Helpers.number 3)
           (Helpers.connection_error 2)).
  vm_compute. reflexivity.
Defined.

Lemma request_returns_first_good_witness :
  exists k,
    Helpers.below k (Helpers.number 3) = true
    /\ Helpers.flaky k "https://li.quest/v1/chains" []
       = Helpers.Resolved {| Helpers.status := 200; Helpers.body := "ok" |}
    /\ Helpers.status {| Helpers.status := 200; Helpers.body := "ok" |} < 500
    /\ (forall j, (j < k)%nat ->
                  ~ Helpers.good Helpers.flaky "https://li.quest/v1/chains" [] j)
    /\ List.length
         (filter Helpers.is_get
                 [Helpers.Get "https://li.quest/v1/chains" [];
                  Helpers.Wait 1000;
                  Helpers.Get "https://li.quest/v1/chains" [];
                  Helpers.Wait 2000;
                  Helpers.Get "https://li.quest/v1/chains" []])
       = S k.
Proof.
  apply (request_returns_first_good Helpers.flaky "https://li.quest/v1/chains"
           [] (Helpers.number 3)
           {| Helpers.status := 200; Helpers.body := "ok" |}).
  vm_compute. reflexivity.
Defined.

Lemma safeClick_gives_up_witness :
  Helpers.safeClick Helpers.never_clickable Helpers.page_stays_open
    "button" (Some (Helpers.number 3))
  = Some (Helpers.Throws (Helpers.click_error (Z.to_nat (3 - 1))),
          concat (repeat [Helpers.Click "button" 5000; Helpers.Wait 1000]
                         (Z.to_nat (3 - 1)))
            ++ [Helpers.Click "button" 5000]).
Proof.
  apply (safeClick_gives_up Helpers.never_clickable Helpers.page_stays_open
           "button" 3 Helpers.click_error).
  - lia.
  - intros j _. reflexivity.
  - intros j _. reflexivity.
Defined.

Lemma safeClick_first_success_witness :
  Helpers.safeClick (Helpers.clickable_from 1) Helpers.page_stays_open
    "button" (Some (Helpers.number 3))
  = Some (Helpers.Returns true,
          concat (repeat [Helpers.Click "button" 5000; Helpers.Wait 1000] 1)
            ++ [Helpers.Click "button" 5000]).
Proof.
  apply (safeClick_first_success (Helpers.clickable_from 1)
           Helpers.page_stays_open "button" (Helpers.number 3)
           Helpers.click_error 1).
  - reflexivity.
  - intros j Hj. assert (j = 0%nat) as -> by lia. reflexivity.
  - intros j _. reflexivity.
  - reflexivity.
Defined.


Lemma request_fraction_gives_undefined_witness :
  Helpers.makeRequestWithRetry Helpers.unreachable "https://li.quest/v1/chains"
    (Some []) (Some (QArith_base.Qmake 5 2))
  = Some (Helpers.Returns None,
          flat_map (fun j => [Helpers.Get "https://li.quest/v1/chains" [];
                              Helpers.Wait (1000 * (Z.of_nat j + 1))])
                   (seq 0 (Z.to_nat (Qround.Qceiling (QArith_base.Qmake 5 2))))).
Proof.
  apply (request_fraction_gives_undefined Helpers.unreachable
           "https://li.quest/v1/chains" [] (QArith_base.Qmake 5 2)
           Helpers.connection_error).
  - reflexivity.
  - intros j _. reflexivity.
Defined.

Lemma safeClick_wait_rejected_witness :
  Helpers.safeClick (Helpers.clickable_from 2) Helpers.page_closes
    "button" (Some (Helpers.number 3))
  = Some (Helpers.Throws Helpers.page_closed,
          concat (repeat [Helpers.Click "button" 5000; Helpers.Wait 1000] 1)).
Proof.
  apply (safeClick_wait_rejected (Helpers.clickable_from 2)
           Helpers.page_closes "button" (Helpers.number 3)
           Helpers.click_error Helpers.page_closed 0).
  - reflexivity.
  - reflexivity.
  - intros j Hj. assert (j = 0%nat) as -> by lia. reflexivity.
  - intros j Hj. lia.
  - reflexivity.
Defined.

(** ** Beyond the claims: the shared test configuration *)

Lemma getEnvironmentConfig_same_rest (env : option string) (s : Config.Store) :
  Config.same_rest s (Config.getEnvironmentConfig env s).
Proof.
  unfold Config.getEnvironmentConfig, Config.same_rest.
  destruct (String.eqb _ "development");
    [|destruct (String.eqb _ "staging"); [|destruct (String.eqb _ "ci")]];
    cbn; repeat split.
Qed.

Lemma same_rest_trans (a b c : Config.Store) :
  Config.same_rest a b -> Config.same_rest b c -> Config.same_rest a c.
Proof.
  unfold Config.same_rest.
  intros (A1 & A2 & A3 & A4 & A5 & A6 & A7 & A8 & A9 & A10 & A11 & A12)
         (B1 & B2 & B3 & B4 & B5 & B6 & B7 & B8 & B9 & B10 & B11 & B12).
  repeat split; congruence.
Qed.

Lemma calls_snoc (envs : list (option string)) (env : option string)
    (s : Config.Store) :
  Config.calls (envs ++ [env]) s
  = Config.getEnvironmentConfig env (Config.calls envs s).
Proof. unfold Config.calls. rewrite fold_left_app. reflexivity. Qed.

Lemma getEnvironmentConfig_settings (env : option string) (s : Config.Store) :
  (Config.pageLoad (Config.timeouts (Config.getEnvironmentConfig env s)),
   Config.pageLoadTime (Config.performance (Config.getEnvironmentConfig env s)))
  = match Config.override env with
    | Some v => v
    | None => (Config.pageLoad (Config.timeouts s),
               Config.pageLoadTime (Config.performance s))
    end
  /\ Config.retries (Config.ci (Config.getEnvironmentConfig env s))
     = if Config.is_ci env then 3 else Config.retries (Config.ci s).
Proof.
  unfold Config.getEnvironmentConfig, Config.override, Config.is_ci.
  destruct env as [e|]; [|split; reflexivity].
  destruct (String.eqb e "development") eqn:Hd.
  - apply String.eqb_eq in Hd. subst e. split; reflexivity.
  - destruct (String.eqb e "staging") eqn:Hs.
    + apply String.eqb_eq in Hs. subst e. split; reflexivity.
    + destruct (String.eqb e "ci"); split; reflexivity.
Qed.

(** X20: whatever configs have been asked for, and in whatever order, the
    shared configuration differs from where it started in at most three
    settings: [timeouts.pageLoad], [performance.pageLoadTime] and
    [ci.retries].  Every other timeout, threshold and CI setting is as it
    was. *)
Theorem overrides_keep_other_settings (envs : list (option string))
    (s : Config.Store) :
  Config.same_rest s (Config.calls envs s).
Proof.
  induction envs as [|env envs IH] using rev_ind.
  - unfold Config.same_rest. cbn. repeat split.
  - rewrite calls_snoc.
    exact (same_rest_trans _ _ _ IH (getEnvironmentConfig_same_rest _ _)).
Qed.

(** X21: [ci.retries] sticks.  After any series of calls it is 3 if one of
    them was for [ci], and what it was before otherwise: once the [ci]
    config has been asked for, the config returned for every environment
    retries three times. *)
Theorem ci_retries_stick (envs : list (option string)) (s : Config.Store) :
  Config.retries (Config.ci (Config.calls envs s))
  = if existsb Config.is_ci envs then 3 else Config.retries (Config.ci s).
Proof.
  induction envs as [|env envs IH] using rev_ind; [reflexivity|].
  rewrite calls_snoc, existsb_app.
  destruct (getEnvironmentConfig_settings env (Config.calls envs s)) as [_ ->].
  rewrite IH. cbn [existsb]. rewrite orb_false_r.
  destruct (Config.is_ci env); [rewrite orb_true_r; reflexivity|].
  rewrite orb_false_r. reflexivity.
Qed.

Lemma last_override_snoc (envs : list (option string)) (env : option string) :
  Config.last_override (envs ++ [env])
  = match Config.override env with
    | Some v => Some v
    | None => Config.last_override envs
    end.
Proof. unfold Config.last_override. rewrite fold_left_app. reflexivity. Qed.

(** X22: the last override wins, and nothing undoes it.  After any series
    of calls, [timeouts.pageLoad] and [performance.pageLoadTime] are those of
    the last call for [development], [staging] or [ci]; a call for
    [production], for any other name or without a name changes nothing, so
    the production values do not come back. *)
Theorem page_load_follows_last_override (envs : list (option string))
    (s : Config.Store) :
  (Config.pageLoad (Config.timeouts (Config.calls envs s)),
   Config.pageLoadTime (Config.performance (Config.calls envs s)))
  = match Config.last_override envs with
    | Some v => v
    | None => (Config.pageLoad (Config.timeouts s),
               Config.pageLoadTime (Config.performance s))
    end.
Proof.
  induction envs as [|env envs IH] using rev_ind; [reflexivity|].
  rewrite calls_snoc, last_override_snoc.
  destruct (getEnvironmentConfig_settings env (Config.calls envs s)) as [-> _].
  destruct (Config.override env); [reflexivity|exact IH].
Qed.

Example production_after_development :
  Config.pageLoad
    (Config.timeouts
       (Config.calls [Some "development"; Some "production"] Config.TestConfig))
  = 60000
  /\ Config.pageLoad (Config.timeouts (Config.calls [Some "production"]
                                                     Config.TestConfig))
     = 30000.
Proof. split; reflexivity. Qed.

Section Getters.

Variable inherited : string -> bool.

(** X23: [getTimeout] changes what it reads.  Asked for [pageLoad] while
    [TEST_ENV] is [development] it answers 60000, and the next call, with no
    environment set, still answers 60000, whatever the configuration was
    before; on the untouched configuration that second call answers
    30000. *)
Theorem getTimeout_remembers (NODE_ENV : option string) (s : Config.Store) :
  fst (Config.getTimeout inherited (Some "development") NODE_ENV "pageLoad" s)
  = Config.Number 60000
  /\ fst (Config.getTimeout inherited None None "pageLoad"
            (snd (Config.getTimeout inherited (Some "development") NODE_ENV
                    "pageLoad" s)))
     = Config.Number 60000
  /\ fst (Config.getTimeout inherited None None "pageLoad" Config.TestConfig)
     = Config.Number 30000.
Proof. repeat split. Qed.

(** X24: asked for an operation it has no timeout for (and that is no name
    of [Object.prototype]), [getTimeout] answers the [medium] timeout; the
    environment in force does not matter, since no override touches
    [medium]. *)
Theorem unknown_timeout_is_medium (TEST_ENV NODE_ENV : option string)
    (operation : string) (s : Config.Store) :
  ~ In operation ["short"; "medium"; "long"; "api"; "pageLoad"] ->
  inherited operation = false ->
  fst (Config.getTimeout inherited TEST_ENV NODE_ENV operation s)
  = Config.Number (Config.medium (Config.timeouts s)).
Proof.
  intros Hown Hinh. unfold Config.getTimeout, Config.timeouts_get. cbn [fst].
  assert (Hne : forall k, In k ["short"; "medium"; "long"; "api"; "pageLoad"] ->
                          String.eqb operation k = false).
  { intros k Hk. apply String.eqb_neq. intros ->. exact (Hown Hk). }
  rewrite !Hne, Hinh by (cbn; tauto).
  cbn [Config.orValue].
  destruct (getEnvironmentConfig_same_rest
              (Some (Config.getCurrentEnvironment TEST_ENV NODE_ENV)) s)
    as (_ & -> & _).
  reflexivity.
Qed.

(** X25: [getBaseUrl] answers the production URL for every environment it
    has no URL for (no name of [Object.prototype]), [ci] among them, and
    still applies that environment's overrides to the shared
    configuration. *)
Theorem unknown_environment_gets_production_url (env : option string)
    (s : Config.Store) :
  ~ In (Js.toString env) ["production"; "staging"; "development"; "local"] ->
  inherited (Js.toString env) = false ->
  Config.getBaseUrl inherited env s
  = (Config.Text "https://li.fi", Config.getEnvironmentConfig env s).
Proof.
  intros Hown Hinh. unfold Config.getBaseUrl. f_equal.
  assert (Hne : forall k, In k ["production"; "staging"; "development"; "local"] ->
                          String.eqb (Js.toString env) k = false).
  { intros k Hk. apply String.eqb_neq. intros Heq. apply Hown.
    rewrite Heq. exact Hk. }
  unfold Config.environments. cbn [Config.environments_get].
  rewrite !Hne, Hinh by (cbn; tauto).
  reflexivity.
Qed.

End Getters.

Lemma unknown_timeout_is_medium_witness :
  fst (Config.getTimeout Config.usual_prototype (Some "ci") None "navigation"
         Config.TestConfig)
  = Config.Number (Config.medium (Config.timeouts Config.TestConfig)).
Proof.
  apply (unknown_timeout_is_medium Config.usual_prototype (Some "ci") None
           "navigation" Config.TestConfig).
  - cbn. intros [H|[H|[H|[H|[H|[]]]]]]; discriminate.
  - reflexivity.
Defined.

Lemma unknown_environment_gets_production_url_witness :
  Config.getBaseUrl Config.usual_prototype (Some "ci") Config.TestConfig
  = (Config.Text "https://li.fi",
     Config.getEnvironmentConfig (Some "ci") Config.TestConfig).
Proof.
  apply (unknown_environment_gets_production_url Config.usual_prototype
           (Some "ci") Config.TestConfig).
  - cbn. intros [H|[H|[H|[H|[]]]]]; discriminate.
  - reflexivity.
Defined.
